(** * MicroGuide: query-intent parsing, relevance ranking, search
      orchestration, TTL cache / delete protocol and path generation.

    Shallow embedding of [src/lib/aiSearch.ts], [src/lib/database.ts],
    [src/lib/openaiService.ts] and [src/lib/pathGenerator.ts], and of the
    row-level policies on [learning_paths] in
    [supabase/migrations/20250704183052_empty_shrine.sql].

    Modelling conventions.
    - A JavaScript [number] is an exact rational ([Q]); timestamps and
      list positions are integers ([Z], [nat]).  The relevance score is
      embedded over an abstract arithmetic as well, which is read exactly
      or as IEEE doubles; no other statement depends on floating-point
      rounding.
    - A JavaScript [string] is a [string] of 8-bit characters; case folding
      and the whitespace class are the ASCII ones.
    - A [Map] that is iterated in insertion order is an association list;
      a [Map] that is only looked up, written and cleared is a [gmap].
    - [async] functions are sequential; each remote call is answered by an
      explicit response value supplied by the environment, and a function
      that calls the store or the completion service returns, next to its
      result, the list of requests it issued.  The delete protocol runs
      against the table [learning_paths] itself, under its policies.
    - A value that comes from outside (a row of the store, the parsed
      answer of the completion service) may fall short of its TypeScript
      type where that makes the code raise: a null [description], an
      answer without a usable [suggestedTopics]. *)

From Stdlib Require Import ZArith QArith Qabs Qround Qminmax String Ascii List Lia.
From Stdlib Require Import Sorted Permutation.
From Stdlib Require PrimFloat.
From stdpp Require Import gmap strings list.

Local Open Scope string_scope.
Local Open Scope list_scope.

(* ===================================================================== *)
(** ** String primitives of the JavaScript runtime *)
(* ===================================================================== *)

Module Js.

(** [String.prototype.toLowerCase], on ASCII letters. *)
Definition lower_ascii (c : ascii) : ascii :=
  let n := N_of_ascii c in
  if ((65 <=? n) && (n <=? 90))%N then ascii_of_N (n + 32) else c.

Definition upper_ascii (c : ascii) : ascii :=
  let n := N_of_ascii c in
  if ((97 <=? n) && (n <=? 122))%N then ascii_of_N (n - 32) else c.

Fixpoint toLowerCase (s : string) : string :=
  match s with
  | EmptyString => EmptyString
  | String c s' => String (lower_ascii c) (toLowerCase s')
  end.

Fixpoint toUpperCase (s : string) : string :=
  match s with
  | EmptyString => EmptyString
  | String c s' => String (upper_ascii c) (toUpperCase s')
  end.

(** [s.includes(sub)]: [sub] occurs in [s] at some position. *)
Fixpoint includes (s sub : string) : bool :=
  String.prefix sub s ||
  match s with
  | EmptyString => false
  | String _ s' => includes s' sub
  end.

(** The class [\s] restricted to ASCII: TAB, LF, VT, FF, CR, SPACE. *)
Definition is_space (c : ascii) : bool :=
  let n := N_of_ascii c in
  (((9 <=? n) && (n <=? 13)) || (n =? 32))%N.

(** [s.split(/\s+/)]: cut at every maximal run of white space.  A leading
    or trailing run leaves an empty first or last piece, and the empty
    string splits into one empty piece. *)
Fixpoint split_ws_go (skipping : bool) (cur : string) (s : string)
  : list string :=
  match s with
  | EmptyString => [cur]
  | String c s' =>
      if is_space c then
        if skipping then split_ws_go true cur s'
        else cur :: split_ws_go true "" s'
      else split_ws_go false (cur +:+ String c "") s'
  end.

Definition split_ws (s : string) : list string := split_ws_go false "" s.

(** [s.split(' ')]: cut at every single space character. *)
Fixpoint split_space_go (cur : string) (s : string) : list string :=
  match s with
  | EmptyString => [cur]
  | String c s' =>
      if Ascii.eqb c " "%char then cur :: split_space_go "" s'
      else split_space_go (cur +:+ String c "") s'
  end.

Definition split_space (s : string) : list string := split_space_go "" s.

(** [arr.includes(x)] on an array of strings. *)
Definition array_includes (l : list string) (x : string) : bool :=
  existsb (String.eqb x) l.

(** [arr.join(sep)]. *)
Fixpoint join (sep : string) (l : list string) : string :=
  match l with
  | [] => ""
  | [x] => x
  | x :: rest => x +:+ sep +:+ join sep rest
  end.

(** Truthiness of a string: only the empty string is falsy. *)
Definition truthy (s : string) : bool := negb (String.eqb s "").

(** [a || b] on strings. *)
Definition or_else (a b : string) : string := if truthy a then a else b.

(** [Set.prototype.add] on a set kept in insertion order. *)
Definition set_add (x : string) (s : list string) : list string :=
  if array_includes s x then s else s ++ [x].

Fixpoint drop_ws (s : string) : string :=
  match s with
  | EmptyString => EmptyString
  | String c s' => if is_space c then drop_ws s' else s
  end.

Fixpoint drop_ws_list (l : list ascii) : list ascii :=
  match l with
  | [] => []
  | c :: l' => if is_space c then drop_ws_list l' else l
  end.

(** [s.trim()] *)
Definition trim (s : string) : string :=
  string_of_list_ascii
    (rev (drop_ws_list (rev (list_ascii_of_string (drop_ws s))))).

(** [s.replace(/\s+/g, rep)]: every maximal run of white space becomes
    one [rep]. *)
Fixpoint replace_ws_go (rep : string) (skipping : bool) (s : string)
  : string :=
  match s with
  | EmptyString => EmptyString
  | String c s' =>
      if is_space c then
        if skipping then replace_ws_go rep true s'
        else rep +:+ replace_ws_go rep true s'
      else String c (replace_ws_go rep false s')
  end.

Definition replace_ws (rep : string) (s : string) : string :=
  replace_ws_go rep false s.

(** [Math.ceil] and [Math.floor] *)
Definition ceil (x : Q) : Q := inject_Z (Qceiling x).
Definition floor (x : Q) : Q := inject_Z (Qfloor x).

(** [x || d] on an optional number: [undefined] and [0] are falsy. *)
Definition number_or (x : option Q) (d : Q) : Q :=
  match x with
  | Some v => if Qeq_bool v 0 then d else v
  | None => d
  end.

(** No character of the string is white space. *)
Fixpoint no_space (s : string) : bool :=
  match s with
  | EmptyString => true
  | String c s' => negb (is_space c) && no_space s'
  end.

(** Every character of the string is an ASCII character. *)
Fixpoint is_ascii (s : string) : bool :=
  match s with
  | EmptyString => true
  | String c s' => (N_of_ascii c <? 128)%N && is_ascii s'
  end.

(** A word: no white space inside, and already in lower case. *)
Definition is_word (w : string) : Prop :=
  no_space w = true /\ toLowerCase w = w.

End Js.

(* ===================================================================== *)
(** ** Row types of [src/lib/supabase.ts] *)
(* ===================================================================== *)

Inductive Difficulty := beginner | intermediate | advanced.

Definition difficulty_name (d : Difficulty) : string :=
  match d with
  | beginner => "beginner"
  | intermediate => "intermediate"
  | advanced => "advanced"
  end.

Inductive ContentType := video | article | course | exercise | book.

Record LearningPath := {
  id : string;
  title : string;
  description : string;
  topic : string;
  difficulty_level : string;
  estimated_duration : Q;
  created_by : string;
  is_public : bool;
  total_nodes : Q;
  completion_rate : Q;
  tags : option (list string)   (* [None]: the column is null *)
}.

(** [Omit<LearningNode, 'id' | 'path_id' | 'created_at' | 'updated_at'>].
    The [description] text is presentation only and is left out. *)
Record LearningNode := {
  node_title : string;
  content_type : ContentType;
  resource_url : option string;
  node_estimated_duration : Q;
  order_index : Z;
  prerequisites : list string;
  is_required : bool
}.

(** A row of [learning_nodes]. *)
Record NodeRow := {
  node_id : string;
  path_id : string;
  node_fields : LearningNode
}.

(** A value that can be thrown or handed back in the [error] field of a
    reply: either an instance of [Error] (or of a subclass), or any other
    value, such as an error object decoded from a response body.  Both carry
    a [message]. *)
Inductive Thrown :=
  | ErrorInstance (message : string)
  | PlainObject (message : string).

(** [error instanceof Error ? error.message : fallback] *)
Definition message_or (fallback : string) (e : Thrown) : string :=
  match e with
  | ErrorInstance m => m
  | PlainObject _ => fallback
  end.

(** The [{ data, error }] object a store request resolves to. *)
Record Reply (A : Type) := { data : option A; error : option Thrown }.
Arguments data {A} _.
Arguments error {A} _.

(** An awaited store request either resolves to a reply or rejects. *)
Inductive Outcome (A : Type) :=
  | resolved (r : Reply A)
  | rejected (e : Thrown).
Arguments resolved {A} _.
Arguments rejected {A} _.

(** The error an awaited request comes back with, by rejection or in the
    [error] field of its reply; [None] when it went through. *)
Definition failure {A : Type} (o : Outcome A) : option Thrown :=
  match o with
  | rejected e => Some e
  | resolved r => error r
  end.

(** The rows of a reply that went through; [null] counts as no rows. *)
Definition rows_of {A : Type} (o : Outcome (list A)) : list A :=
  match o with
  | resolved r => match data r with Some l => l | None => [] end
  | rejected _ => []
  end.

(* ===================================================================== *)
(** ** [openaiService.ts]: the query enhancement *)
(* ===================================================================== *)

Module OpenAI.

Record Enhanced := {
  enhancedQuery : string;
  suggestedTopics : list string;
  difficulty : string;
  estimatedDuration : Q
}.

(** What the chat-completion call and [JSON.parse] come to. *)
Inductive Completion :=
  | completion_throws          (* the call or [JSON.parse] raises *)
  | completion_no_content      (* no [content] in the first choice *)
  | completion_parsed (v : Enhanced)
  | completion_misshapen.
      (* the content parses, but not to the declared shape:
         [suggestedTopics] cannot be indexed (the field is missing or
         null, or the answer is null or no object), or its first element
         is a truthy value that is no string *)

Definition fallback (query : string) : Enhanced :=
  {| enhancedQuery := query;
     suggestedTopics := [];
     difficulty := "beginner";
     estimatedDuration := 10 |}.

(** What [enhanceSearchQuery] hands back: the parsed answer is returned
    unchecked, so it need not have the declared shape. *)
Inductive Answer :=
  | shaped (v : Enhanced)
  | misshapen.

(** [enhanceSearchQuery]; [configured] is [this.openai !== null]. *)
Definition enhanceSearchQuery
  (configured : bool) (c : Completion) (query : string) : Answer :=
  if negb configured then shaped (fallback query)
  else match c with
       | completion_parsed v => shaped v
       | completion_misshapen => misshapen
       | completion_throws | completion_no_content => shaped (fallback query)
       end.

End OpenAI.

(* ===================================================================== *)
(** ** [aiSearch.ts]: the heuristic intent parser *)
(* ===================================================================== *)

Module AiSearch.

Inductive LearningType := practical | theoretical | mixed.

Record QueryIntent := {
  intent_topic : string;
  intent_difficulty : string;
  keywords : list string;
  estimatedDuration : Q;
  confidence : Q;
  learningType : LearningType
}.

(** [initializeTopicMappings]: the entries in insertion order. *)
Definition topicMappings : list (string * string) :=
  [ ("web development", "web-development");
    ("frontend", "web-development");
    ("backend", "web-development");
    ("react", "web-development");
    ("javascript", "web-development");
    ("python", "data-science");
    ("machine learning", "ai-ml");
    ("ai", "ai-ml");
    ("blockchain", "web3");
    ("crypto", "web3");
    ("ui/ux", "design");
    ("design", "design");
    ("marketing", "business");
    ("entrepreneurship", "business") ].

(** The topic loop of [parseQueryIntent]: first key contained in the
    query wins and sets the confidence to 0.8; otherwise the initial
    values [''] and 0.5 stay. *)
Fixpoint detect_topic (lowerQuery : string) (m : list (string * string))
  : string * Q :=
  match m with
  | [] => ("", (1 # 2)%Q)
  | (key, value) :: rest =>
      if Js.includes lowerQuery key then (value, (4 # 5)%Q)
      else detect_topic lowerQuery rest
  end.

Definition stopWords : list string :=
  ["learn"; "how"; "to"; "the"; "a"; "an"; "and"; "or"; "but"; "in"; "on";
   "at"; "for"; "with"].

Definition parseQueryIntent (query : string) : QueryIntent :=
  let lowerQuery := Js.toLowerCase query in
  let words := Js.split_ws lowerQuery in
  let '(topic0, confidence0) := detect_topic lowerQuery topicMappings in
  let has := Js.includes lowerQuery in
  let '(difficulty, confidence1) :=
    if has "advanced" || has "expert" then
      ("advanced", (confidence0 + (1 # 10))%Q)
    else if has "intermediate" || has "medium" then
      ("intermediate", (confidence0 + (1 # 10))%Q)
    else if has "beginner" || has "basic" || has "intro" then
      ("beginner", (confidence0 + (1 # 10))%Q)
    else ("beginner", confidence0) in
  let duration : Q :=
    (if has "quick" || has "crash course" then 5
     else if has "comprehensive" || has "complete" then 30
     else if has "deep" || has "master" then 50
     else 10)%Q in
  let ltype :=
    if has "hands-on" || has "project" || has "build" then practical
    else if has "theory" || has "concept" || has "understand"
         then theoretical
    else mixed in
  let kws :=
    List.filter
      (fun word => negb (Js.array_includes stopWords word)
                   && (2 <? String.length word)%nat)
      words in
  {| intent_topic := topic0;
     intent_difficulty := difficulty;
     keywords := kws;
     estimatedDuration := duration;
     confidence := Qmin confidence1 1;
     learningType := ltype |}.

(* ------------------------------------------------------------------- *)
(** *** Relevance ranking *)

(** The arithmetic of JavaScript numbers, as far as the score uses it;
    [js_number q] is the number that stands for the rational [q]. *)
Record Arithmetic (N : Type) := {
  js_number : Q -> N;
  js_add : N -> N -> N;
  js_sub : N -> N -> N;
  js_mul : N -> N -> N;
  js_div : N -> N -> N;
  js_abs : N -> N;             (* [Math.abs] *)
  js_max : N -> N -> N;        (* [Math.max] *)
  js_min : N -> N -> N         (* [Math.min] *)
}.
Arguments js_number {N} _ _.
Arguments js_add {N} _ _ _.
Arguments js_sub {N} _ _ _.
Arguments js_mul {N} _ _ _.
Arguments js_div {N} _ _ _.
Arguments js_abs {N} _ _.
Arguments js_max {N} _ _ _.
Arguments js_min {N} _ _ _.

(** Numbers read exactly. *)
Definition exact : Arithmetic Q :=
  {| js_number := fun q => q;
     js_add := Qplus; js_sub := Qminus; js_mul := Qmult; js_div := Qdiv;
     js_abs := Qabs; js_max := Qmax; js_min := Qmin |}.

(** Numbers read as IEEE 754 binary64 values, which JavaScript numbers
    are.  An integer below 2^53 converts exactly, so [double_of_Q] is the
    double nearest to a rational whose numerator and denominator are below
    2^53. *)
Fixpoint double_of_positive (p : positive) : PrimFloat.float :=
  match p with
  | xH => PrimFloat.one
  | xO p' => PrimFloat.mul PrimFloat.two (double_of_positive p')
  | xI p' =>
      PrimFloat.add (PrimFloat.mul PrimFloat.two (double_of_positive p'))
        PrimFloat.one
  end.

Definition double_of_Q (q : Q) : PrimFloat.float :=
  let numerator :=
    match Qnum q with
    | Z0 => PrimFloat.zero
    | Zpos p => double_of_positive p
    | Zneg p => PrimFloat.opp (double_of_positive p)
    end in
  PrimFloat.div numerator (double_of_positive (Qden q)).

(** [Math.max]: NaN when an argument is NaN, and +0 above -0. *)
Definition double_max (a b : PrimFloat.float) : PrimFloat.float :=
  if PrimFloat.is_nan a || PrimFloat.is_nan b then PrimFloat.nan
  else if PrimFloat.ltb a b then b
  else if PrimFloat.ltb b a then a
  else if PrimFloat.is_zero a then PrimFloat.add a b
  else a.

(** [Math.min]: NaN when an argument is NaN, and -0 below +0. *)
Definition double_min (a b : PrimFloat.float) : PrimFloat.float :=
  if PrimFloat.is_nan a || PrimFloat.is_nan b then PrimFloat.nan
  else if PrimFloat.ltb a b then a
  else if PrimFloat.ltb b a then b
  else if PrimFloat.is_zero a
       then PrimFloat.opp (PrimFloat.add (PrimFloat.opp a) (PrimFloat.opp b))
  else a.

Definition double : Arithmetic PrimFloat.float :=
  {| js_number := double_of_Q;
     js_add := PrimFloat.add; js_sub := PrimFloat.sub;
     js_mul := PrimFloat.mul; js_div := PrimFloat.div;
     js_abs := PrimFloat.abs; js_max := double_max; js_min := double_min |}.

Definition tag_hit (tgs : list string) (keyword : string) : bool :=
  existsb (fun tag => Js.includes (Js.toLowerCase tag) keyword) tgs.

Section Score.
Context {N : Type} (A : Arithmetic N).

(** [intent.keywords.forEach(keyword => { if (hit(keyword)) score += w })] *)
Definition forEach_add (kws : list string) (hit : string -> bool) (w : N)
  (score : N) : N :=
  fold_left (fun sc kw => if hit kw then js_add A sc w else sc) kws score.

(** [calculateRelevanceScore], over the arithmetic [A]. *)
Definition calculateRelevanceScore_over
  (path : LearningPath) (intent : QueryIntent) (query : string) : N :=
  let literal (z : Z) : N := js_number A (inject_Z z) in
  let score := literal 0%Z in
  let lowerQuery := Js.toLowerCase query in
  let lowerTitle := Js.toLowerCase (title path) in
  let lowerDescription := Js.toLowerCase (description path) in
  (* Title match *)
  let score :=
    if Js.includes lowerTitle lowerQuery then js_add A score (literal 10%Z)
    else score in
  let score :=
    forEach_add (keywords intent) (Js.includes lowerTitle) (literal 5%Z)
      score in
  (* Description match *)
  let score :=
    if Js.includes lowerDescription lowerQuery
    then js_add A score (literal 5%Z) else score in
  let score :=
    forEach_add (keywords intent) (Js.includes lowerDescription) (literal 2%Z)
      score in
  (* Topic match *)
  let score :=
    if String.eqb (topic path) (intent_topic intent)
    then js_add A score (literal 8%Z) else score in
  (* Difficulty match *)
  let score :=
    if String.eqb (difficulty_level path) (intent_difficulty intent)
    then js_add A score (literal 3%Z) else score in
  (* Duration preference *)
  let durationDiff :=
    js_abs A (js_sub A (js_number A (estimated_duration path))
                       (js_number A (estimatedDuration intent))) in
  let score :=
    js_add A score
      (js_max A (literal 0%Z)
         (js_sub A (literal 5%Z) (js_div A durationDiff (literal 10%Z)))) in
  (* Quality indicators *)
  let score :=
    js_add A score (js_mul A (js_number A (completion_rate path))
                             (literal 2%Z)) in
  let score :=
    js_add A score
      (js_min A (js_div A (js_number A (total_nodes path)) (literal 10%Z))
         (literal 3%Z)) in
  (* Tags match *)
  match tags path with
  | Some tgs => forEach_add (keywords intent) (tag_hit tgs) (literal 1%Z) score
  | None => score
  end.

End Score.

(** [calculateRelevanceScore], with numbers read exactly. *)
Definition calculateRelevanceScore
  (path : LearningPath) (intent : QueryIntent) (query : string) : Q :=
  calculateRelevanceScore_over exact path intent query.

(** A path together with the [relevanceScore] field added by
    [rankSearchResults]. *)
Record RankedPath := { ranked_path : LearningPath; relevanceScore : Q }.

(** [Array.prototype.sort] with the comparator
    [(a, b) => b.relevanceScore - a.relevanceScore]: stable, descending. *)
Fixpoint insert_desc (x : RankedPath) (l : list RankedPath)
  : list RankedPath :=
  match l with
  | [] => [x]
  | y :: rest =>
      if Qle_bool (relevanceScore y) (relevanceScore x) then x :: l
      else y :: insert_desc x rest
  end.

Definition sort_desc (l : list RankedPath) : list RankedPath :=
  fold_right insert_desc [] l.

Definition rankSearchResults
  (paths : list LearningPath) (intent : QueryIntent) (originalQuery : string)
  : list RankedPath :=
  sort_desc
    (List.map
       (fun path =>
          {| ranked_path := path;
             relevanceScore :=
               calculateRelevanceScore path intent originalQuery |})
       paths).

(** The scoring factors of section 4.3, and the weighted sum over them as
    the specification words it. *)
Record Factors := {
  query_in_title : bool;
  title_keyword_hits : nat;
  query_in_description : bool;
  description_keyword_hits : nat;
  topic_match : bool;
  difficulty_match : bool;
  duration_difference : Q;
  completion_factor : Q;
  node_count : Q;
  tag_keyword_hits : nat
}.

Definition bonus (b : bool) (w : Q) : Q := if b then w else 0%Q.

Definition per_hit (w : Q) (n : nat) : Q := (w * inject_Z (Z.of_nat n))%Q.

Definition spec_weighted_sum (f : Factors) : Q :=
  (bonus (query_in_title f) 10
   + per_hit 5 (title_keyword_hits f)
   + bonus (query_in_description f) 5
   + per_hit 2 (description_keyword_hits f)
   + bonus (topic_match f) 8
   + bonus (difficulty_match f) 3
   + Qmax 0 (5 - duration_difference f / 10)
   + 2 * completion_factor f
   + Qmin (node_count f / 10) 3
   + per_hit 1 (tag_keyword_hits f))%Q.

(** Number of keywords (with repetitions) satisfying [hit]. *)
Definition hits (kws : list string) (hit : string -> bool) : nat :=
  List.length (List.filter hit kws).

(** Modelled from the spec: [sub] is a substring of [s], that is, [s]
    holds [sub] from some position on. *)
Definition is_substring (sub s : string) : bool :=
  existsb
    (fun position =>
       String.eqb (String.substring position (String.length sub) s) sub)
    (seq 0 (S (String.length s))).

(** Modelled from the spec: the factors of section 4.3 read to the
    letter.  The raw query and the keywords are looked for in the title,
    the description and the tags as they are stored. *)
Definition literal_factors_of
  (path : LearningPath) (intent : QueryIntent) (query : string) : Factors :=
  {| query_in_title := is_substring query (title path);
     title_keyword_hits :=
       hits (keywords intent) (fun kw => is_substring kw (title path));
     query_in_description := is_substring query (description path);
     description_keyword_hits :=
       hits (keywords intent) (fun kw => is_substring kw (description path));
     topic_match := String.eqb (topic path) (intent_topic intent);
     difficulty_match :=
       String.eqb (difficulty_level path) (intent_difficulty intent);
     duration_difference :=
       Qabs (estimated_duration path - estimatedDuration intent);
     completion_factor := completion_rate path;
     node_count := total_nodes path;
     tag_keyword_hits :=
       match tags path with
       | Some tgs =>
           hits (keywords intent) (fun kw => existsb (is_substring kw) tgs)
       | None => 0%nat
       end |}.

(** Modelled from the spec: the factors of section 4.3 with matching
    that ignores the letter case of the catalog entry and of the query.
    The lower-cased query is looked for in the lower-cased title and
    description; a keyword, as the intent has it, is looked for in the
    lower-cased title and description, and it is matched in the tags when
    some lower-cased tag holds it; a path without tags matches none. *)
Definition factors_of
  (path : LearningPath) (intent : QueryIntent) (query : string) : Factors :=
  let lowerQuery := Js.toLowerCase query in
  let lowerTitle := Js.toLowerCase (title path) in
  let lowerDescription := Js.toLowerCase (description path) in
  {| query_in_title := is_substring lowerQuery lowerTitle;
     title_keyword_hits :=
       hits (keywords intent) (fun kw => is_substring kw lowerTitle);
     query_in_description := is_substring lowerQuery lowerDescription;
     description_keyword_hits :=
       hits (keywords intent) (fun kw => is_substring kw lowerDescription);
     topic_match := String.eqb (topic path) (intent_topic intent);
     difficulty_match :=
       String.eqb (difficulty_level path) (intent_difficulty intent);
     duration_difference :=
       Qabs (estimated_duration path - estimatedDuration intent);
     completion_factor := completion_rate path;
     node_count := total_nodes path;
     tag_keyword_hits :=
       match tags path with
       | Some tgs =>
           hits (keywords intent)
             (fun kw =>
                existsb (fun tag => is_substring kw (Js.toLowerCase tag)) tgs)
       | None => 0%nat
       end |}.

(** Modelled from the spec: the terms of the weighted sum, in the order
    of section 4.3, over the arithmetic [A]: a weight for each match, the
    duration-closeness bonus, twice the completion rate and the capped
    node bonus. *)
Definition score_terms {N : Type} (A : Arithmetic N)
  (f : Factors) (path : LearningPath) (intent : QueryIntent) : list N :=
  let literal (z : Z) : N := js_number A (inject_Z z) in
  (if query_in_title f then [literal 10%Z] else [])
  ++ repeat (literal 5%Z) (title_keyword_hits f)
  ++ (if query_in_description f then [literal 5%Z] else [])
  ++ repeat (literal 2%Z) (description_keyword_hits f)
  ++ (if topic_match f then [literal 8%Z] else [])
  ++ (if difficulty_match f then [literal 3%Z] else [])
  ++ [js_max A (literal 0%Z)
        (js_sub A (literal 5%Z)
           (js_div A
              (js_abs A (js_sub A (js_number A (estimated_duration path))
                                  (js_number A (estimatedDuration intent))))
              (literal 10%Z)))]
  ++ [js_mul A (js_number A (completion_rate path)) (literal 2%Z)]
  ++ [js_min A (js_div A (js_number A (total_nodes path)) (literal 10%Z))
        (literal 3%Z)]
  ++ repeat (literal 1%Z) (tag_keyword_hits f).

(** One factor vector is at least as favourable as another: every
    positive-weight factor is at least as large, and the duration
    difference is at most as large. *)
Definition factors_le (f g : Factors) : Prop :=
  (query_in_title f = true -> query_in_title g = true)
  /\ (title_keyword_hits f <= title_keyword_hits g)%nat
  /\ (query_in_description f = true -> query_in_description g = true)
  /\ (description_keyword_hits f <= description_keyword_hits g)%nat
  /\ (topic_match f = true -> topic_match g = true)
  /\ (difficulty_match f = true -> difficulty_match g = true)
  /\ (duration_difference g <= duration_difference f)%Q
  /\ (completion_factor f <= completion_factor g)%Q
  /\ (node_count f <= node_count g)%Q
  /\ (tag_keyword_hits f <= tag_keyword_hits g)%nat.

(* ------------------------------------------------------------------- *)
(** *** Search orchestration *)

Record SearchFilters := {
  filter_topic : option string;
  filter_difficulty : option string;
  filter_duration : option (Q * Q);      (* [{ min, max }] *)
  filter_tags : option (list string);
  filter_isPublic : option bool
}.

Record AISearchResult := {
  result_paths : list RankedPath;
  result_suggestedTopics : list string;
  result_estimatedDuration : Q;
  result_difficulty : string;
  result_confidence : Q
}.

(** The steps chained on the query builder of [intelligentSearch]. *)
Inductive QueryStep :=
  | eq_is_public (b : bool)
  | or_topic_or_tag (t : string)
  | eq_difficulty_level (d : string)
  | gte_estimated_duration (min : Q)
  | lte_estimated_duration (max : Q)
  | textSearch_title_description (terms : string)
  | order_desc (column : string)
  | limit (n : nat).

Definition is_eq_difficulty_level (s : QueryStep) : bool :=
  match s with eq_difficulty_level _ => true | _ => false end.

Inductive Request :=
  | completion_request (query : string)
  | paths_read (q : list QueryStep)
  | popular_topics_read.

(** A row of [learning_paths] as a read hands it out.  The schema lets
    the column [description] be null, which [LearningPath] does not say:
    [described] tells whether it holds a text, and only then is
    [description (columns r)] read.  [calculateRelevanceScore] lower-cases
    the description first thing, so scoring a row without one raises a
    TypeError. *)
Record PathRow := { columns : LearningPath; described : bool }.

Record SearchEnv := {
  openai_configured : bool;                 (* [openaiService.isConfigured()] *)
  completion : OpenAI.Completion;
  main_read : list QueryStep -> Outcome (list PathRow);
  popular_read : Outcome (list string)      (* the [topic] column *)
}.

(** [mapTopicFromAI]; [None] stands for [undefined]. *)
Definition aiTopicMapping : list (string * string) :=
  [ ("web development", "web-development");
    ("frontend", "web-development");
    ("backend", "web-development");
    ("data science", "data-science");
    ("machine learning", "ai-ml");
    ("artificial intelligence", "ai-ml");
    ("blockchain", "web3");
    ("cryptocurrency", "web3");
    ("design", "design");
    ("ui/ux", "design");
    ("business", "business");
    ("marketing", "business") ].

Fixpoint first_included (lowerTopic : string) (m : list (string * string))
  : string :=
  match m with
  | [] => ""
  | (key, value) :: rest =>
      if Js.includes lowerTopic key then value
      else first_included lowerTopic rest
  end.

Definition mapTopicFromAI (aiTopic : option string) : string :=
  match aiTopic with
  | None => ""
  | Some t =>
      if negb (Js.truthy t) then ""
      else first_included (Js.toLowerCase t) aiTopicMapping
  end.

(** The intent after a successful enhancement. *)
Definition enhance_intent (intent : QueryIntent) (enhanced : OpenAI.Enhanced)
  : QueryIntent :=
  {| intent_topic :=
       Js.or_else (mapTopicFromAI (hd_error (OpenAI.suggestedTopics enhanced)))
               (intent_topic intent);
     intent_difficulty := OpenAI.difficulty enhanced;
     keywords := keywords intent;
     estimatedDuration := OpenAI.estimatedDuration enhanced;
     confidence := Qmax (confidence intent) (4 # 5);
     learningType := learningType intent |}.

(** The remote read built from the intent and the filters. *)
Definition build_query (intent : QueryIntent) (filters : option SearchFilters)
  : list QueryStep :=
  [eq_is_public true]
  ++ (if Js.truthy (intent_topic intent)
      then [or_topic_or_tag (intent_topic intent)] else [])
  ++ (if Js.truthy (intent_difficulty intent)
      then [eq_difficulty_level (intent_difficulty intent)] else [])
  ++ match filters with
     | Some f =>
         match filter_duration f with
         | Some (min, max) =>
             [gte_estimated_duration min; lte_estimated_duration max]
         | None => []
         end
     | None => []
     end
  ++ (if (0 <? List.length (keywords intent))%nat
      then [textSearch_title_description (Js.join " | " (keywords intent))]
      else [])
  ++ [order_desc "completion_rate"; order_desc "total_nodes";
      order_desc "created_at"; limit 20].

Definition first_word (key : string) : string :=
  match Js.split_space key with
  | w :: _ => w
  | [] => ""
  end.

Definition generateTopicSuggestions
  (popular : Outcome (list string)) (query : string) (intent : QueryIntent)
  : list string :=
  let suggestions : list string := [] in
  let suggestions :=
    if Js.truthy (intent_topic intent)
    then Js.set_add (intent_topic intent) suggestions else suggestions in
  let suggestions :=
    fold_left
      (fun acc keyword =>
         fold_left
           (fun acc' '(key, value) =>
              if Js.includes key keyword
                 || Js.includes keyword (first_word key)
              then Js.set_add value acc' else acc')
           topicMappings acc)
      (keywords intent) suggestions in
  let suggestions :=
    match popular with
    | resolved r =>
        match data r with
        | Some popularTopics =>
            fold_left (fun acc t => Js.set_add t acc) popularTopics suggestions
        | None => suggestions
        end
    | rejected _ => suggestions
    end in
  firstn 6 suggestions.

(** The result returned by the [catch] of [intelligentSearch]. *)
Definition degraded_result : AISearchResult :=
  {| result_paths := [];
     result_suggestedTopics := [];
     result_estimatedDuration := 10;
     result_difficulty := "beginner";
     result_confidence := 0 |}.

(** The intent the remote read is built from.  With the completion
    service configured, the heuristic intent is replaced by the enhanced
    one; when building the enhanced intent raises (the answer is
    misshapen), the inner [catch] logs the error and the heuristic intent
    stays. *)
Definition search_intent (env : SearchEnv) (query : string) : QueryIntent :=
  let intent := parseQueryIntent query in
  if openai_configured env then
    match OpenAI.enhanceSearchQuery (openai_configured env) (completion env)
            query with
    | OpenAI.shaped enhanced => enhance_intent intent enhanced
    | OpenAI.misshapen => intent
    end
  else intent.

(** [rankSearchResults] on the rows of a read: a row without
    description makes the ranking raise. *)
Definition rank_rows
  (rows : list PathRow) (intent : QueryIntent) (originalQuery : string)
  : Thrown + list RankedPath :=
  if forallb described rows then
    inr (rankSearchResults (List.map columns rows) intent originalQuery)
  else
    inl (ErrorInstance
           "Cannot read properties of null (reading 'toLowerCase')").

(** The [try] block of [intelligentSearch]: what it throws or returns, and
    the requests it issued. *)
Definition search_body
  (env : SearchEnv) (query : string) (filters : option SearchFilters)
  : (Thrown + AISearchResult) * list Request :=
  let intent := search_intent env query in
  let log := if openai_configured env then [completion_request query]
             else [] in
  let q := build_query intent filters in
  match main_read env q with
  | rejected e => (inl e, log ++ [paths_read q])
  | resolved r =>
      match error r with
      | Some e => (inl e, log ++ [paths_read q])
      | None =>
          let paths := match data r with Some l => l | None => [] end in
          match rank_rows paths intent query with
          | inl e => (inl e, log ++ [paths_read q])
          | inr rankedPaths =>
              let suggestedTopics :=
                generateTopicSuggestions (popular_read env) query intent in
              (inr {| result_paths := rankedPaths;
                      result_suggestedTopics := suggestedTopics;
                      result_estimatedDuration := estimatedDuration intent;
                      result_difficulty :=
                        Js.or_else (intent_difficulty intent) "beginner";
                      result_confidence := confidence intent |},
               log ++ [paths_read q; popular_topics_read])
          end
      end
  end.



(** None of the difficulty keywords of [parseQueryIntent] occurs in the
    lower-cased query. *)
Definition no_difficulty_keyword (query : string) : bool :=
  let has := Js.includes (Js.toLowerCase query) in
  negb (has "advanced" || has "expert" || has "intermediate" || has "medium"
        || has "beginner" || has "basic" || has "intro").

Section Search.

(** [JSON.stringify] on the optional filter object; the cache key is
    the only place that uses it. *)
Variable JSON_stringify : option SearchFilters -> string.

Definition cacheKey (query : string) (filters : option SearchFilters)
  : string :=
  query +:+ "-" +:+ JSON_stringify filters.

(** [intelligentSearch]: the result, the cache afterwards and the
    requests issued.  The timer that removes the entry after five
    minutes is not part of the model. *)
Definition intelligentSearch
  (env : SearchEnv) (searchCache : gmap string AISearchResult)
  (query : string) (filters : option SearchFilters)
  : AISearchResult * gmap string AISearchResult * list Request :=
  match searchCache !! cacheKey query filters with
  | Some cached => (cached, searchCache, [])
  | None =>
      match search_body env query filters with
      | (inr result, log) =>
          (result, <[cacheKey query filters := result]> searchCache, log)
      | (inl _, log) => (degraded_result, searchCache, log)
      end
  end.

End Search.

(** [clearCache] *)
Definition clearCache (searchCache : gmap string AISearchResult)
  : gmap string AISearchResult := ∅.




(** The confidence of a result is a number between 0 and 1. *)
Definition confident (r : AISearchResult) : Prop :=
  (0 <= result_confidence r)%Q /\ (result_confidence r <= 1)%Q.

End AiSearch.

(* ===================================================================== *)
(** ** [database.ts]: the TTL query cache and the delete protocol *)
(* ===================================================================== *)

Module Database.

Inductive ProgressStatus := not_started | in_progress | completed | skipped.

Record UserProgress := {
  progress_id : string;
  progress_user_id : string;
  progress_path_id : string;
  progress_node_id : string;
  status : ProgressStatus;
  progress_percentage : Q;
  time_spent : Q
}.

(** A path row with its embedded [learning_nodes] rows. *)
Record PathAndNodes := {
  path_row : LearningPath;
  learning_nodes : option (list NodeRow)
}.

(** [{ ...path, nodes: path.learning_nodes || [] }] *)
Record PathWithNodes := {
  fetched : PathAndNodes;
  nodes : list NodeRow
}.

(** The [data: any] of a cache entry: what the three cached reads store. *)
Inductive CacheData :=
  | paths_data (l : list LearningPath)
  | path_nodes_data (p : PathWithNodes)
  | progress_data (l : list UserProgress).

Record CacheEntry := { entry_data : CacheData; timestamp : Z }.

Definition CACHE_DURATION : Z := 5 * 60 * 1000.   (* milliseconds *)

Inductive StoreRequest :=
  | select_path_with_nodes (pathId : string)
  | select_user_progress (userId pathId : string)
  | select_path_head (pathId : string)
  | delete_path (pathId : string).

(** What one cached read meets: the clock when the entry is tested, the
    outcome of the remote read, and the clock when the fresh entry is
    written. *)
Record ReadEnv (A : Type) := {
  now : Z;
  remote : Outcome A;
  now_at_write : Z
}.
Arguments now {A} _.
Arguments remote {A} _.
Arguments now_at_write {A} _.

(** [cached && Date.now() - cached.timestamp < this.CACHE_DURATION] *)
Definition fresh (cached : option CacheEntry) (now : Z) : option CacheEntry :=
  match cached with
  | Some c => if (now - timestamp c <? CACHE_DURATION)%Z then Some c else None
  | None => None
  end.

(** [nodes.sort((a, b) => a.order_index - b.order_index)]: stable,
    ascending. *)
Fixpoint insert_node (x : NodeRow) (l : list NodeRow) : list NodeRow :=
  match l with
  | [] => [x]
  | y :: rest =>
      if (order_index (node_fields x) <=? order_index (node_fields y))%Z
      then x :: l else y :: insert_node x rest
  end.

Definition sort_nodes (l : list NodeRow) : list NodeRow :=
  fold_right insert_node [] l.

Definition fetchPathWithNodes
  (env : ReadEnv PathAndNodes) (queryCache : gmap string CacheEntry)
  (pathId : string)
  : option CacheData * gmap string CacheEntry * list StoreRequest :=
  let cacheKey := "path-nodes-" +:+ pathId in
  match fresh (queryCache !! cacheKey) (now env) with
  | Some cached => (Some (entry_data cached), queryCache, [])
  | None =>
      let log := [select_path_with_nodes pathId] in
      match remote env with
      | rejected _ => (None, queryCache, log)
      | resolved r =>
          match error r, data r with
          | Some _, _ => (None, queryCache, log)
          | None, None => (None, queryCache, log)
              (* no error and no row: reading [path.learning_nodes] raises *)
          | None, Some path =>
              let sorted := sort_nodes <$> learning_nodes path in
              let path' := {| path_row := path_row path;
                              learning_nodes := sorted |} in
              let result :=
                path_nodes_data
                  {| fetched := path';
                     nodes := match sorted with
                              | Some l => l
                              | None => []
                              end |} in
              (Some result,
               <[cacheKey := {| entry_data := result;
                                timestamp := now_at_write env |}]> queryCache,
               log)
          end
      end
  end.

Definition getUserProgress
  (env : ReadEnv (list UserProgress)) (queryCache : gmap string CacheEntry)
  (userId pathId : string)
  : CacheData * gmap string CacheEntry * list StoreRequest :=
  let cacheKey := "progress-" +:+ userId +:+ "-" +:+ pathId in
  match fresh (queryCache !! cacheKey) (now env) with
  | Some cached => (entry_data cached, queryCache, [])
  | None =>
      let log := [select_user_progress userId pathId] in
      match remote env with
      | rejected _ => (progress_data [], queryCache, log)
      | resolved r =>
          match error r with
          | Some _ => (progress_data [], queryCache, log)
          | None =>
              let rows := match data r with Some l => l | None => [] end in
              (progress_data rows,
               <[cacheKey := {| entry_data := progress_data rows;
                                timestamp := now_at_write env |}]> queryCache,
               log)
          end
      end
  end.

Definition clearAllCache (queryCache : gmap string CacheEntry)
  : gmap string CacheEntry := ∅.

(* ------------------------------------------------------------------- *)
(** *** The remote table of paths *)

(** The store is the table [learning_paths], keyed by id, behind the
    row-level security the schema enables on it
    ([supabase/migrations/20250704183052_empty_shrine.sql]).  A request is
    made in a session, whose user is [auth.uid()] ([None] when nobody is
    signed in), and acts on the rows its policy lets through.  A request
    either meets the fault the environment injects, and then leaves the
    table alone, or is carried out under its policy. *)
Record StoreFaults := {
  select_fault : option Thrown;
  delete_fault : option Thrown
}.

(** The policy "Public paths visible to all" on [learning_paths]:
    [FOR SELECT TO authenticated
     USING (is_public = true OR created_by = auth.uid())]. *)
Definition select_policy (session : option string) (row : LearningPath)
  : bool :=
  match session with
  | Some uid => is_public row || String.eqb (created_by row) uid
  | None => false
  end.

(** The schema defines policies for SELECT, INSERT and UPDATE on
    [learning_paths] and none for DELETE: with row-level security enabled
    no row is let through. *)
Definition delete_policy (session : option string) (row : LearningPath)
  : bool := false.

(** The columns of [select('id, created_by, title')]. *)
Record PathHead := {
  head_id : string;
  head_created_by : string;
  head_title : string
}.

Definition head_of (p : LearningPath) : PathHead :=
  {| head_id := id p; head_created_by := created_by p;
     head_title := title p |}.

(** [from('learning_paths').select(...).eq('id', pathId).maybeSingle()]:
    the row, when it exists and the session may see it. *)
Definition store_select
  (faults : StoreFaults) (session : option string)
  (table : gmap string LearningPath) (pathId : string)
  : Reply PathHead :=
  match select_fault faults with
  | Some e => {| data := None; error := Some e |}
  | None =>
      {| data := match table !! pathId with
                 | Some row =>
                     if select_policy session row then Some (head_of row)
                     else None
                 | None => None
                 end;
         error := None |}
  end.

(** [from('learning_paths').delete().eq('id', pathId)]: the row is
    removed when it exists and the session may delete it; a delete that
    removes nothing is no error. *)
Definition store_delete
  (faults : StoreFaults) (session : option string)
  (table : gmap string LearningPath) (pathId : string)
  : gmap string LearningPath * option Thrown :=
  match delete_fault faults with
  | Some e => (table, Some e)
  | None =>
      (match table !! pathId with
       | Some row =>
           if delete_policy session row then delete pathId table else table
       | None => table
       end, None)
  end.

Definition not_found_message : string :=
  "Learning path not found or already deleted".

Definition not_owner_message : string :=
  "You can only delete paths you created".

Definition delete_context : string := "Failed to delete learning path: ".

Record DeleteOutcome := {
  outcome : Thrown + unit;
  table_after : gmap string LearningPath;
  cache_after : gmap string CacheEntry;
  issued : list StoreRequest
}.

(** The [try] block of [deletePath].  The one-second pause before a
    successful return is not part of the model. *)
Definition deletePath_try
  (faults : StoreFaults) (session : option string)
  (table : gmap string LearningPath)
  (queryCache : gmap string CacheEntry) (pathId userId : string)
  : DeleteOutcome :=
  let reply := store_select faults session table pathId in
  let stop e log :=
    {| outcome := inl e; table_after := table; cache_after := queryCache;
       issued := log |} in
  match error reply with
  | Some fetchError => stop fetchError [select_path_head pathId]
  | None =>
      match data reply with
      | None =>
          stop (ErrorInstance not_found_message) [select_path_head pathId]
      | Some path =>
          if negb (String.eqb (head_created_by path) userId) then
            stop (ErrorInstance not_owner_message) [select_path_head pathId]
          else
            let '(table', deleteError) :=
              store_delete faults session table pathId in
            let log := [select_path_head pathId; delete_path pathId] in
            match deleteError with
            | Some e =>
                {| outcome := inl e; table_after := table';
                   cache_after := queryCache; issued := log |}
            | None =>
                {| outcome := inr tt; table_after := table';
                   cache_after := clearAllCache queryCache; issued := log |}
            end
      end
  end.

(** [deletePath]: the [catch] wraps whatever the [try] block threw. *)
Definition deletePath
  (faults : StoreFaults) (session : option string)
  (table : gmap string LearningPath)
  (queryCache : gmap string CacheEntry) (pathId userId : string)
  : DeleteOutcome :=
  let r := deletePath_try faults session table queryCache pathId userId in
  match outcome r with
  | inl error =>
      let errorMessage := message_or "Unknown deletion error" error in
      {| outcome := inl (ErrorInstance (delete_context +:+ errorMessage));
         table_after := table_after r;
         cache_after := cache_after r;
         issued := issued r |}
  | inr _ => r
  end.

(* ------------------------------------------------------------------- *)
(** *** Pattern eviction *)

(** [clearCacheByPattern]: every key that contains [pattern] is deleted. *)
Definition clearCacheByPattern
  (pattern : string) (queryCache : gmap string CacheEntry)
  : gmap string CacheEntry :=
  filter (fun kv => Js.includes kv.1 pattern = false) queryCache.

(* ------------------------------------------------------------------- *)
(** *** [fetchPaths], [createPath], [batchCreateNodes] *)

(** [DatabaseFilters]; [limit] and [offset] are row counts. *)
Record DatabaseFilters := {
  by_topic : option string;
  by_difficulty : option string;
  by_isPublic : option bool;
  by_createdBy : option string;
  page_limit : option Z;
  page_offset : option Z
}.

(** The steps chained on the query builder of [fetchPaths]. *)
Inductive PathsStep :=
  | where_topic (t : string)
  | where_difficulty_level (d : string)
  | where_is_public (b : bool)
  | where_created_by (u : string)
  | rows_range (first last : Z)
  | rows_limit (n : Z)
  | rows_order_desc (column : string).

(** [if (s) ...] on an optional string: [undefined] and [''] are falsy. *)
Definition when_truthy (s : option string) (step : string -> PathsStep)
  : list PathsStep :=
  match s with
  | Some v => if Js.truthy v then [step v] else []
  | None => []
  end.

(** [if (n) ...] on an optional number: [undefined] and [0] are falsy. *)
Definition truthy_number (n : option Z) : option Z :=
  match n with
  | Some v => if (v =? 0)%Z then None else Some v
  | None => None
  end.

Definition paths_query (filters : DatabaseFilters) : list PathsStep :=
  when_truthy (by_topic filters) where_topic
  ++ when_truthy (by_difficulty filters) where_difficulty_level
  ++ match by_isPublic filters with
     | Some b => [where_is_public b]
     | None => []
     end
  ++ when_truthy (by_createdBy filters) where_created_by
  ++ match truthy_number (page_offset filters) with
     | Some offset =>
         let limit := match truthy_number (page_limit filters) with
                      | Some l => l
                      | None => 20%Z
                      end in
         [rows_range offset (offset + limit - 1)%Z]
     | None =>
         match truthy_number (page_limit filters) with
         | Some l => [rows_limit l]
         | None => []
         end
     end
  ++ [rows_order_desc "completion_rate"; rows_order_desc "total_nodes";
      rows_order_desc "created_at"].

(** The columns a caller supplies to [createPath]:
    [Omit<LearningPath, 'id' | 'created_at' | 'updated_at'>]. *)
Record PathData := {
  new_title : string;
  new_description : string;
  new_topic : string;
  new_difficulty_level : string;
  new_estimated_duration : Q;
  new_created_by : string;
  new_is_public : bool;
  new_total_nodes : Q;
  new_completion_rate : Q;
  new_tags : option (list string)
}.

(** A node tagged with the path it is inserted under. *)
Record NodeInsert := {
  insert_path_id : string;
  insert_fields : LearningNode
}.

Inductive WriteRequest :=
  | select_paths (q : list PathsStep)
  | insert_path (p : PathData)
  | insert_nodes (rows : list NodeInsert)
  | update_total_nodes (pathId : string) (n : nat).

Section Paths.

(** [JSON.stringify] on the filter object; only the cache key uses it. *)
Variable stringify_filters : DatabaseFilters -> string.

(** [fetchPaths]: the cache is written, never read. *)
Definition fetchPaths
  (env : ReadEnv (list LearningPath)) (queryCache : gmap string CacheEntry)
  (filters : DatabaseFilters)
  : list LearningPath * gmap string CacheEntry * list WriteRequest :=
  let cacheKey := "paths-" +:+ stringify_filters filters in
  let log := [select_paths (paths_query filters)] in
  match remote env with
  | rejected _ => ([], queryCache, log)
  | resolved r =>
      match error r with
      | Some _ => ([], queryCache, log)
      | None =>
          let result := match data r with Some l => l | None => [] end in
          (result,
           <[cacheKey := {| entry_data := paths_data result;
                            timestamp := now_at_write env |}]> queryCache,
           log)
      end
  end.

End Paths.

(** [createPath]: the new row or the error the [catch] re-throws, and the
    cache afterwards. *)
Definition createPath
  (reply : Outcome LearningPath) (queryCache : gmap string CacheEntry)
  (pathData : PathData)
  : (Thrown + option LearningPath) * gmap string CacheEntry
    * list WriteRequest :=
  let log := [insert_path pathData] in
  match reply with
  | rejected e => (inl e, queryCache, log)
  | resolved r =>
      match error r with
      | Some e => (inl e, queryCache, log)
      | None => (inr (data r), clearAllCache queryCache, log)
      end
  end.

(** [batchCreateNodes] *)
Definition batchCreateNodes
  (reply : Outcome (list NodeRow)) (queryCache : gmap string CacheEntry)
  (pathId : string) (nodes : list LearningNode)
  : (Thrown + list NodeRow) * gmap string CacheEntry * list WriteRequest :=
  let nodesWithPathId :=
    List.map (fun node => {| insert_path_id := pathId;
                             insert_fields := node |}) nodes in
  let log := [insert_nodes nodesWithPathId] in
  match reply with
  | rejected e => (inl e, queryCache, log)
  | resolved r =>
      match error r with
      | Some e => (inl e, queryCache, log)
      | None =>
          (inr (match data r with Some l => l | None => [] end),
           clearCacheByPattern ("path-nodes-" +:+ pathId) queryCache,
           log)
      end
  end.

(* ------------------------------------------------------------------- *)
(** *** [updateUserProgress] and [updateUserStats] *)

Record ProgressUpdate := {
  update_nodeId : string;
  update_status : ProgressStatus;
  update_progressPercentage : Q;
  update_timeSpent : Q;
  update_notes : option string
}.

Definition is_completed (s : ProgressStatus) : bool :=
  match s with completed => true | _ => false end.

(** The columns written by the update of an existing progress record. *)
Record ProgressChange := {
  change_status : ProgressStatus;
  change_progress_percentage : Q;
  change_time_spent : Q;
  change_notes : option string;
  change_completed_at : option string;
  change_updated_at : string
}.

(** The columns of a new progress record. *)
Record ProgressInsert := {
  inserted_user_id : string;
  inserted_path_id : string;
  inserted_node_id : string;
  inserted_status : ProgressStatus;
  inserted_progress_percentage : Q;
  inserted_time_spent : Q;
  inserted_notes : option string;
  inserted_started_at : string;
  inserted_completed_at : option string
}.

(** [select('total_points, current_streak, longest_streak')] *)
Record ProfileStats := {
  total_points : Q;
  current_streak : Q;
  longest_streak : Q
}.

Inductive ProgressRequest :=
  | select_progress_id (userId nodeId : string)
  | update_progress (recordId : string) (change : ProgressChange)
  | insert_progress (row : ProgressInsert)
  | select_profile_stats (userId : string)
  | update_profile_stats (userId : string) (stats : ProfileStats)
      (updated_at : string).

(** What one [updateUserProgress] meets: the replies to its four requests
    and the clock reading [new Date().toISOString()]. *)
Record ProgressEnv := {
  existing_reply : Outcome string;          (* the [id] column *)
  write_reply : Outcome UserProgress;
  stats_reply : Outcome ProfileStats;
  stats_update_reply : Outcome unit;
  now_iso : string
}.

(** [updateUserStats]: the cache afterwards and the requests issued.
    Whatever fails inside is logged and swallowed. *)
Definition updateUserStats
  (env : ProgressEnv) (queryCache : gmap string CacheEntry)
  (userId : string) (done : bool)
  : gmap string CacheEntry * list ProgressRequest :=
  if negb done then (queryCache, [])
  else
    match stats_reply env with
    | rejected _ => (queryCache, [select_profile_stats userId])
    | resolved r =>
        match error r, data r with
        | Some _, _ => (queryCache, [select_profile_stats userId])
        | None, None => (queryCache, [select_profile_stats userId])
        | None, Some profile =>
            let pointsToAdd := 10%Q in
            let newStreak := (current_streak profile + 1)%Q in
            let newLongestStreak := Qmax (longest_streak profile) newStreak in
            let log :=
              [select_profile_stats userId;
               update_profile_stats userId
                 {| total_points := (total_points profile + pointsToAdd)%Q;
                    current_streak := newStreak;
                    longest_streak := newLongestStreak |}
                 (now_iso env)] in
            match stats_update_reply env with
            | rejected _ => (queryCache, log)
            | resolved u =>
                match error u with
                | Some _ => (queryCache, log)
                | None =>
                    (clearCacheByPattern ("profile-" +:+ userId) queryCache,
                     log)
                end
            end
        end
    end.

(** The record to update, when the existence check found one.  The error
    of that check is not looked at. *)
Definition existing_record (env : ProgressEnv) : Thrown + option string :=
  match existing_reply env with
  | rejected e => inl e
  | resolved r => inr (data r)
  end.

Definition progress_write
  (env : ProgressEnv) (existing : option string)
  (userId pathId : string) (update : ProgressUpdate) : ProgressRequest :=
  let completed_at :=
    if is_completed (update_status update) then Some (now_iso env)
    else None in
  match existing with
  | Some recordId =>
      update_progress recordId
        {| change_status := update_status update;
           change_progress_percentage := update_progressPercentage update;
           change_time_spent := update_timeSpent update;
           change_notes := update_notes update;
           change_completed_at := completed_at;
           change_updated_at := now_iso env |}
  | None =>
      insert_progress
        {| inserted_user_id := userId;
           inserted_path_id := pathId;
           inserted_node_id := update_nodeId update;
           inserted_status := update_status update;
           inserted_progress_percentage := update_progressPercentage update;
           inserted_time_spent := update_timeSpent update;
           inserted_notes := update_notes update;
           inserted_started_at := now_iso env;
           inserted_completed_at := completed_at |}
  end.

(** [updateUserProgress]: the record or [null], the cache afterwards and
    the requests issued. *)
Definition updateUserProgress
  (env : ProgressEnv) (queryCache : gmap string CacheEntry)
  (userId pathId : string) (update : ProgressUpdate)
  : option UserProgress * gmap string CacheEntry * list ProgressRequest :=
  let lookup := select_progress_id userId (update_nodeId update) in
  match existing_record env with
  | inl _ => (None, queryCache, [lookup])
  | inr existing =>
      let write := progress_write env existing userId pathId update in
      match write_reply env with
      | rejected _ => (None, queryCache, [lookup; write])
      | resolved r =>
          match error r with
          | Some _ => (None, queryCache, [lookup; write])
          | None =>
              let '(cache1, statsLog) :=
                updateUserStats env queryCache userId
                  (is_completed (update_status update)) in
              (data r,
               clearCacheByPattern ("progress-" +:+ userId) cache1,
               [lookup; write] ++ statsLog)
          end
      end
  end.

Definition is_progress_write (r : ProgressRequest) : bool :=
  match r with
  | update_progress _ _ | insert_progress _ => true
  | _ => false
  end.

Definition is_stats_request (r : ProgressRequest) : bool :=
  match r with
  | select_profile_stats _ | update_profile_stats _ _ _ => true
  | _ => false
  end.

(** [a] comes no later than [b] in a path. *)
Definition in_order (a b : NodeRow) : Prop :=
  (order_index (node_fields a) <= order_index (node_fields b))%Z.

(** The progress record was written: the existence check did not reject
    and the write came back without an error. *)
Definition progress_saved (env : ProgressEnv) : bool :=
  match existing_record env, failure (write_reply env) with
  | inr _, None => true
  | _, _ => false
  end.

End Database.

(* ===================================================================== *)
(** ** [pathGenerator.ts]: the content synthesis engine *)
(* ===================================================================== *)

Module PathGenerator.

Inductive LearningStyle := visual | auditory | kinesthetic | mixed_style.

Record GeneratePathRequest := {
  query : string;
  userId : string;
  request_difficulty : option Difficulty;
  request_duration : option Q;
  learningStyle : option LearningStyle;
  goals : option (list string)
}.

(** [GeneratedPathStructure], without the [description] text. *)
Record GeneratedPathStructure := {
  gen_title : string;
  gen_topic : string;
  gen_difficulty_level : string;
  gen_estimated_duration : Q;
  gen_tags : list string;
  gen_nodes : list LearningNode
}.

(** [LearningResource], without its [description] text. *)
Record LearningResource := {
  resource_title : string;
  resource_type : ContentType;
  url : option string;
  duration : Q;
  platform : string;
  resource_difficulty : string
}.

(** A module of a topic template.  Its [description], [concepts] and
    [skills] only feed node descriptions and are left out. *)
Record TopicModule := {
  module_title : string;
  resources : list LearningResource;
  exercises : list string;
  assessments : list string
}.

(** [TopicStructure]; [prerequisites] and [outcomes] only feed the path
    description and are left out. *)
Record TopicStructure := {
  category : string;
  subcategory : string;
  topic_learningType : string;
  estimatedHours : Q;
  modules : list TopicModule
}.

Definition topic_chess : TopicStructure :=
  {| category := "strategy-games";
     subcategory := "board-games";
     topic_learningType := "mixed";
     estimatedHours := 30;
     modules :=
       [ {| module_title := "Chess Fundamentals";
         resources :=
           [ {| resource_title := "Chess.com Learn Chess Basics";
             resource_type := course;
             url := Some "https://www.chess.com/learn-how-to-play-chess";
             duration := 60;
             platform := "Chess.com";
             resource_difficulty := "beginner" |};
             {| resource_title := "Chess Rules and Basics - ChessNetwork";
             resource_type := video;
             url := Some "https://www.youtube.com/watch?v=OCSbzArwB10";
             duration := 45;
             platform := "YouTube";
             resource_difficulty := "beginner" |};
             {| resource_title := "Lichess Learn Chess";
             resource_type := course;
             url := Some "https://lichess.org/learn";
             duration := 90;
             platform := "Lichess";
             resource_difficulty := "beginner" |} ];
         exercises :=
           [ "Set up the chess board correctly 10 times";
             "Practice moving each piece type on an empty board";
             "Identify legal and illegal moves in given positions";
             "Practice writing moves in algebraic notation" ];
         assessments :=
           [ "Chess rules quiz (20 questions)";
             "Piece movement accuracy test";
             "Notation reading exercise" ] |};
         {| module_title := "Basic Tactics";
         resources :=
           [ {| resource_title := "Chess Tactics for Beginners";
             resource_type := article;
             url := Some "https://www.chess.com/article/view/chess-tactics";
             duration := 30;
             platform := "Chess.com";
             resource_difficulty := "beginner" |};
             {| resource_title := "Chess Tactics Trainer";
             resource_type := course;
             url := Some "https://www.chess.com/puzzles";
             duration := 120;
             platform := "Chess.com";
             resource_difficulty := "beginner" |};
             {| resource_title := "Lichess Puzzle Rush";
             resource_type := course;
             url := Some "https://lichess.org/training";
             duration := 90;
             platform := "Lichess";
             resource_difficulty := "beginner" |} ];
         exercises :=
           [ "Solve 50 basic tactical puzzles";
             "Create 5 tactical positions from your games";
             "Practice finding tactics in master games";
             "Time-controlled tactical solving (3 minutes per puzzle)" ];
         assessments :=
           [ "Tactical pattern recognition test";
             "Timed puzzle solving challenge";
             "Position analysis exercise" ] |};
         {| module_title := "Opening Principles";
         resources :=
           [ {| resource_title := "Chess Opening Principles";
             resource_type := article;
             url := Some "https://www.chess.com/article/view/chess-opening-principles";
             duration := 25;
             platform := "Chess.com";
             resource_difficulty := "beginner" |};
             {| resource_title := "Opening Explorer";
             resource_type := course;
             url := Some "https://lichess.org/analysis";
             duration := 60;
             platform := "Lichess";
             resource_difficulty := "beginner" |};
             {| resource_title := "Basic Chess Openings Explained";
             resource_type := video;
             url := Some "https://www.youtube.com/watch?v=21L45Qo6EIY";
             duration := 40;
             platform := "YouTube";
             resource_difficulty := "beginner" |} ];
         exercises :=
           [ "Learn the Italian Game opening completely";
             "Practice the Queen's Gambit opening";
             "Analyze 10 master games focusing on opening play";
             "Build a basic opening repertoire for White and Black" ];
         assessments :=
           [ "Opening principles quiz";
             "Opening repertoire presentation";
             "Game analysis focusing on opening phase" ] |} ] |}.

Definition topic_cooking : TopicStructure :=
  {| category := "life-skills";
     subcategory := "culinary";
     topic_learningType := "practical";
     estimatedHours := 25;
     modules :=
       [ {| module_title := "Kitchen Safety & Setup";
         resources :=
           [ {| resource_title := "Food Safety Basics";
             resource_type := article;
             url := Some "https://www.foodsafety.gov/food-safety-charts/safe-minimum-cooking-temperatures";
             duration := 20;
             platform := "FoodSafety.gov";
             resource_difficulty := "beginner" |};
             {| resource_title := "Kitchen Setup and Organization";
             resource_type := video;
             url := Some "https://www.youtube.com/watch?v=4ur5YQIbOSs";
             duration := 15;
             platform := "YouTube";
             resource_difficulty := "beginner" |};
             {| resource_title := "Essential Kitchen Tools Guide";
             resource_type := article;
             url := Some "https://www.seriouseats.com/basic-knife-skills";
             duration := 25;
             platform := "Serious Eats";
             resource_difficulty := "beginner" |} ];
         exercises :=
           [ "Organize your kitchen workspace for efficiency";
             "Create a food safety checklist for your kitchen";
             "Practice proper hand washing and sanitization";
             "Set up mise en place for a simple recipe" ];
         assessments :=
           [ "Food safety knowledge quiz";
             "Kitchen organization evaluation";
             "Safety procedure demonstration" ] |};
         {| module_title := "Knife Skills & Food Prep";
         resources :=
           [ {| resource_title := "Basic Knife Skills";
             resource_type := video;
             url := Some "https://www.youtube.com/watch?v=G-Fg7l7G1zw";
             duration := 30;
             platform := "YouTube";
             resource_difficulty := "beginner" |};
             {| resource_title := "Knife Skills Guide - Serious Eats";
             resource_type := article;
             url := Some "https://www.seriouseats.com/basic-knife-skills";
             duration := 20;
             platform := "Serious Eats";
             resource_difficulty := "beginner" |};
             {| resource_title := "Food Prep Techniques";
             resource_type := video;
             url := Some "https://www.youtube.com/watch?v=nffGuGwCdZE";
             duration := 25;
             platform := "YouTube";
             resource_difficulty := "beginner" |} ];
         exercises :=
           [ "Practice julienne cuts on carrots";
             "Master dicing onions uniformly";
             "Learn to brunoise vegetables";
             "Prep ingredients for a complete meal efficiently" ];
         assessments :=
           [ "Knife skills demonstration";
             "Cutting accuracy and speed test";
             "Prep efficiency evaluation" ] |} ] |}.

Definition topic_guitar : TopicStructure :=
  {| category := "music";
     subcategory := "instruments";
     topic_learningType := "practical";
     estimatedHours := 40;
     modules :=
       [ {| module_title := "Guitar Basics & Setup";
         resources :=
           [ {| resource_title := "Guitar Basics for Beginners";
             resource_type := video;
             url := Some "https://www.youtube.com/watch?v=F5bqTVNXOLs";
             duration := 45;
             platform := "YouTube";
             resource_difficulty := "beginner" |};
             {| resource_title := "JustinGuitar Beginner Course";
             resource_type := course;
             url := Some "https://www.justinguitar.com/guitar-lessons/beginner-guitar-course-grade-1";
             duration := 120;
             platform := "JustinGuitar";
             resource_difficulty := "beginner" |};
             {| resource_title := "Guitar Tuning Guide";
             resource_type := article;
             url := Some "https://www.fender.com/articles/how-to/how-to-tune-a-guitar";
             duration := 15;
             platform := "Fender";
             resource_difficulty := "beginner" |} ];
         exercises :=
           [ "Practice holding the guitar in different positions";
             "Tune your guitar using multiple methods";
             "Learn the names of all strings and frets";
             "Set up a comfortable practice space" ];
         assessments :=
           [ "Guitar anatomy quiz";
             "Tuning accuracy test";
             "Posture evaluation" ] |};
         {| module_title := "First Chords & Strumming";
         resources :=
           [ {| resource_title := "Basic Guitar Chords";
             resource_type := video;
             url := Some "https://www.youtube.com/watch?v=NGXSoVRDQTE";
             duration := 30;
             platform := "YouTube";
             resource_difficulty := "beginner" |};
             {| resource_title := "Strumming Patterns for Beginners";
             resource_type := video;
             url := Some "https://www.youtube.com/watch?v=oXerhIdTR8Y";
             duration := 25;
             platform := "YouTube";
             resource_difficulty := "beginner" |};
             {| resource_title := "Ultimate Guitar Chord Chart";
             resource_type := article;
             url := Some "https://www.ultimate-guitar.com/lessons/for_beginners/basic_guitar_chords.html";
             duration := 20;
             platform := "Ultimate Guitar";
             resource_difficulty := "beginner" |} ];
         exercises :=
           [ "Master G, C, D, Em, and Am chords";
             "Practice 1-minute chord changes";
             "Learn basic down-up strumming pattern";
             "Play your first complete song" ];
         assessments :=
           [ "Chord clarity evaluation";
             "Strumming rhythm test";
             "Song performance assessment" ] |} ] |}.

Definition topic_programming : TopicStructure :=
  {| category := "technology";
     subcategory := "software-development";
     topic_learningType := "practical";
     estimatedHours := 50;
     modules :=
       [ {| module_title := "Programming Fundamentals";
         resources :=
           [ {| resource_title := "freeCodeCamp JavaScript Basics";
             resource_type := course;
             url := Some "https://www.freecodecamp.org/learn/javascript-algorithms-and-data-structures/";
             duration := 180;
             platform := "freeCodeCamp";
             resource_difficulty := "beginner" |};
             {| resource_title := "MDN JavaScript Guide";
             resource_type := article;
             url := Some "https://developer.mozilla.org/en-US/docs/Web/JavaScript/Guide";
             duration := 120;
             platform := "MDN";
             resource_difficulty := "beginner" |};
             {| resource_title := "JavaScript Crash Course";
             resource_type := video;
             url := Some "https://www.youtube.com/watch?v=hdI2bqOjy3c";
             duration := 90;
             platform := "YouTube";
             resource_difficulty := "beginner" |} ];
         exercises :=
           [ "Build a simple calculator";
             "Create a number guessing game";
             "Implement basic sorting algorithms";
             "Solve coding challenges on HackerRank" ];
         assessments :=
           [ "Programming logic quiz";
             "Code review exercise";
             "Algorithm implementation test" ] |};
         {| module_title := "HTML & CSS Mastery";
         resources :=
           [ {| resource_title := "freeCodeCamp Responsive Web Design";
             resource_type := course;
             url := Some "https://www.freecodecamp.org/learn/responsive-web-design/";
             duration := 150;
             platform := "freeCodeCamp";
             resource_difficulty := "beginner" |};
             {| resource_title := "CSS-Tricks Complete Guide to Flexbox";
             resource_type := article;
             url := Some "https://css-tricks.com/snippets/css/a-guide-to-flexbox/";
             duration := 30;
             platform := "CSS-Tricks";
             resource_difficulty := "intermediate" |};
             {| resource_title := "HTML & CSS Crash Course";
             resource_type := video;
             url := Some "https://www.youtube.com/watch?v=UB1O30fR-EE";
             duration := 120;
             platform := "YouTube";
             resource_difficulty := "beginner" |} ];
         exercises :=
           [ "Build a personal portfolio website";
             "Create responsive layouts using Flexbox";
             "Design a mobile-first website";
             "Implement CSS animations and transitions" ];
         assessments :=
           [ "HTML semantic structure review";
             "CSS layout challenge";
             "Responsive design evaluation" ] |} ] |}.

Definition topic_photography : TopicStructure :=
  {| category := "creative";
     subcategory := "visual-arts";
     topic_learningType := "mixed";
     estimatedHours := 35;
     modules :=
       [ {| module_title := "Camera Fundamentals";
         resources :=
           [ {| resource_title := "Photography Basics: The Complete Beginner's Guide";
             resource_type := article;
             url := Some "https://www.photographylife.com/photography-basics";
             duration := 45;
             platform := "Photography Life";
             resource_difficulty := "beginner" |};
             {| resource_title := "Understanding Exposure";
             resource_type := video;
             url := Some "https://www.youtube.com/watch?v=3_79_gdhvZc";
             duration := 30;
             platform := "YouTube";
             resource_difficulty := "beginner" |};
             {| resource_title := "Camera Settings Explained";
             resource_type := article;
             url := Some "https://digital-photography-school.com/camera-modes/";
             duration := 25;
             platform := "Digital Photography School";
             resource_difficulty := "beginner" |} ];
         exercises :=
           [ "Practice manual exposure in different lighting";
             "Experiment with depth of field control";
             "Master focus techniques for moving subjects";
             "Create exposure comparison series" ];
         assessments :=
           [ "Technical knowledge quiz";
             "Exposure accuracy evaluation";
             "Camera operation test" ] |} ] |}.

(** [initializeTopicDatabase]: the entries in insertion order. *)
Definition topicDatabase : list (string * TopicStructure) :=
  [ ("chess", topic_chess);
    ("cooking", topic_cooking);
    ("guitar", topic_guitar);
    ("programming", topic_programming);
    ("photography", topic_photography) ].

Fixpoint get_topic (key : string) (db : list (string * TopicStructure))
  : option TopicStructure :=
  match db with
  | [] => None
  | (k, t) :: rest => if String.eqb k key then Some t else get_topic key rest
  end.

Record Detection := {
  detectedTopic : option TopicStructure;
  topicKey : option string;
  detection_confidence : Q;
  detection_category : string
}.

Definition keywordMap : list (string * list string) :=
  [ ("chess", ["chess"; "board game"; "strategy game"; "checkmate";
               "tactics"]);
    ("cooking", ["cooking"; "cook"; "recipe"; "kitchen"; "food"; "culinary";
                 "baking"; "chef"]);
    ("guitar", ["guitar"; "music"; "instrument"; "strings"; "chord";
                "acoustic"; "electric"]);
    ("programming", ["programming"; "coding"; "web development";
                     "javascript"; "html"; "css"; "software"; "developer"]);
    ("photography", ["photography"; "photo"; "camera"; "picture"; "image";
                     "lens"; "exposure"]) ].

(** Direct topic matching: the first key contained in the query. *)
Fixpoint direct_match (lowerQuery : string)
  (db : list (string * TopicStructure)) : option Detection :=
  match db with
  | [] => None
  | (key, topic) :: rest =>
      if Js.includes lowerQuery key then
        Some {| detectedTopic := Some topic;
                topicKey := Some key;
                detection_confidence := 9 # 10;
                detection_category := category topic |}
      else direct_match lowerQuery rest
  end.

(** The inner loop over the keywords of one topic key. *)
Fixpoint keyword_hit (lowerQuery : string) (key : string)
  (kws : list string) : option Detection :=
  match kws with
  | [] => None
  | keyword :: rest =>
      if Js.includes lowerQuery keyword then
        match get_topic key topicDatabase with
        | Some topic =>
            Some {| detectedTopic := Some topic;
                    topicKey := Some key;
                    detection_confidence := 8 # 10;
                    detection_category := category topic |}
        | None => keyword_hit lowerQuery key rest
        end
      else keyword_hit lowerQuery key rest
  end.

Fixpoint keyword_match (lowerQuery : string)
  (km : list (string * list string)) : option Detection :=
  match km with
  | [] => None
  | (key, kws) :: rest =>
      match keyword_hit lowerQuery key kws with
      | Some d => Some d
      | None => keyword_match lowerQuery rest
      end
  end.

Definition detectTopic (query : string) : Detection :=
  let lowerQuery := Js.toLowerCase query in
  match direct_match lowerQuery topicDatabase with
  | Some d => d
  | None =>
      match keyword_match lowerQuery keywordMap with
      | Some d => d
      | None =>
          {| detectedTopic := None;
             topicKey := None;
             detection_confidence := 3 # 10;
             detection_category := "general" |}
      end
  end.

(* ------------------------------------------------------------------- *)
(** *** Utility methods *)

(** [p] is lower-case; the result is what follows a case-insensitive
    occurrence of [p] at the start of [s]. *)
Fixpoint drop_prefix_ci (p s : string) : option string :=
  match p, s with
  | EmptyString, _ => Some s
  | String a p', String b s' =>
      if Ascii.eqb a (Js.lower_ascii b) then drop_prefix_ci p' s' else None
  | String _ _, EmptyString => None
  end.

(** [s.replace(/^(learn|how to|guide to|tutorial|course|master|study)\s*/i, '')] *)
Fixpoint strip_leading (alternatives : list string) (s : string) : string :=
  match alternatives with
  | [] => s
  | p :: rest =>
      match drop_prefix_ci p s with
      | Some r => Js.drop_ws r
      | None => strip_leading rest s
      end
  end.

Fixpoint span_nonspace (l : list ascii) : list ascii * list ascii :=
  match l with
  | [] => ([], [])
  | c :: l' =>
      if Js.is_space c then ([], l)
      else let '(tok, rest) := span_nonspace l' in (c :: tok, rest)
  end.

(** [s.replace(/\s+(basics?|fundamentals?|introduction|beginner|advanced)$/i, '')]:
    when the last word is one of the qualifiers and white space precedes
    it, the word goes together with the whole run of white space before
    it. *)
Definition strip_trailing (s : string) : string :=
  let '(tok_rev, rest_rev) := span_nonspace (rev (list_ascii_of_string s)) in
  let word := Js.toLowerCase (string_of_list_ascii (rev tok_rev)) in
  match rest_rev with
  | _ :: _ =>
      if Js.array_includes
           ["basic"; "basics"; "fundamental"; "fundamentals"; "introduction";
            "beginner"; "advanced"] word
      then string_of_list_ascii (rev (Js.drop_ws_list rest_rev))
      else s
  | [] => s
  end.

Definition extractMainTopic (query : string) : string :=
  Js.or_else
    (Js.trim
       (strip_trailing
          (strip_leading
             ["learn"; "how to"; "guide to"; "tutorial"; "course"; "master";
              "study"] query)))
    "Topic".

Definition capitalize (word : string) : string :=
  match word with
  | EmptyString => EmptyString
  | String c rest => String (Js.upper_ascii c) (Js.toLowerCase rest)
  end.

Definition capitalizeWords (text : string) : string :=
  Js.join " " (List.map capitalize (Js.split_space text)).

Definition generateTitle (query topicKey : string) (difficulty : Difficulty)
  : string :=
  let prefix := match difficulty with
                | beginner => "Complete Beginner's Guide to"
                | intermediate => "Intermediate"
                | advanced => "Advanced Mastery of"
                end in
  prefix +:+ " " +:+ capitalizeWords topicKey.

Definition generateCustomTitle (query : string) (difficulty : Difficulty)
  : string :=
  let prefix := match difficulty with
                | beginner => "Learn"
                | intermediate => "Master"
                | advanced => "Advanced"
                end in
  prefix +:+ " " +:+ capitalizeWords (extractMainTopic query).

(** The query words added to the tag set by both tag generators. *)
Definition add_query_words (query : string) (tags : list string)
  : list string :=
  fold_left
    (fun acc word =>
       if (3 <? String.length word)%nat
          && negb (Js.array_includes ["learn"; "how"; "guide"; "tutorial"]
                     word)
       then Js.set_add word acc else acc)
    (Js.split_space (Js.toLowerCase query)) tags.

Definition generateTags (topicKey : string) (topic : TopicStructure)
  (query : string) : list string :=
  let tags :=
    fold_left (fun acc t => Js.set_add t acc)
      [topicKey; category topic; subcategory topic;
       topic_learningType topic; "structured"; "resources"; "practical"]
      [] in
  firstn 8 (add_query_words query tags).

Definition generateCustomTags (query category : string) : list string :=
  let tags :=
    fold_left (fun acc t => Js.set_add t acc)
      [category; "custom"; "structured"; "resources";
       Js.toLowerCase (extractMainTopic query)]
      [] in
  firstn 8 (add_query_words query tags).

Definition mapCategoryToTopic (category : string) : string :=
  let mapping :=
    [ ("strategy-games", "design"); ("life-skills", "business");
      ("music", "design"); ("creative", "design");
      ("technology", "web-development"); ("science", "data-science");
      ("business", "business"); ("general", "business") ] in
  match List.find (fun kv => String.eqb (fst kv) category) mapping with
  | Some (_, v) => v
  | None => "business"
  end.

(* ------------------------------------------------------------------- *)
(** *** Structured path from a topic template *)

Definition selectModulesByDifficulty
  (modules : list TopicModule) (difficulty : Difficulty) : list TopicModule :=
  match difficulty with
  | beginner => firstn (Nat.min 3 (List.length modules)) modules
  | intermediate => firstn (Nat.min 5 (List.length modules)) modules
  | advanced => modules
  end.

(** [nodes.push({ ..., order_index: orderIndex++ })] on the pair of the
    node array and the counter. *)
Definition push_next (st : list LearningNode * Z) (mk : Z -> LearningNode)
  : list LearningNode * Z :=
  let '(nodes, orderIndex) := st in
  (nodes ++ [mk orderIndex], (orderIndex + 1)%Z).

Definition resource_node (resource : LearningResource) (i : Z)
  : LearningNode :=
  {| node_title := resource_title resource;
     content_type := resource_type resource;
     resource_url := url resource;
     node_estimated_duration := duration resource;
     order_index := i;
     prerequisites := [];
     is_required := true |}.

Definition practice_node (m : TopicModule) (moduleDuration : Q) (i : Z)
  : LearningNode :=
  {| node_title := module_title m +:+ " - Hands-On Practice";
     content_type := exercise;
     resource_url := None;
     node_estimated_duration := Js.ceil (moduleDuration * (3 # 10));
     order_index := i;
     prerequisites := [];
     is_required := true |}.

Definition assessment_node (m : TopicModule) (moduleDuration : Q) (i : Z)
  : LearningNode :=
  {| node_title := module_title m +:+ " - Knowledge Assessment";
     content_type := exercise;
     resource_url := None;
     node_estimated_duration := Js.ceil (moduleDuration * (2 # 10));
     order_index := i;
     prerequisites := [];
     is_required := false |}.

(** The body of the loop over the selected modules. *)
Definition module_step (moduleDuration : Q)
  (st : list LearningNode * Z) (m : TopicModule) : list LearningNode * Z :=
  let st :=
    fold_left (fun st resource => push_next st (resource_node resource))
      (resources m) st in
  let st :=
    if (0 <? List.length (exercises m))%nat
    then push_next st (practice_node m moduleDuration) else st in
  if (0 <? List.length (assessments m))%nat
  then push_next st (assessment_node m moduleDuration) else st.

Definition request_difficulty_or_beginner (request : GeneratePathRequest)
  : Difficulty :=
  match request_difficulty request with
  | Some d => d
  | None => beginner
  end.

Definition generateStructuredPath
  (topic : TopicStructure) (topicKey : string) (request : GeneratePathRequest)
  : GeneratedPathStructure :=
  let difficulty := request_difficulty_or_beginner request in
  let duration := Js.number_or (request_duration request)
                    (estimatedHours topic) in
  let selectedModules :=
    selectModulesByDifficulty (modules topic) difficulty in
  let moduleDuration :=
    Js.ceil (duration / inject_Z (Z.of_nat (List.length selectedModules))) in
  let '(nodes, _) :=
    fold_left (module_step moduleDuration) selectedModules ([], 1%Z) in
  {| gen_title := generateTitle (query request) topicKey difficulty;
     gen_topic := mapCategoryToTopic (category topic);
     gen_difficulty_level := difficulty_name difficulty;
     gen_estimated_duration := duration;
     gen_tags := generateTags topicKey topic (query request);
     gen_nodes := nodes |}.

(* ------------------------------------------------------------------- *)
(** *** Custom path for an unknown topic *)

Record CustomModule := {
  custom_title : string;
  custom_type : ContentType;
  custom_url : option string
}.

Definition generateCustomModulesWithResources
  (mainTopic : string) (difficulty : Difficulty) : list CustomModule :=
  let capitalizedTopic := capitalizeWords mainTopic in
  let searchTopic := Js.replace_ws "+" (Js.toLowerCase mainTopic) in
  [ {| custom_title := capitalizedTopic +:+ " Fundamentals";
       custom_type := article;
       custom_url :=
         Some ("https://www.google.com/search?q=" +:+ searchTopic
               +:+ "+fundamentals+guide+tutorial") |};
    {| custom_title := capitalizedTopic +:+ " Video Tutorial";
       custom_type := video;
       custom_url :=
         Some ("https://www.youtube.com/results?search_query="
               +:+ searchTopic +:+ "+tutorial+"
               +:+ difficulty_name difficulty) |};
    {| custom_title := capitalizedTopic +:+ " Hands-On Practice";
       custom_type := exercise;
       custom_url := None |};
    {| custom_title := capitalizedTopic +:+ " Advanced Resources";
       custom_type := course;
       custom_url :=
         Some ("https://www.coursera.org/search?query=" +:+ searchTopic
               +:+ "&") |} ].

Definition generateCustomPath
  (request : GeneratePathRequest) (category : string)
  : GeneratedPathStructure :=
  let difficulty := request_difficulty_or_beginner request in
  let duration := Js.number_or (request_duration request) 20 in
  let mainTopic := extractMainTopic (query request) in
  let modules := generateCustomModulesWithResources mainTopic difficulty in
  let nodes :=
    imap
      (fun index module =>
         let moduleDuration :=
           Js.ceil (duration / inject_Z (Z.of_nat (List.length modules))) in
         {| node_title := custom_title module;
            content_type := custom_type module;
            resource_url := custom_url module;
            node_estimated_duration := moduleDuration;
            order_index := (Z.of_nat index + 1)%Z;
            prerequisites := [];
            is_required := true |})
      modules in
  {| gen_title := generateCustomTitle (query request) difficulty;
     gen_topic := mapCategoryToTopic category;
     gen_difficulty_level := difficulty_name difficulty;
     gen_estimated_duration := duration;
     gen_tags := generateCustomTags (query request) category;
     gen_nodes := nodes |}.

(* ------------------------------------------------------------------- *)
(** *** Fallback path *)

Definition generateFallbackPath (request : GeneratePathRequest)
  : GeneratedPathStructure :=
  let difficulty := request_difficulty_or_beginner request in
  let duration := Js.number_or (request_duration request) 15 in
  let mainTopic := extractMainTopic (query request) in
  let searchTopic := Js.replace_ws "+" (Js.toLowerCase mainTopic) in
  {| gen_title := "Learn " +:+ capitalizeWords mainTopic;
     gen_topic := "business";
     gen_difficulty_level := difficulty_name difficulty;
     gen_estimated_duration := duration;
     gen_tags := [Js.toLowerCase mainTopic; "custom";
                  difficulty_name difficulty; "resources"];
     gen_nodes :=
       [ {| node_title := capitalizeWords mainTopic +:+ " Fundamentals";
            content_type := article;
            resource_url :=
              Some ("https://www.google.com/search?q=" +:+ searchTopic
                    +:+ "+fundamentals+guide+tutorial");
            node_estimated_duration := Js.ceil (duration * (4 # 10));
            order_index := 1;
            prerequisites := [];
            is_required := true |};
         {| node_title := capitalizeWords mainTopic +:+ " Video Learning";
            content_type := video;
            resource_url :=
              Some ("https://www.youtube.com/results?search_query="
                    +:+ searchTopic +:+ "+tutorial+"
                    +:+ difficulty_name difficulty);
            node_estimated_duration := Js.ceil (duration * (4 # 10));
            order_index := 2;
            prerequisites := [];
            is_required := true |};
         {| node_title :=
              capitalizeWords mainTopic +:+ " Practical Application";
            content_type := exercise;
            resource_url := None;
            node_estimated_duration := Js.floor (duration * (2 # 10));
            order_index := 3;
            prerequisites := [];
            is_required := true |} ] |}.

(* ------------------------------------------------------------------- *)
(** *** [generatePath] *)

(** The [try] block: a template is used when one is detected with
    confidence above 0.7.  [detection.topicKey!] is passed on unchecked;
    were it [null], capitalising it would raise. *)
Definition generatePath_try (request : GeneratePathRequest)
  : Thrown + GeneratedPathStructure :=
  let detection := detectTopic (query request) in
  match detectedTopic detection with
  | Some topic =>
      if Qlt_le_dec (7 # 10) (detection_confidence detection) then
        match topicKey detection with
        | Some key => inr (generateStructuredPath topic key request)
        | None =>
            inl (ErrorInstance "Cannot read properties of null")
        end
      else inr (generateCustomPath request (detection_category detection))
  | None => inr (generateCustomPath request (detection_category detection))
  end.

Definition generatePath (request : GeneratePathRequest)
  : GeneratedPathStructure :=
  match generatePath_try request with
  | inr path => path
  | inl _ => generateFallbackPath request
  end.

(** The order indices 1, 2, ..., n. *)
Definition one_to (n : nat) : list Z := List.map Z.of_nat (seq 1 n).

(** At least one node, and the order indices of the nodes, in list
    order, are 1, 2, ..., n. *)
Definition well_indexed (nodes : list LearningNode) : Prop :=
  nodes <> [] /\
  List.map order_index nodes = one_to (List.length nodes).

(** The loop invariant of [generateStructuredPath]: the counter is one
    more than the number of nodes pushed so far, and these nodes carry
    the indices 1, 2, ... in order. *)
Definition counted (st : list LearningNode * Z) : Prop :=
  st.2 = (Z.of_nat (List.length st.1) + 1)%Z
  /\ List.map order_index st.1 = one_to (List.length st.1).

(** The template has a resource in the modules selected for each
    difficulty. *)
Definition has_resources (topic : TopicStructure) : bool :=
  forallb
    (fun d =>
       (0 <? List.length
               (flat_map resources
                  (selectModulesByDifficulty (modules topic) d)))%nat)
    [beginner; intermediate; advanced].

(** A detection is sound when any template it names is an entry of the
    topic database, under the key it reports. *)
Definition sound (d : Detection) : Prop :=
  forall topic, detectedTopic d = Some topic ->
                exists key, topicKey d = Some key
                            /\ In (key, topic) topicDatabase.

(* ------------------------------------------------------------------- *)
(** *** [saveGeneratedPath] *)

(** The header row inserted for a generated path (without the
    [description] text). *)
Record PathHeader := {
  header_title : string;
  header_topic : string;
  header_difficulty_level : string;
  header_estimated_duration : Q;
  header_created_by : string;
  header_is_public : bool;
  header_total_nodes : nat;
  header_completion_rate : Q;
  header_tags : list string
}.

Inductive SaveRequest :=
  | insert_header (h : PathHeader)
  | insert_path_nodes (rows : list Database.NodeInsert)
  | restate_total_nodes (pathId : string) (n : nat).

(** The replies to the three store requests of [saveGeneratedPath]. *)
Record SaveEnv := {
  header_reply : Outcome LearningPath;
  nodes_reply : Outcome unit;
  total_reply : Outcome unit
}.

(** [node.order_index || index + 1] *)
Definition order_index_or (node : LearningNode) (index : nat) : Z :=
  if (order_index node =? 0)%Z then (Z.of_nat index + 1)%Z
  else order_index node.

Definition with_order_index (node : LearningNode) (i : Z) : LearningNode :=
  {| node_title := node_title node;
     content_type := content_type node;
     resource_url := resource_url node;
     node_estimated_duration := node_estimated_duration node;
     order_index := i;
     prerequisites := prerequisites node;
     is_required := is_required node |}.

Definition nodesWithPathId (pathId : string) (nodes : list LearningNode)
  : list Database.NodeInsert :=
  imap
    (fun index node =>
       {| Database.insert_path_id := pathId;
          Database.insert_fields :=
            with_order_index node (order_index_or node index) |})
    nodes.

Definition header_of_structure
  (pathStructure : GeneratedPathStructure) (userId : string) : PathHeader :=
  {| header_title := gen_title pathStructure;
     header_topic := gen_topic pathStructure;
     header_difficulty_level := gen_difficulty_level pathStructure;
     header_estimated_duration := gen_estimated_duration pathStructure;
     header_created_by := userId;
     header_is_public := true;
     header_total_nodes := List.length (gen_nodes pathStructure);
     header_completion_rate := 0;
     header_tags := gen_tags pathStructure |}.

(** [error.message] of whatever was thrown. *)
Definition message_of (e : Thrown) : string :=
  match e with
  | ErrorInstance m => m
  | PlainObject m => m
  end.

(** The [try] block of [saveGeneratedPath]: what it throws or returns,
    the cache of the database manager afterwards and the requests
    issued. *)
Definition saveGeneratedPath_try
  (env : SaveEnv) (queryCache : gmap string Database.CacheEntry)
  (pathStructure : GeneratedPathStructure) (userId : string)
  : (Thrown + LearningPath) * gmap string Database.CacheEntry
    * list SaveRequest :=
  if (List.length (gen_nodes pathStructure) =? 0)%nat then
    (inl (ErrorInstance "Cannot create path without learning modules"),
     queryCache, [])
  else
    let log1 := [insert_header (header_of_structure pathStructure userId)] in
    match header_reply env with
    | rejected e => (inl e, queryCache, log1)
    | resolved r =>
        match error r, data r with
        | Some pathError, _ => (inl pathError, queryCache, log1)
        | None, None =>
            (inl (ErrorInstance "Cannot read properties of null"),
             queryCache, log1)
        | None, Some path =>
            let log2 :=
              log1 ++ [insert_path_nodes
                         (nodesWithPathId (id path)
                            (gen_nodes pathStructure))] in
            match nodes_reply env with
            | rejected e => (inl e, queryCache, log2)
            | resolved n =>
                match error n with
                | Some nodesError => (inl nodesError, queryCache, log2)
                | None =>
                    let log3 :=
                      log2 ++ [restate_total_nodes (id path)
                                 (List.length (gen_nodes pathStructure))] in
                    match total_reply env with
                    | rejected e => (inl e, queryCache, log3)
                    | resolved _ =>
                        (inr path, Database.clearAllCache queryCache, log3)
                    end
                end
            end
        end
    end.

Definition save_context : string := "Failed to save learning path: ".

(** [saveGeneratedPath]: the [catch] wraps whatever the [try] block
    threw. *)
Definition saveGeneratedPath
  (env : SaveEnv) (queryCache : gmap string Database.CacheEntry)
  (pathStructure : GeneratedPathStructure) (userId : string)
  : (Thrown + LearningPath) * gmap string Database.CacheEntry
    * list SaveRequest :=
  match saveGeneratedPath_try env queryCache pathStructure userId with
  | (inl error, cache, log) =>
      (inl (ErrorInstance (save_context +:+ message_of error)), cache, log)
  | (inr path, cache, log) => (inr path, cache, log)
  end.

(** The number of nodes one module contributes to a structured path. *)
Definition module_node_count (m : TopicModule) : nat :=
  (List.length (resources m)
   + (if (0 <? List.length (exercises m))%nat then 1 else 0)
   + (if (0 <? List.length (assessments m))%nat then 1 else 0))%nat.

(** The sum of the durations of the nodes. *)
Definition total_duration (nodes : list LearningNode) : Q :=
  fold_right Qplus 0%Q (List.map node_estimated_duration nodes).

(** The resource URL, when there is one, contains no white space. *)
Definition url_without_space (u : option string) : Prop :=
  match u with
  | Some text => Js.no_space text = true
  | None => True
  end.

Definition url_without_space_b (u : option string) : bool :=
  match u with
  | Some text => Js.no_space text
  | None => true
  end.

(** The curated URLs of a template contain no white space. *)
Definition curated_urls_ok (topic : TopicStructure) : bool :=
  forallb (fun m => forallb (fun r => url_without_space_b (url r))
                      (resources m))
    (modules topic).

End PathGenerator.

(* ===================================================================== *)
(** ** Sample data used by the concrete instances below *)
(* ===================================================================== *)

Module Samples.

Definition chess_openings : LearningPath :=
  {| id := "p1";
     title := "Chess Openings";
     description := "Learn chess openings step by step";
     topic := "design";
     difficulty_level := "beginner";
     estimated_duration := 10;
     created_by := "user-u";
     is_public := true;
     total_nodes := 12;
     completion_rate := 1 # 2;
     tags := Some ["chess"; "strategy"] |}.

(** A short entry: five hours, one node, no tags. *)
Definition chess_basics : LearningPath :=
  {| id := "p3";
     title := "Chess Basics";
     description := "Learn chess in an afternoon";
     topic := "design";
     difficulty_level := "beginner";
     estimated_duration := 5;
     created_by := "user-u";
     is_public := true;
     total_nodes := 1;
     completion_rate := 3 # 10;
     tags := None |}.

(** The same entry with a higher completion rate. *)
Definition chess_openings_popular : LearningPath :=
  {| id := "p1";
     title := "Chess Openings";
     description := "Learn chess openings step by step";
     topic := "design";
     difficulty_level := "beginner";
     estimated_duration := 10;
     created_by := "user-u";
     is_public := true;
     total_nodes := 12;
     completion_rate := 9 # 10;
     tags := Some ["chess"; "strategy"] |}.

(** [chess_openings] as a read hands it out. *)
Definition chess_row : AiSearch.PathRow :=
  {| AiSearch.columns := chess_openings; AiSearch.described := true |}.


(** [JSON.stringify(undefined)] spliced into a template string. *)
Definition stringify_undefined (filters : option AiSearch.SearchFilters)
  : string := "undefined".

(** The store answers every read with [chess_openings]; the completion
    service is configured and gives [completion]; the popular-topics read
    rejects. *)
Definition env_with_completion (completion : OpenAI.Completion)
  : AiSearch.SearchEnv :=
  {| AiSearch.openai_configured := true;
     AiSearch.completion := completion;
     AiSearch.main_read :=
       fun _ => resolved {| data := Some [chess_row]; error := None |};
     AiSearch.popular_read := rejected (ErrorInstance "Failed to fetch") |}.


(** No completion service; every read succeeds. *)
Definition env_plain : AiSearch.SearchEnv :=
  {| AiSearch.openai_configured := false;
     AiSearch.completion := OpenAI.completion_no_content;
     AiSearch.main_read :=
       fun _ => resolved {| data := Some [chess_row]; error := None |};
     AiSearch.popular_read := resolved {| data := Some []; error := None |} |}.


Definition says_difficulty (d : string) : OpenAI.Completion :=
  OpenAI.completion_parsed
    {| OpenAI.enhancedQuery := "chess";
       OpenAI.suggestedTopics := [];
       OpenAI.difficulty := d;
       OpenAI.estimatedDuration := 10 |}.

(** The cached view of [chess_openings], written at time 1000. *)
Definition cached_chess : Database.CacheEntry :=
  {| Database.entry_data :=
       Database.path_nodes_data
         {| Database.fetched :=
              {| Database.path_row := chess_openings;
                 Database.learning_nodes := Some [] |};
            Database.nodes := [] |};
     Database.timestamp := 1000 |}.

Definition cached_progress : Database.CacheEntry :=
  {| Database.entry_data := Database.progress_data [];
     Database.timestamp := 1000 |}.

Definition progress_row : Database.UserProgress :=
  {| Database.progress_id := "g1";
     Database.progress_user_id := "user-v";
     Database.progress_path_id := "p1";
     Database.progress_node_id := "n1";
     Database.status := Database.completed;
     Database.progress_percentage := 100;
     Database.time_spent := 30 |}.

Definition cache_at_1000 : gmap string Database.CacheEntry :=
  <["progress-user-v-p1" := cached_progress]>
    {[ "path-nodes-p1" := cached_chess ]}.

(** A read at time [now] that the store answers with the popular row. *)
Definition path_read_at (now : Z) : Database.ReadEnv Database.PathAndNodes :=
  {| Database.now := now;
     Database.remote :=
       resolved
         {| data := Some {| Database.path_row := chess_openings_popular;
                            Database.learning_nodes := Some [] |};
            error := None |};
     Database.now_at_write := now |}.

Definition progress_read_at (now : Z)
  : Database.ReadEnv (list Database.UserProgress) :=
  {| Database.now := now;
     Database.remote := resolved {| data := Some [progress_row];
                                    error := None |};
     Database.now_at_write := now |}.

(** A node row of "p1" at position [index]. *)
Definition node_at (nodeId : string) (index : Z) : NodeRow :=
  {| node_id := nodeId;
     path_id := "p1";
     node_fields :=
       {| node_title := "Step " +:+ nodeId;
          content_type := article;
          resource_url := None;
          node_estimated_duration := 30;
          order_index := index;
          prerequisites := [];
          is_required := true |} |}.

(** The nodes of "p1" as the store hands them out, not in path order. *)
Definition shuffled_nodes : list NodeRow :=
  [node_at "n3" 3; node_at "n1" 1; node_at "n2" 2].

Definition shuffled_nodes_read : Database.ReadEnv Database.PathAndNodes :=
  {| Database.now := 2000;
     Database.remote :=
       resolved
         {| data := Some {| Database.path_row := chess_openings;
                            Database.learning_nodes := Some shuffled_nodes |};
            error := None |};
     Database.now_at_write := 2001 |}.

Definition paths_table : gmap string LearningPath :=
  {[ "p1" := chess_openings ]}.

(** A private path of "user-u". *)
Definition chess_notes : LearningPath :=
  {| id := "p2";
     title := "Chess Notes";
     description := "My own notes";
     topic := "design";
     difficulty_level := "beginner";
     estimated_duration := 5;
     created_by := "user-u";
     is_public := false;
     total_nodes := 2;
     completion_rate := 0;
     tags := None |}.

(** The public path "p1" and the private path "p2", both of "user-u". *)
Definition both_paths : gmap string LearningPath :=
  <["p2" := chess_notes]> paths_table.

Definition no_faults : Database.StoreFaults :=
  {| Database.select_fault := None; Database.delete_fault := None |}.

Definition delete_fails_with (e : Thrown) : Database.StoreFaults :=
  {| Database.select_fault := None; Database.delete_fault := Some e |}.

Definition completed_update : Database.ProgressUpdate :=
  {| Database.update_nodeId := "n1";
     Database.update_status := Database.completed;
     Database.update_progressPercentage := 100;
     Database.update_timeSpent := 30;
     Database.update_notes := None |}.

Definition started_update : Database.ProgressUpdate :=
  {| Database.update_nodeId := "n1";
     Database.update_status := Database.in_progress;
     Database.update_progressPercentage := 0;
     Database.update_timeSpent := 0;
     Database.update_notes := None |}.

Definition profile_stats : Database.ProfileStats :=
  {| Database.total_points := 40;
     Database.current_streak := 3;
     Database.longest_streak := 7 |}.

(** The existence check finds no record (its reply even carries an
    error), the insert goes through, the statistics are read but their
    update fails. *)
Definition progress_env : Database.ProgressEnv :=
  {| Database.existing_reply :=
       resolved {| data := None; error := Some (PlainObject "timeout") |};
     Database.write_reply :=
       resolved {| data := Some progress_row; error := None |};
     Database.stats_reply :=
       resolved {| data := Some profile_stats; error := None |};
     Database.stats_update_reply := rejected (ErrorInstance "Failed to fetch");
     Database.now_iso := "2025-07-04T20:23:39.000Z" |}.

(** The existence check itself rejects. *)
Definition progress_env_unreachable : Database.ProgressEnv :=
  {| Database.existing_reply := rejected (ErrorInstance "Failed to fetch");
     Database.write_reply :=
       resolved {| data := Some progress_row; error := None |};
     Database.stats_reply :=
       resolved {| data := Some profile_stats; error := None |};
     Database.stats_update_reply := resolved {| data := None; error := None |};
     Database.now_iso := "2025-07-04T20:23:39.000Z" |}.

Definition chess_request : PathGenerator.GeneratePathRequest :=
  {| PathGenerator.query := "Learn chess openings";
     PathGenerator.userId := "user-u";
     PathGenerator.request_difficulty := Some beginner;
     PathGenerator.request_duration := Some 20%Q;
     PathGenerator.learningStyle := Some PathGenerator.mixed_style;
     PathGenerator.goals := None |}.

Definition weaving_request : PathGenerator.GeneratePathRequest :=
  {| PathGenerator.query := "underwater basket weaving";
     PathGenerator.userId := "user-u";
     PathGenerator.request_difficulty := None;
     PathGenerator.request_duration := Some 12%Q;
     PathGenerator.learningStyle := None;
     PathGenerator.goals := None |}.

(** The row the store returns for an inserted header. *)
Definition saved_row : LearningPath :=
  {| id := "p9";
     title := "Learn Underwater Basket Weaving";
     description := "";
     topic := "business";
     difficulty_level := "beginner";
     estimated_duration := 12;
     created_by := "user-u";
     is_public := true;
     total_nodes := 4;
     completion_rate := 0;
     tags := Some ["general"; "custom"] |}.

(** The custom path for "underwater basket weaving" with the order
    index of every node reset to 0. *)
Definition weaving_unindexed : PathGenerator.GeneratedPathStructure :=
  let generated := PathGenerator.generatePath weaving_request in
  {| PathGenerator.gen_title := PathGenerator.gen_title generated;
     PathGenerator.gen_topic := PathGenerator.gen_topic generated;
     PathGenerator.gen_difficulty_level :=
       PathGenerator.gen_difficulty_level generated;
     PathGenerator.gen_estimated_duration :=
       PathGenerator.gen_estimated_duration generated;
     PathGenerator.gen_tags := PathGenerator.gen_tags generated;
     PathGenerator.gen_nodes :=
       List.map (fun n => PathGenerator.with_order_index n 0)
         (PathGenerator.gen_nodes generated) |}.

(** The header insert goes through, the node insert fails. *)
Definition save_env_nodes_fail : PathGenerator.SaveEnv :=
  {| PathGenerator.header_reply :=
       resolved {| data := Some saved_row; error := None |};
     PathGenerator.nodes_reply :=
       resolved {| data := None;
                   error := Some (PlainObject "violates check constraint") |};
     PathGenerator.total_reply := resolved {| data := None; error := None |} |}.

Definition save_env_ok : PathGenerator.SaveEnv :=
  {| PathGenerator.header_reply :=
       resolved {| data := Some saved_row; error := None |};
     PathGenerator.nodes_reply := resolved {| data := None; error := None |};
     PathGenerator.total_reply := resolved {| data := None; error := None |} |}.

(** [JSON.stringify({})] *)
Definition stringify_empty (filters : Database.DatabaseFilters) : string :=
  "{}".

Definition no_filters : Database.DatabaseFilters :=
  {| Database.by_topic := None;
     Database.by_difficulty := None;
     Database.by_isPublic := None;
     Database.by_createdBy := None;
     Database.page_limit := None;
     Database.page_offset := None |}.

Definition paths_read_ok : Database.ReadEnv (list LearningPath) :=
  {| Database.now := 2000;
     Database.remote := resolved {| data := Some [chess_openings];
                                    error := None |};
     Database.now_at_write := 2005 |}.

Definition nodes_inserted : Outcome (list NodeRow) :=
  resolved {| data := Some []; error := None |}.

End Samples.

(* ===================================================================== *)
(** ** Properties of the intent parser *)
(* ===================================================================== *)

Module ParserFacts.
Import AiSearch.

(** Case analysis on the keyword tests that choose the difficulty. *)
Ltac difficulty_cases :=
  repeat match goal with
         | |- context [if ?b then (_, _) else _] => destruct b
         end.

Lemma detect_topic_confidence (lowerQuery : string) (m : list (string * string)) :
  snd (detect_topic lowerQuery m) = (1 # 2)%Q
  \/ snd (detect_topic lowerQuery m) = (4 # 5)%Q.
Proof.
  induction m as [| [key value] rest IH]; simpl.
  - now left.
  - destruct (Js.includes lowerQuery key); simpl; [now right | exact IH].
Qed.

(** The confidence before the final [Math.min] is one of 0.5, 0.6, 0.8
    and 0.9, so it is non-negative. *)
Lemma heuristic_confidence_nonneg (c : Q) :
  c = (1 # 2)%Q \/ c = (4 # 5)%Q ->
  (0 <= c)%Q /\ (0 <= c + (1 # 10))%Q.
Proof.
  intros [-> | ->]; split; unfold Qle; simpl; lia.
Qed.

Lemma parse_difficulty_cases (q : string) :
  intent_difficulty (parseQueryIntent q) = "beginner"
  \/ intent_difficulty (parseQueryIntent q) = "intermediate"
  \/ intent_difficulty (parseQueryIntent q) = "advanced".
Proof.
  unfold parseQueryIntent.
  destruct (detect_topic _ topicMappings) as [t c].
  difficulty_cases; simpl; auto.
Qed.

Lemma parse_confidence_pos (q : string) :
  (0 < confidence (parseQueryIntent q))%Q.
Proof.
  unfold parseQueryIntent.
  pose proof (detect_topic_confidence (Js.toLowerCase q) topicMappings) as Hc.
  destruct (detect_topic (Js.toLowerCase q) topicMappings) as [t c].
  simpl in Hc.
  difficulty_cases; simpl;
    apply Q.min_glb_lt; try reflexivity;
    destruct Hc as [-> | ->]; reflexivity.
Qed.

(** C8.  Scenario A: the query "advanced machine learning deep dive" is
    parsed to topic "ai-ml", difficulty "advanced" and an estimated
    duration of 50 hours. *)
Theorem parse_scenario_A :
  let intent := parseQueryIntent "advanced machine learning deep dive" in
  intent_topic intent = "ai-ml"
  /\ intent_difficulty intent = "advanced"
  /\ estimatedDuration intent = 50%Q.
Proof.
  vm_compute. repeat split; reflexivity.
Qed.

(** C9.  For every query, the confidence of the parsed intent lies
    between 0 and 1. *)
Theorem parse_confidence_in_unit_interval (q : string) :
  (0 <= confidence (parseQueryIntent q))%Q
  /\ (confidence (parseQueryIntent q) <= 1)%Q.
Proof.
  unfold parseQueryIntent.
  pose proof (detect_topic_confidence (Js.toLowerCase q) topicMappings) as Hc.
  destruct (detect_topic (Js.toLowerCase q) topicMappings) as [t c].
  simpl in Hc.
  destruct (heuristic_confidence_nonneg c Hc) as [H0 H1].
  difficulty_cases; simpl;
    (split; [apply Q.min_glb; [assumption | unfold Qle; simpl; lia]
            | apply Q.le_min_r]).
Qed.

End ParserFacts.

(* ===================================================================== *)
(** ** Properties of the relevance score *)
(* ===================================================================== *)

Module RankingFacts.
Import AiSearch.
Local Open Scope Q_scope.

Lemma per_hit_succ (w : Q) (n : nat) : per_hit w (S n) == per_hit w n + w.
Proof.
  unfold per_hit. rewrite Nat2Z.inj_succ. unfold Z.succ.
  rewrite inject_Z_plus. ring.
Qed.

Lemma per_hit_zero (w : Q) : per_hit w 0 == 0.
Proof. unfold per_hit. simpl. ring. Qed.

(** A [forEach] that adds [w] for every hit adds [w] as many times as
    there are hits, from left to right. *)
Lemma forEach_add_repeat {N : Type} (A : Arithmetic N)
  (kws : list string) (hit : string -> bool) (w s : N) :
  forEach_add A kws hit w s
  = fold_left (js_add A) (repeat w (hits kws hit)) s.
Proof.
  unfold forEach_add, hits. revert s.
  induction kws as [| kw rest IH]; intros s; simpl; [reflexivity |].
  destruct (hit kw); simpl; apply IH.
Qed.

(** Over exact numbers that is [w] times the number of hits. *)
Lemma forEach_add_hits (kws : list string) (hit : string -> bool) (w s : Q) :
  forEach_add exact kws hit w s == s + per_hit w (hits kws hit).
Proof.
  unfold forEach_add, hits. revert s.
  induction kws as [| kw rest IH]; intros s; simpl.
  - rewrite per_hit_zero. ring.
  - destruct (hit kw); simpl.
    + rewrite IH, per_hit_succ. ring.
    + apply IH.
Qed.

Lemma if_add_bonus (b : bool) (w s : Q) :
  (if b then s + w else s) == s + bonus b w.
Proof. destruct b; simpl; ring. Qed.

(** [String.prototype.includes] finds exactly the substrings. *)
Lemma prefix_is_substring_at_0 (sub s : string) :
  String.prefix sub s
  = String.eqb (String.substring 0 (String.length sub) s) sub.
Proof.
  destruct (String.prefix sub s) eqn:E.
  - apply String.prefix_correct in E. rewrite E.
    symmetry. apply String.eqb_refl.
  - symmetry. apply String.eqb_neq. intros H.
    apply String.prefix_correct in H. congruence.
Qed.

Lemma existsb_seq_shift (f : nat -> bool) (start len : nat) :
  existsb f (seq (S start) len) = existsb (fun i => f (S i)) (seq start len).
Proof.
  revert start. induction len as [| len IH]; intros start; simpl;
    [reflexivity |].
  f_equal. apply IH.
Qed.

Lemma existsb_pointwise {X : Type} (f g : X -> bool) (l : list X) :
  (forall x, f x = g x) -> existsb f l = existsb g l.
Proof.
  intros H. induction l as [| x l IH]; simpl; [reflexivity |].
  rewrite H, IH. reflexivity.
Qed.

Lemma includes_is_substring (s sub : string) :
  Js.includes s sub = is_substring sub s.
Proof.
  unfold is_substring. induction s as [| c s IH].
  - cbn [Js.includes String.length seq existsb].
    rewrite prefix_is_substring_at_0. reflexivity.
  - cbn [Js.includes]. rewrite IH, prefix_is_substring_at_0.
    change (String.length (String c s)) with (S (String.length s)).
    change (seq 0 (S (S (String.length s))))
      with (0%nat :: seq 1 (S (String.length s))).
    cbn [existsb]. f_equal.
    rewrite existsb_seq_shift. apply existsb_pointwise.
    intros position. reflexivity.
Qed.

Lemma hits_pointwise (kws : list string) (f g : string -> bool) :
  (forall kw, f kw = g kw) -> hits kws f = hits kws g.
Proof.
  intros H. unfold hits. f_equal. apply List.filter_ext. exact H.
Qed.

Lemma tag_hit_is_substring (tgs : list string) (kw : string) :
  tag_hit tgs kw
  = existsb (fun tag => is_substring kw (Js.toLowerCase tag)) tgs.
Proof.
  unfold tag_hit. apply existsb_pointwise.
  intros tag. apply includes_is_substring.
Qed.

(** The matches the code finds are the matches of [factors_of]. *)
Lemma factors_of_code
  (path : LearningPath) (intent : QueryIntent) (query : string) :
  factors_of path intent query
  = {| query_in_title :=
         Js.includes (Js.toLowerCase (title path)) (Js.toLowerCase query);
       title_keyword_hits :=
         hits (keywords intent) (Js.includes (Js.toLowerCase (title path)));
       query_in_description :=
         Js.includes (Js.toLowerCase (description path))
           (Js.toLowerCase query);
       description_keyword_hits :=
         hits (keywords intent)
           (Js.includes (Js.toLowerCase (description path)));
       topic_match := String.eqb (topic path) (intent_topic intent);
       difficulty_match :=
         String.eqb (difficulty_level path) (intent_difficulty intent);
       duration_difference :=
         Qabs (estimated_duration path - estimatedDuration intent);
       completion_factor := completion_rate path;
       node_count := total_nodes path;
       tag_keyword_hits :=
         match tags path with
         | Some tgs => hits (keywords intent) (tag_hit tgs)
         | None => 0%nat
         end |}.
Proof.
  unfold factors_of.
  rewrite <- !includes_is_substring.
  rewrite (hits_pointwise (keywords intent)
             (fun kw => is_substring kw (Js.toLowerCase (title path)))
             (Js.includes (Js.toLowerCase (title path))))
    by (intros kw; symmetry; apply includes_is_substring).
  rewrite (hits_pointwise (keywords intent)
             (fun kw => is_substring kw (Js.toLowerCase (description path)))
             (Js.includes (Js.toLowerCase (description path))))
    by (intros kw; symmetry; apply includes_is_substring).
  destruct (tags path) as [tgs |]; [| reflexivity].
  rewrite (hits_pointwise (keywords intent)
             (fun kw =>
                existsb (fun tag => is_substring kw (Js.toLowerCase tag)) tgs)
             (tag_hit tgs))
    by (intros kw; symmetry; apply tag_hit_is_substring).
  reflexivity.
Qed.

(** Whatever the arithmetic, the score is the terms of the weighted sum
    added to 0 from left to right. *)
Lemma score_is_sum_of_terms {N : Type} (A : Arithmetic N)
  (path : LearningPath) (intent : QueryIntent) (query : string) :
  calculateRelevanceScore_over A path intent query
  = fold_left (js_add A)
      (score_terms A (factors_of path intent query) path intent)
      (js_number A (inject_Z 0)).
Proof.
  rewrite factors_of_code.
  unfold calculateRelevanceScore_over, score_terms.
  cbn [query_in_title title_keyword_hits query_in_description
       description_keyword_hits topic_match difficulty_match
       tag_keyword_hits].
  rewrite !fold_left_app, !forEach_add_repeat.
  destruct (Js.includes (Js.toLowerCase (title path)) (Js.toLowerCase query)),
    (Js.includes (Js.toLowerCase (description path)) (Js.toLowerCase query)),
    (String.eqb (topic path) (intent_topic intent)),
    (String.eqb (difficulty_level path) (intent_difficulty intent)),
    (tags path) as [tgs |];
    cbn [fold_left repeat]; rewrite ?forEach_add_repeat; reflexivity.
Qed.

(** Over exact numbers the accumulated score is the weighted sum of its
    factors. *)
Lemma score_decomposition
  (path : LearningPath) (intent : QueryIntent) (query : string) :
  calculateRelevanceScore path intent query
  == spec_weighted_sum (factors_of path intent query).
Proof.
  rewrite factors_of_code.
  unfold calculateRelevanceScore, calculateRelevanceScore_over,
    spec_weighted_sum.
  cbn [query_in_title title_keyword_hits query_in_description
       description_keyword_hits topic_match difficulty_match
       duration_difference completion_factor node_count tag_keyword_hits
       exact js_number js_add js_sub js_mul js_div js_abs js_max js_min].
  set (lq := Js.toLowerCase query).
  set (lt := Js.toLowerCase (title path)).
  set (ld := Js.toLowerCase (description path)).
  assert (Htags :
    forall s, match tags path with
              | Some tgs =>
                  forEach_add exact (keywords intent) (tag_hit tgs)
                    (inject_Z 1) s
              | None => s
              end
              == s + per_hit 1 match tags path with
                               | Some tgs => hits (keywords intent) (tag_hit tgs)
                               | None => 0%nat
                               end).
  { intros s. destruct (tags path).
    - apply forEach_add_hits.
    - rewrite per_hit_zero. ring. }
  rewrite Htags.
  destruct (Js.includes lt lq), (Js.includes ld lq),
    (String.eqb (topic path) (intent_topic intent)),
    (String.eqb (difficulty_level path) (intent_difficulty intent));
    cbn [bonus]; rewrite !forEach_add_hits;
    change (inject_Z 0) with 0; change (inject_Z 1) with 1;
    change (inject_Z 2) with 2; change (inject_Z 3) with 3;
    change (inject_Z 5) with 5; change (inject_Z 8) with 8;
    change (inject_Z 10) with 10; ring.
Qed.

Lemma bonus_mono (b c : bool) (w : Q) :
  0 <= w -> (b = true -> c = true) -> bonus b w <= bonus c w.
Proof.
  intros Hw Himp. destruct b; simpl.
  - rewrite Himp by reflexivity. simpl. apply Qle_refl.
  - destruct c; simpl; [assumption | apply Qle_refl].
Qed.

Lemma per_hit_mono (w : Q) (m n : nat) :
  0 <= w -> (m <= n)%nat -> per_hit w m <= per_hit w n.
Proof.
  intros Hw Hmn. unfold per_hit.
  rewrite (Qmult_comm w), (Qmult_comm w).
  apply Qmult_le_compat_r; [| assumption].
  rewrite <- Zle_Qle. lia.
Qed.

Lemma duration_bonus_antitone (d e : Q) :
  e <= d -> Qmax 0 (5 - d / 10) <= Qmax 0 (5 - e / 10).
Proof.
  intros Hed. apply Q.max_le_compat_l.
  unfold Qminus. apply Qplus_le_r. apply Qopp_le_compat.
  unfold Qdiv. apply Qmult_le_compat_r; [assumption |].
  unfold Qle; simpl; lia.
Qed.

Lemma node_bonus_mono (m n : Q) :
  m <= n -> Qmin (m / 10) 3 <= Qmin (n / 10) 3.
Proof.
  intros Hmn. apply Q.min_le_compat_r.
  unfold Qdiv. apply Qmult_le_compat_r; [assumption |].
  unfold Qle; simpl; lia.
Qed.

Lemma spec_weighted_sum_mono (f g : Factors) :
  factors_le f g -> spec_weighted_sum f <= spec_weighted_sum g.
Proof.
  intros (Hqt & Htk & Hqd & Hdk & Htm & Hdm & Hdur & Hcr & Hnc & Htg).
  unfold spec_weighted_sum.
  repeat apply Qplus_le_compat.
  - apply bonus_mono; [unfold Qle; simpl; lia | assumption].
  - apply per_hit_mono; [unfold Qle; simpl; lia | assumption].
  - apply bonus_mono; [unfold Qle; simpl; lia | assumption].
  - apply per_hit_mono; [unfold Qle; simpl; lia | assumption].
  - apply bonus_mono; [unfold Qle; simpl; lia | assumption].
  - apply bonus_mono; [unfold Qle; simpl; lia | assumption].
  - apply duration_bonus_antitone; assumption.
  - rewrite (Qmult_comm 2), (Qmult_comm 2).
    apply Qmult_le_compat_r; [assumption | unfold Qle; simpl; lia].
  - apply node_bonus_mono; assumption.
  - apply per_hit_mono; [unfold Qle; simpl; lia | assumption].
Qed.

(** C5, as amended.  For every catalog entry, intent and raw query, the
    relevance score is obtained by adding to 0, from left to right: 10
    when the lower-cased query is a substring of the lower-cased title, 5
    for each intent keyword that is a substring of the lower-cased title,
    5 when the lower-cased query is a substring of the lower-cased
    description, 2 for each keyword that is a substring of the lower-cased
    description, 8 for an equal topic, 3 for an equal difficulty,
    max(0, 5 - |duration difference| / 10), the completion rate times 2,
    min(node count / 10, 3), and 1 for each keyword that is a substring of
    some lower-cased tag.  This holds whatever the arithmetic, so also for
    the doubles of JavaScript, where every addition rounds; over exact
    numbers the result is the weighted sum of section 4.3.  The score is
    a function of its three inputs, so equal inputs give equal scores. *)
Theorem relevance_score_is_weighted_sum
  (path : LearningPath) (intent : QueryIntent) (query : string) :
  (forall (N : Type) (A : Arithmetic N),
      calculateRelevanceScore_over A path intent query
      = fold_left (js_add A)
          (score_terms A (factors_of path intent query) path intent)
          (js_number A (inject_Z 0)))
  /\ calculateRelevanceScore path intent query
     == spec_weighted_sum (factors_of path intent query).
Proof.
  split.
  - intros N A. apply score_is_sum_of_terms.
  - apply score_decomposition.
Qed.

(** C5, counterexample.  The entry titled "Chess Openings" is scored for
    the raw query "chess".  Read to the letter, the raw query is no
    substring of the title and the keyword "chess" is not found in it, so
    the weighted sum of the claim is 18.2; the code lower-cases the title
    first and returns 33.2. *)
Lemma raw_query_is_matched_ignoring_case :
  is_substring "chess" (title Samples.chess_openings) = false
  /\ is_substring "chess" (Js.toLowerCase (title Samples.chess_openings))
     = true
  /\ spec_weighted_sum
       (literal_factors_of Samples.chess_openings
          (parseQueryIntent "chess") "chess")
     == 182 # 10
  /\ calculateRelevanceScore Samples.chess_openings
       (parseQueryIntent "chess") "chess"
     == 332 # 10
  /\ ~ calculateRelevanceScore Samples.chess_openings
         (parseQueryIntent "chess") "chess"
       == spec_weighted_sum
            (literal_factors_of Samples.chess_openings
               (parseQueryIntent "chess") "chess").
Proof.
  split; [vm_compute; reflexivity |].
  split; [vm_compute; reflexivity |].
  split; [vm_compute; reflexivity |].
  split; [vm_compute; reflexivity |].
  vm_compute. intros H. discriminate H.
Qed.

(** Over doubles the additions round.  For the entry [chess_basics] the
    exact sum is 30.2, and the doubles add up to the next double above
    the one nearest to 30.2. *)
Example double_score_exceeds_exact_sum :
  calculateRelevanceScore Samples.chess_basics
    (parseQueryIntent "chess") "chess"
  == 302 # 10
  /\ PrimFloat.ltb
       (double_of_Q (302 # 10))
       (calculateRelevanceScore_over double Samples.chess_basics
          (parseQueryIntent "chess") "chess")
     = true
  /\ PrimFloat.Leibniz.eqb
       (PrimFloat.next_up (double_of_Q (302 # 10)))
       (calculateRelevanceScore_over double Samples.chess_basics
          (parseQueryIntent "chess") "chess")
     = true.
Proof.
  split; [vm_compute; reflexivity |].
  split; vm_compute; reflexivity.
Qed.

(** C6.  The relevance score is monotone in its factors: when the
    factors of a second input are at least as favourable as those of a
    first one (in particular when a single factor is increased and all
    others are the same), the score of the second input is at least the
    score of the first. *)
Theorem relevance_score_monotone
  (path1 path2 : LearningPath) (intent1 intent2 : QueryIntent)
  (query1 query2 : string) :
  factors_le (factors_of path1 intent1 query1)
             (factors_of path2 intent2 query2) ->
  calculateRelevanceScore path1 intent1 query1
  <= calculateRelevanceScore path2 intent2 query2.
Proof.
  intros Hle. rewrite !score_decomposition.
  apply spec_weighted_sum_mono. exact Hle.
Qed.

(** The score of a concrete entry: 10 + 5 for the query and the keyword
    in the title, 5 + 2 in the description, 3 for the difficulty, 5 for
    the equal duration, 1 for the completion rate, 1.2 for twelve nodes
    and 1 for the tag. *)
Example score_chess_openings :
  calculateRelevanceScore Samples.chess_openings (parseQueryIntent "chess")
    "chess" == 332 # 10.
Proof. vm_compute. reflexivity. Qed.

Lemma relevance_score_monotone_witness :
  let intent := parseQueryIntent "chess" in
  factors_le (factors_of Samples.chess_openings intent "chess")
             (factors_of Samples.chess_openings_popular intent "chess")
  /\ calculateRelevanceScore Samples.chess_openings intent "chess"
     <= calculateRelevanceScore Samples.chess_openings_popular intent "chess".
Proof.
  assert (H : factors_le
                (factors_of Samples.chess_openings
                   (parseQueryIntent "chess") "chess")
                (factors_of Samples.chess_openings_popular
                   (parseQueryIntent "chess") "chess")).
  { unfold factors_le. vm_compute.
    repeat split; try (intros; reflexivity); try discriminate;
      repeat constructor. }
  split; [exact H |].
  exact (relevance_score_monotone _ _ _ _ _ _ H).
Defined.

End RankingFacts.

(* ===================================================================== *)
(** ** Properties of the search orchestrator *)
(* ===================================================================== *)

Module SearchFacts.
Import AiSearch.

Lemma parse_difficulty_nonempty (q : string) :
  intent_difficulty (parseQueryIntent q) <> "".
Proof.
  destruct (ParserFacts.parse_difficulty_cases q) as [-> | [-> | ->]];
    discriminate.
Qed.

Lemma parse_difficulty_default (q : string) :
  no_difficulty_keyword q = true ->
  intent_difficulty (parseQueryIntent q) = "beginner".
Proof.
  unfold no_difficulty_keyword, parseQueryIntent.
  destruct (detect_topic _ topicMappings) as [t c].
  set (has := Js.includes (Js.toLowerCase q)).
  destruct (has "advanced"), (has "expert"), (has "intermediate"),
    (has "medium"), (has "beginner"), (has "basic"), (has "intro");
    simpl; intros H; try discriminate H; reflexivity.
Qed.

Lemma truthy_nonempty (s : string) : s <> "" -> Js.truthy s = true.
Proof.
  intros Hs. unfold Js.truthy.
  destruct (String.eqb_spec s ""); [contradiction | reflexivity].
Qed.

(** A truthy difficulty puts its equality step into the built read. *)
Lemma build_query_difficulty
  (intent : QueryIntent) (filters : option SearchFilters) :
  intent_difficulty intent <> "" ->
  In (eq_difficulty_level (intent_difficulty intent))
     (build_query intent filters).
Proof.
  intros Hd. unfold build_query.
  rewrite (truthy_nonempty _ Hd).
  apply in_or_app. right. apply in_or_app. right.
  apply in_or_app. left. left. reflexivity.
Qed.

(** An empty difficulty leaves the built read without any difficulty
    step. *)
Lemma build_query_no_difficulty
  (intent : QueryIntent) (filters : option SearchFilters) (d : string) :
  intent_difficulty intent = "" ->
  ~ In (eq_difficulty_level d) (build_query intent filters).
Proof.
  intros Hd. unfold build_query. rewrite Hd. simpl.
  destruct (Js.truthy (intent_topic intent));
    destruct filters as [f |];
    try destruct (filter_duration f) as [[lo hi] |];
    destruct (0 <? List.length (keywords intent))%nat;
    simpl; intuition discriminate.
Qed.

(** On a cache miss the main read is always issued. *)
Lemma search_body_issues_read
  (env : SearchEnv) (query : string) (filters : option SearchFilters) :
  In (paths_read (build_query (search_intent env query) filters))
     (search_body env query filters).2.
Proof.
  unfold search_body.
  destruct (main_read env _) as [r | e]; [destruct (error r) |]; simpl;
    try (apply in_or_app; right; left; reflexivity).
  destruct (rank_rows _ _ _); simpl;
    apply in_or_app; right; left; reflexivity.
Qed.

(** The intent the search works with is the parsed one, or an enhanced
    one. *)
Lemma search_intent_cases (env : SearchEnv) (query : string) :
  search_intent env query = parseQueryIntent query
  \/ exists enhanced,
       search_intent env query
       = enhance_intent (parseQueryIntent query) enhanced.
Proof.
  unfold search_intent.
  destruct (openai_configured env); [| left; reflexivity].
  destruct (OpenAI.enhanceSearchQuery _ _ _) as [enhanced |];
    [right; exists enhanced; reflexivity | left; reflexivity].
Qed.

(** The confidence of the intent the search works with is positive. *)
Lemma search_intent_confidence_pos (env : SearchEnv) (query : string) :
  (0 < confidence (search_intent env query))%Q.
Proof.
  destruct (search_intent_cases env query) as [-> | [enhanced ->]].
  - apply ParserFacts.parse_confidence_pos.
  - simpl. apply Qlt_le_trans with (4 # 5)%Q;
      [reflexivity | apply Q.le_max_r].
Qed.



Section WithStringify.
Variable JSON_stringify : option SearchFilters -> string.

Lemma search_miss_log
  (env : SearchEnv) (cache : gmap string AISearchResult)
  (query : string) (filters : option SearchFilters) :
  cache !! cacheKey JSON_stringify query filters = None ->
  (intelligentSearch JSON_stringify env cache query filters).2
  = (search_body env query filters).2.
Proof.
  intros Hmiss. unfold intelligentSearch. rewrite Hmiss.
  destruct (search_body env query filters) as [[e | r] log]; reflexivity.
Qed.


(** C10, as amended.  The heuristic parser never returns an empty
    difficulty.  For a query whose result is not in the cache, the remote
    read is built from the intent the search works with: it carries an
    equality step on that intent's difficulty when the difficulty is not
    empty, and no difficulty step otherwise.  When the completion service
    is not configured, that difficulty is the parsed one, so the step is
    always there, and for a query without any difficulty keyword it asks
    for "beginner".  When the completion service is configured and the
    enhanced intent can be built from its answer, that difficulty is the
    one [enhanceSearchQuery] returns; when building it raises, the parsed
    intent stays and the step asks for the parsed difficulty. *)
Theorem difficulty_filter_follows_search_intent
  (env : SearchEnv) (cache : gmap string AISearchResult)
  (query : string) (filters : option SearchFilters) :
  cache !! cacheKey JSON_stringify query filters = None ->
  let parsed := intent_difficulty (parseQueryIntent query) in
  let used := intent_difficulty (search_intent env query) in
  let q := build_query (search_intent env query) filters in
  parsed <> ""
  /\ In (paths_read q)
        (intelligentSearch JSON_stringify env cache query filters).2
  /\ (used <> "" -> In (eq_difficulty_level used) q)
  /\ (used = "" -> forall d, ~ In (eq_difficulty_level d) q)
  /\ (openai_configured env = false ->
      used = parsed
      /\ In (eq_difficulty_level parsed) q
      /\ (no_difficulty_keyword query = true -> parsed = "beginner"))
  /\ (openai_configured env = true ->
      match OpenAI.enhanceSearchQuery true (completion env) query with
      | OpenAI.shaped enhanced => used = OpenAI.difficulty enhanced
      | OpenAI.misshapen =>
          used = parsed /\ In (eq_difficulty_level parsed) q
      end).
Proof.
  intros Hmiss. cbv zeta.
  split; [apply parse_difficulty_nonempty |].
  split.
  { rewrite (search_miss_log env cache query filters Hmiss).
    apply search_body_issues_read. }
  split; [apply build_query_difficulty |].
  split.
  { intros Hempty d. apply build_query_no_difficulty, Hempty. }
  split.
  - intros Hoff. unfold search_intent. rewrite Hoff.
    split; [reflexivity |].
    split; [apply build_query_difficulty, parse_difficulty_nonempty |].
    apply parse_difficulty_default.
  - intros Hon. unfold search_intent. rewrite Hon.
    destruct (OpenAI.enhanceSearchQuery true (completion env) query)
      as [enhanced |]; [reflexivity |].
    split; [reflexivity |].
    apply build_query_difficulty, parse_difficulty_nonempty.
Qed.

End WithStringify.



(** C10, counterexample.  With the completion service configured, the
    query "chess", which has no difficulty keyword, is read with the
    difficulty the service answers: with the answer "advanced" the read
    asks for advanced paths, and with an empty answer it carries no
    difficulty step at all. *)
Lemma enhanced_difficulty_overrides_default :
  no_difficulty_keyword "chess" = true
  /\ (intelligentSearch Samples.stringify_undefined
        (Samples.env_with_completion (Samples.says_difficulty "advanced"))
        ∅ "chess" None).2
     = [ completion_request "chess";
         paths_read
           [ eq_is_public true; eq_difficulty_level "advanced";
             textSearch_title_description "chess";
             order_desc "completion_rate"; order_desc "total_nodes";
             order_desc "created_at"; limit 20 ];
         popular_topics_read ]
  /\ (intelligentSearch Samples.stringify_undefined
        (Samples.env_with_completion (Samples.says_difficulty ""))
        ∅ "chess" None).2
     = [ completion_request "chess";
         paths_read
           [ eq_is_public true;
             textSearch_title_description "chess";
             order_desc "completion_rate"; order_desc "total_nodes";
             order_desc "created_at"; limit 20 ];
         popular_topics_read ].
Proof. vm_compute. repeat split; reflexivity. Qed.

(** Without the completion service the query "chess" is read with
    "beginner"; so it is when the service is configured and its answer
    is misshapen. *)
Lemma difficulty_filter_follows_search_intent_witness :
  In (eq_difficulty_level "beginner")
     (build_query (search_intent Samples.env_plain "chess") None)
  /\ In (paths_read (build_query (search_intent Samples.env_plain "chess") None))
        (intelligentSearch Samples.stringify_undefined Samples.env_plain
           ∅ "chess" None).2
  /\ In (eq_difficulty_level "beginner")
        (build_query
           (search_intent
              (Samples.env_with_completion OpenAI.completion_misshapen)
              "chess") None).
Proof.
  destruct (difficulty_filter_follows_search_intent
              Samples.stringify_undefined Samples.env_plain ∅ "chess" None
              (lookup_empty _))
    as (_ & Hread & _ & _ & Hoff & _).
  destruct (Hoff eq_refl) as (_ & Hstep & Hdefault).
  rewrite (Hdefault eq_refl) in Hstep.
  split; [exact Hstep |]. split; [exact Hread |].
  destruct (difficulty_filter_follows_search_intent
              Samples.stringify_undefined
              (Samples.env_with_completion OpenAI.completion_misshapen)
              ∅ "chess" None (lookup_empty _))
    as (_ & _ & _ & _ & _ & Hon).
  destruct (Hon eq_refl) as (_ & Hkept).
  exact Hkept.
Defined.

End SearchFacts.

(* ===================================================================== *)
(** ** Properties of the TTL query cache *)
(* ===================================================================== *)

Module CacheFacts.
Import Database.
Local Open Scope Z_scope.

Lemma fresh_within (entry : CacheEntry) (now : Z) :
  now - timestamp entry < CACHE_DURATION ->
  fresh (Some entry) now = Some entry.
Proof.
  intros H. unfold fresh.
  destruct (Z.ltb_spec (now - timestamp entry) CACHE_DURATION);
    [reflexivity | lia].
Qed.

Lemma fresh_expired (entry : CacheEntry) (now : Z) :
  CACHE_DURATION <= now - timestamp entry ->
  fresh (Some entry) now = None.
Proof.
  intros H. unfold fresh.
  destruct (Z.ltb_spec (now - timestamp entry) CACHE_DURATION);
    [lia | reflexivity].
Qed.

Lemma fetchPathWithNodes_refetches
  (env : ReadEnv PathAndNodes) (cache : gmap string CacheEntry)
  (pathId : string) :
  fresh (cache !! ("path-nodes-" +:+ pathId)) (now env) = None ->
  (fetchPathWithNodes env cache pathId).2 = [select_path_with_nodes pathId].
Proof.
  intros H. unfold fetchPathWithNodes. rewrite H.
  destruct (remote env) as [r | e]; [| reflexivity].
  destruct (error r), (data r); reflexivity.
Qed.

Lemma getUserProgress_refetches
  (env : ReadEnv (list UserProgress)) (cache : gmap string CacheEntry)
  (userId pathId : string) :
  fresh (cache !! ("progress-" +:+ userId +:+ "-" +:+ pathId)) (now env)
  = None ->
  (getUserProgress env cache userId pathId).2
  = [select_user_progress userId pathId].
Proof.
  intros H. unfold getUserProgress. rewrite H.
  destruct (remote env) as [r | e]; [| reflexivity].
  destruct (error r); reflexivity.
Qed.

(** C2, as amended.  The TTL is five minutes (300000 ms).  For each of
    the two cached reads on its own, whatever else the cache holds: a
    read of an entry whose age is strictly below the TTL is a hit (the
    cached payload is served, the cache is left as it is and no request
    goes to the store), and a read of an entry whose age is equal to the
    TTL or above it is a miss (the store is asked again). *)
Theorem cache_hit_strictly_below_ttl :
  CACHE_DURATION = 300000
  /\ (forall (env : ReadEnv PathAndNodes) (cache : gmap string CacheEntry)
             (pathId : string) (entry : CacheEntry),
        cache !! ("path-nodes-" +:+ pathId) = Some entry ->
        (now env - timestamp entry < CACHE_DURATION ->
         fetchPathWithNodes env cache pathId
         = (Some (entry_data entry), cache, []))
        /\ (CACHE_DURATION <= now env - timestamp entry ->
            (fetchPathWithNodes env cache pathId).2
            = [select_path_with_nodes pathId]))
  /\ (forall (env : ReadEnv (list UserProgress))
             (cache : gmap string CacheEntry) (userId pathId : string)
             (entry : CacheEntry),
        cache !! ("progress-" +:+ userId +:+ "-" +:+ pathId) = Some entry ->
        (now env - timestamp entry < CACHE_DURATION ->
         getUserProgress env cache userId pathId
         = (entry_data entry, cache, []))
        /\ (CACHE_DURATION <= now env - timestamp entry ->
            (getUserProgress env cache userId pathId).2
            = [select_user_progress userId pathId])).
Proof.
  split; [reflexivity |]. split.
  - intros env cache pathId entry Hentry. split; intros Hage.
    + unfold fetchPathWithNodes.
      rewrite Hentry, (fresh_within _ _ Hage). reflexivity.
    + apply fetchPathWithNodes_refetches.
      rewrite Hentry. apply fresh_expired, Hage.
  - intros env cache userId pathId entry Hentry. split; intros Hage.
    + unfold getUserProgress.
      rewrite Hentry, (fresh_within _ _ Hage). reflexivity.
    + apply getUserProgress_refetches.
      rewrite Hentry. apply fresh_expired, Hage.
Qed.

(** C2, counterexample.  Both entries were written at time 1000 and are
    read at time 301000, at an age of exactly the TTL.  Neither read
    serves the cached payload: each asks the store and returns what the
    store answers. *)
Lemma read_at_exactly_ttl_is_a_miss :
  301000 - timestamp Samples.cached_chess = CACHE_DURATION
  /\ (fetchPathWithNodes (Samples.path_read_at 301000)
        Samples.cache_at_1000 "p1").2
     = [select_path_with_nodes "p1"]
  /\ (fetchPathWithNodes (Samples.path_read_at 301000)
        Samples.cache_at_1000 "p1").1.1
     <> Some (entry_data Samples.cached_chess)
  /\ (getUserProgress (Samples.progress_read_at 301000)
        Samples.cache_at_1000 "user-v" "p1").2
     = [select_user_progress "user-v" "p1"]
  /\ (getUserProgress (Samples.progress_read_at 301000)
        Samples.cache_at_1000 "user-v" "p1").1.1
     = progress_data [Samples.progress_row].
Proof.
  vm_compute. repeat split; try reflexivity. intros H. discriminate H.
Qed.

(** A cache that holds the view of "p1" and no progress view is read
    one millisecond before and exactly at the TTL; so is a cache that
    holds a progress view only. *)
Lemma cache_hit_strictly_below_ttl_witness :
  fetchPathWithNodes (Samples.path_read_at 300999)
    {[ "path-nodes-p1" := Samples.cached_chess ]} "p1"
  = (Some (entry_data Samples.cached_chess),
     {[ "path-nodes-p1" := Samples.cached_chess ]}, [])
  /\ (fetchPathWithNodes (Samples.path_read_at 301000)
        {[ "path-nodes-p1" := Samples.cached_chess ]} "p1").2
     = [select_path_with_nodes "p1"]
  /\ getUserProgress (Samples.progress_read_at 300999)
       {[ "progress-user-v-p1" := Samples.cached_progress ]} "user-v" "p1"
     = (entry_data Samples.cached_progress,
        {[ "progress-user-v-p1" := Samples.cached_progress ]}, [])
  /\ (getUserProgress (Samples.progress_read_at 301000)
        {[ "progress-user-v-p1" := Samples.cached_progress ]} "user-v" "p1").2
     = [select_user_progress "user-v" "p1"].
Proof.
  destruct cache_hit_strictly_below_ttl as (_ & Hpath & Hprogress).
  split; [| split; [| split]].
  - apply (Hpath (Samples.path_read_at 300999) _ "p1" Samples.cached_chess).
    + apply lookup_singleton_eq.
    + vm_compute. reflexivity.
  - apply (Hpath (Samples.path_read_at 301000) _ "p1" Samples.cached_chess).
    + apply lookup_singleton_eq.
    + vm_compute. intros H. discriminate H.
  - apply (Hprogress (Samples.progress_read_at 300999) _ "user-v" "p1"
             Samples.cached_progress).
    + apply lookup_singleton_eq.
    + vm_compute. reflexivity.
  - apply (Hprogress (Samples.progress_read_at 301000) _ "user-v" "p1"
             Samples.cached_progress).
    + apply lookup_singleton_eq.
    + vm_compute. intros H. discriminate H.
Defined.

End CacheFacts.

(* ===================================================================== *)
(** ** Properties of the delete protocol *)
(* ===================================================================== *)

Module DeleteFacts.
Import Database.

Lemma length_append (a b : string) :
  String.length (a +:+ b) = (String.length a + String.length b)%nat.
Proof. induction a as [| c a IH]; simpl; [reflexivity | now rewrite IH]. Qed.

Lemma context_changes_message (m : string) : delete_context +:+ m <> m.
Proof.
  intros H. apply (f_equal String.length) in H.
  rewrite length_append in H. simpl in H. lia.
Qed.

Lemma select_finds
  (faults : StoreFaults) (session : option string)
  (table : gmap string LearningPath) (pathId : string) (P : LearningPath) :
  select_fault faults = None ->
  table !! pathId = Some P ->
  select_policy session P = true ->
  store_select faults session table pathId
  = {| data := Some (head_of P); error := None |}.
Proof.
  intros Hf HP Hsee. unfold store_select. rewrite Hf, HP, Hsee. reflexivity.
Qed.

(** No delete removes a row: no policy lets one through. *)
Lemma store_delete_keeps_table
  (faults : StoreFaults) (session : option string)
  (table : gmap string LearningPath) (pathId : string) :
  (store_delete faults session table pathId).1 = table.
Proof.
  unfold store_delete.
  destruct (delete_fault faults); [reflexivity |]. simpl.
  destruct (table !! pathId); reflexivity.
Qed.

(** Whatever [deletePath] comes to, the table is as it was. *)
Lemma deletePath_keeps_table
  (faults : StoreFaults) (session : option string)
  (table : gmap string LearningPath)
  (cache : gmap string CacheEntry) (pathId userId : string) :
  table_after (deletePath faults session table cache pathId userId) = table.
Proof.
  unfold deletePath, deletePath_try.
  pose proof (store_delete_keeps_table faults session table pathId) as Hkeep.
  destruct (error (store_select faults session table pathId));
    [reflexivity |].
  destruct (data (store_select faults session table pathId)) as [head |];
    [| reflexivity].
  destruct (negb (String.eqb (head_created_by head) userId));
    [reflexivity |].
  destruct (store_delete faults session table pathId) as [table' [e |]];
    simpl in *; exact Hkeep.
Qed.

(** The not-found outcome: the lookup succeeds and finds no row. *)
Lemma delete_missing_path_not_found
  (faults : StoreFaults) (session : option string)
  (table : gmap string LearningPath)
  (cache : gmap string CacheEntry) (pathId userId : string) :
  select_fault faults = None ->
  table !! pathId = None ->
  outcome (deletePath faults session table cache pathId userId)
  = inl (ErrorInstance (delete_context +:+ not_found_message)).
Proof.
  intros Hf HP. unfold deletePath, deletePath_try, store_select.
  rewrite Hf, HP. reflexivity.
Qed.

(** C3, as amended.  When the store holds path [P] under [pathId] and
    the requester is not its stored owner, [deletePath] fails; no delete
    is issued to the store, and the store still holds [P], unchanged.
    When the lookup of step 1 goes through and the read policy of the
    store lets the session see [P], the failure is the not-authorized
    outcome, which differs from the not-found outcome; when the policy
    hides [P], the lookup returns nothing and the failure is the
    not-found outcome.  In the requester's own session the policy lets
    through exactly the public paths of other users. *)
Theorem delete_by_non_owner_is_refused
  (faults : StoreFaults) (session : option string)
  (table : gmap string LearningPath)
  (cache : gmap string CacheEntry) (pathId userId : string)
  (P : LearningPath) :
  table !! pathId = Some P ->
  created_by P <> userId ->
  let r := deletePath faults session table cache pathId userId in
  let not_authorized :=
    ErrorInstance (delete_context +:+ not_owner_message) in
  let not_found :=
    ErrorInstance (delete_context +:+ not_found_message) in
  (exists e, outcome r = inl e)
  /\ (select_fault faults = None -> select_policy session P = true ->
      outcome r = inl not_authorized)
  /\ (select_fault faults = None -> select_policy session P = false ->
      outcome r = inl not_found)
  /\ select_policy (Some userId) P = is_public P
  /\ not_authorized <> not_found
  /\ issued r = [select_path_head pathId]
  /\ (forall anyId, ~ In (delete_path anyId) (issued r))
  /\ table_after r = table
  /\ table_after r !! pathId = Some P.
Proof.
  intros HP Hne. cbv zeta.
  assert (Hlog : forall anyId,
             ~ In (delete_path anyId) [select_path_head pathId]).
  { intros anyId [H | []]. discriminate H. }
  assert (Hown : select_policy (Some userId) P = is_public P).
  { unfold select_policy.
    destruct (String.eqb_spec (created_by P) userId) as [Heq | _];
      [contradiction | apply orb_false_r]. }
  assert (Hdiff : ErrorInstance (delete_context +:+ not_owner_message)
                  <> ErrorInstance (delete_context +:+ not_found_message)).
  { intros H. discriminate H. }
  unfold deletePath, deletePath_try, store_select.
  destruct (select_fault faults) as [fetchError |]; simpl.
  - split; [eexists; reflexivity |].
    split; [intros H; discriminate H |].
    split; [intros H; discriminate H |].
    split; [exact Hown |]. split; [exact Hdiff |].
    split; [reflexivity |]. split; [exact Hlog |].
    split; [reflexivity | exact HP].
  - rewrite HP. destruct (select_policy session P); simpl.
    + destruct (String.eqb_spec (created_by P) userId) as [Heq | _];
        [contradiction |].
      simpl.
      split; [eexists; reflexivity |].
      split; [intros _ _; reflexivity |].
      split; [intros _ H; discriminate H |].
      split; [first [exact Hown | apply orb_false_r] |].
      split; [exact Hdiff |].
      split; [reflexivity |]. split; [exact Hlog |].
      split; [reflexivity | exact HP].
    + split; [eexists; reflexivity |].
      split; [intros _ H; discriminate H |].
      split; [intros _ _; reflexivity |].
      split; [first [exact Hown | apply orb_false_r] |].
      split; [exact Hdiff |].
      split; [reflexivity |]. split; [exact Hlog |].
      split; [reflexivity | exact HP].
Qed.

(** C4, as amended.  When the path is found, the requester owns it and
    the store's delete fails with error [e], the caller sees a new error
    whose message is "Failed to delete learning path: " followed by the
    message of [e] when [e] is an [Error] instance, and by "Unknown
    deletion error" otherwise; it is never [e] itself. *)
Theorem delete_failure_is_reported_with_context
  (faults : StoreFaults) (session : option string)
  (table : gmap string LearningPath)
  (cache : gmap string CacheEntry) (pathId userId : string)
  (P : LearningPath) (e : Thrown) :
  select_fault faults = None ->
  table !! pathId = Some P ->
  select_policy session P = true ->
  created_by P = userId ->
  delete_fault faults = Some e ->
  let r := deletePath faults session table cache pathId userId in
  outcome r
  = inl (ErrorInstance
           (delete_context +:+ message_or "Unknown deletion error" e))
  /\ outcome r <> inl e
  /\ issued r = [select_path_head pathId; delete_path pathId].
Proof.
  intros Hf HP Hsee Hown Hdel. cbv zeta.
  unfold deletePath, deletePath_try, store_delete.
  rewrite (select_finds faults session table pathId P Hf HP Hsee). simpl.
  rewrite Hown, String.eqb_refl, Hdel. simpl.
  repeat split.
  intros H. injection H as H. destruct e as [m | m]; simpl in H.
  - injection H as H. exact (context_changes_message m H).
  - discriminate H.
Qed.

(** "user-v", signed in, asks to delete the public path "p1" of
    "user-u". *)
Lemma delete_by_non_owner_is_refused_witness :
  let r := deletePath Samples.no_faults (Some "user-v") Samples.both_paths
             ∅ "p1" "user-v" in
  outcome r
  = inl (ErrorInstance
           "Failed to delete learning path: You can only delete paths you created")
  /\ issued r = [select_path_head "p1"]
  /\ table_after r !! "p1" = Some Samples.chess_openings.
Proof.
  destruct (delete_by_non_owner_is_refused
              Samples.no_faults (Some "user-v") Samples.both_paths ∅
              "p1" "user-v" Samples.chess_openings
              ltac:(vm_compute; reflexivity)
              ltac:(vm_compute; intros H; discriminate H))
    as (_ & Hout & _ & _ & _ & Hlog & _ & _ & Hrow).
  split; [exact (Hout eq_refl eq_refl) | split; [exact Hlog | exact Hrow]].
Defined.

(** C3, counterexample.  The store holds the private path "p2" of
    "user-u".  "user-v", signed in, asks to delete it: the read policy
    hides the row, the lookup finds nothing, and the outcome is the
    not-found one, not the not-authorized one. *)
Lemma hidden_path_of_another_user_is_not_found :
  Samples.both_paths !! "p2" = Some Samples.chess_notes
  /\ created_by Samples.chess_notes <> "user-v"
  /\ outcome (deletePath Samples.no_faults (Some "user-v")
                Samples.both_paths ∅ "p2" "user-v")
     = inl (ErrorInstance
              "Failed to delete learning path: Learning path not found or already deleted")
  /\ outcome (deletePath Samples.no_faults (Some "user-v")
                Samples.both_paths ∅ "p2" "user-v")
     <> inl (ErrorInstance
               "Failed to delete learning path: You can only delete paths you created").
Proof.
  vm_compute. repeat split; try reflexivity; intros H; discriminate H.
Qed.

(** C4, counterexample.  The owner deletes "p1" and the store's delete
    fails.  When the store's error is an [Error] with message "connection
    reset", the caller sees another error, whose message carries the
    prefix; when it is a plain error object, its message is replaced
    altogether. *)
Lemma store_error_is_not_passed_verbatim :
  outcome (deletePath
             (Samples.delete_fails_with (ErrorInstance "connection reset"))
             (Some "user-u") Samples.paths_table ∅ "p1" "user-u")
  = inl (ErrorInstance "Failed to delete learning path: connection reset")
  /\ outcome (deletePath
                (Samples.delete_fails_with (ErrorInstance "connection reset"))
                (Some "user-u") Samples.paths_table ∅ "p1" "user-u")
     <> inl (ErrorInstance "connection reset")
  /\ outcome (deletePath
                (Samples.delete_fails_with (PlainObject "connection reset"))
                (Some "user-u") Samples.paths_table ∅ "p1" "user-u")
     = inl (ErrorInstance
              "Failed to delete learning path: Unknown deletion error").
Proof.
  vm_compute. repeat split; try reflexivity. intros H. discriminate H.
Qed.

Lemma delete_failure_is_reported_with_context_witness :
  let r := deletePath
             (Samples.delete_fails_with (ErrorInstance "connection reset"))
             (Some "user-u") Samples.paths_table ∅ "p1" "user-u" in
  outcome r
  = inl (ErrorInstance "Failed to delete learning path: connection reset")
  /\ outcome r <> inl (ErrorInstance "connection reset").
Proof.
  destruct (delete_failure_is_reported_with_context
              (Samples.delete_fails_with (ErrorInstance "connection reset"))
              (Some "user-u") Samples.paths_table ∅ "p1" "user-u"
              Samples.chess_openings (ErrorInstance "connection reset")
              eq_refl ltac:(vm_compute; reflexivity) eq_refl eq_refl eq_refl)
    as (Hout & Hne & _).
  split; [exact Hout | exact Hne].
Defined.

End DeleteFacts.

(* ===================================================================== *)
(** ** Properties of the generated paths *)
(* ===================================================================== *)

Module PathFacts.
Import PathGenerator.

Lemma one_to_snoc (n : nat) : one_to (S n) = one_to n ++ [Z.of_nat (S n)].
Proof. unfold one_to. rewrite seq_S, List.map_app. reflexivity. Qed.

Lemma counted_start : counted ([], 1%Z).
Proof. split; reflexivity. Qed.

Lemma push_next_counted (st : list LearningNode * Z) (mk : Z -> LearningNode) :
  (forall i, order_index (mk i) = i) ->
  counted st -> counted (push_next st mk).
Proof.
  intros Hmk [Hnext Hidx]. destruct st as [nodes orderIndex].
  simpl in *. split; simpl.
  - rewrite List.length_app. simpl. lia.
  - rewrite List.map_app, List.length_app, Hidx. simpl.
    rewrite Nat.add_1_r, one_to_snoc, Hmk, Hnext.
    f_equal. f_equal. lia.
Qed.

Lemma push_next_length (st : list LearningNode * Z) (mk : Z -> LearningNode) :
  List.length (push_next st mk).1 = S (List.length st.1).
Proof.
  destruct st as [nodes orderIndex]. simpl.
  rewrite List.length_app. simpl. lia.
Qed.

Lemma resources_counted (rs : list LearningResource)
  (st : list LearningNode * Z) :
  counted st ->
  counted (fold_left (fun st r => push_next st (resource_node r)) rs st).
Proof.
  revert st. induction rs as [| r rs IH]; intros st Hst; simpl.
  - exact Hst.
  - apply IH. apply push_next_counted; [reflexivity | exact Hst].
Qed.

Lemma resources_length (rs : list LearningResource)
  (st : list LearningNode * Z) :
  List.length (fold_left (fun st r => push_next st (resource_node r)) rs st).1
  = (List.length st.1 + List.length rs)%nat.
Proof.
  revert st. induction rs as [| r rs IH]; intros st; simpl.
  - lia.
  - rewrite IH, push_next_length. lia.
Qed.

Lemma module_step_counted (d : Q) (st : list LearningNode * Z)
  (m : TopicModule) :
  counted st -> counted (module_step d st m).
Proof.
  intros Hst. unfold module_step.
  pose proof (resources_counted (resources m) st Hst) as H1.
  destruct (0 <? List.length (exercises m))%nat;
    destruct (0 <? List.length (assessments m))%nat;
    repeat (apply push_next_counted; [reflexivity |]); exact H1.
Qed.

Lemma module_step_length (d : Q) (st : list LearningNode * Z)
  (m : TopicModule) :
  (List.length st.1 + List.length (resources m)
   <= List.length (module_step d st m).1)%nat.
Proof.
  unfold module_step.
  pose proof (resources_length (resources m) st) as H1.
  destruct (0 <? List.length (exercises m))%nat;
    destruct (0 <? List.length (assessments m))%nat;
    rewrite ?push_next_length; lia.
Qed.

Lemma modules_counted (d : Q) (ms : list TopicModule)
  (st : list LearningNode * Z) :
  counted st -> counted (fold_left (module_step d) ms st).
Proof.
  revert st. induction ms as [| m ms IH]; intros st Hst; simpl.
  - exact Hst.
  - apply IH, module_step_counted, Hst.
Qed.

Lemma modules_length (d : Q) (ms : list TopicModule)
  (st : list LearningNode * Z) :
  (List.length st.1 + List.length (flat_map resources ms)
   <= List.length (fold_left (module_step d) ms st).1)%nat.
Proof.
  revert st. induction ms as [| m ms IH]; intros st; simpl.
  - lia.
  - rewrite List.length_app.
    pose proof (IH (module_step d st m)) as H1.
    pose proof (module_step_length d st m) as H2. lia.
Qed.

Lemma structured_nodes (topic : TopicStructure) (key : string)
  (request : GeneratePathRequest) :
  exists d,
    gen_nodes (generateStructuredPath topic key request)
    = (fold_left (module_step d)
         (selectModulesByDifficulty (modules topic)
            (request_difficulty_or_beginner request))
         ([], 1%Z)).1.
Proof.
  unfold generateStructuredPath.
  eexists. destruct (fold_left _ _ _) as [nodes next] eqn:E.
  simpl. rewrite E. reflexivity.
Qed.

(** A template with a resource among the modules selected for the
    requested difficulty yields a well-indexed path. *)
Lemma structured_well_indexed (topic : TopicStructure) (key : string)
  (request : GeneratePathRequest) :
  flat_map resources
    (selectModulesByDifficulty (modules topic)
       (request_difficulty_or_beginner request)) <> [] ->
  well_indexed (gen_nodes (generateStructuredPath topic key request)).
Proof.
  intros Hres.
  destruct (structured_nodes topic key request) as [d ->].
  pose proof (modules_counted d
                (selectModulesByDifficulty (modules topic)
                   (request_difficulty_or_beginner request))
                ([], 1%Z) counted_start) as [_ Hidx].
  pose proof (modules_length d
                (selectModulesByDifficulty (modules topic)
                   (request_difficulty_or_beginner request))
                ([], 1%Z)) as Hlen.
  split; [| exact Hidx].
  intros Hnil. rewrite Hnil in Hlen. simpl in Hlen.
  destruct (flat_map resources _); [contradiction | simpl in Hlen; lia].
Qed.

Lemma database_has_resources :
  forallb (fun kt => has_resources kt.2) topicDatabase = true.
Proof. vm_compute. reflexivity. Qed.

Lemma has_resources_selected (topic : TopicStructure) (d : Difficulty) :
  has_resources topic = true ->
  flat_map resources (selectModulesByDifficulty (modules topic) d) <> [].
Proof.
  intros Hall Hnil. unfold has_resources in Hall.
  rewrite forallb_forall in Hall.
  assert (Hd : In d [beginner; intermediate; advanced])
    by (destruct d; simpl; auto).
  specialize (Hall d Hd). rewrite Hnil in Hall. discriminate Hall.
Qed.

Lemma database_topic_well_indexed (key key' : string) (topic : TopicStructure)
  (request : GeneratePathRequest) :
  In (key, topic) topicDatabase ->
  well_indexed (gen_nodes (generateStructuredPath topic key' request)).
Proof.
  intros Hin. apply structured_well_indexed, has_resources_selected.
  pose proof database_has_resources as Hall.
  rewrite forallb_forall in Hall. exact (Hall (key, topic) Hin).
Qed.

Lemma custom_well_indexed (request : GeneratePathRequest) (category : string) :
  well_indexed (gen_nodes (generateCustomPath request category)).
Proof. split; [discriminate | reflexivity]. Qed.

Lemma fallback_well_indexed (request : GeneratePathRequest) :
  well_indexed (gen_nodes (generateFallbackPath request)).
Proof. split; [discriminate | reflexivity]. Qed.

Lemma get_topic_in (key : string) (db : list (string * TopicStructure))
  (topic : TopicStructure) :
  get_topic key db = Some topic -> In (key, topic) db.
Proof.
  induction db as [| [k t] rest IH]; simpl; [discriminate |].
  destruct (String.eqb_spec k key) as [-> | _].
  - intros [= ->]. now left.
  - intros H. right. exact (IH H).
Qed.

Lemma direct_match_sound (lowerQuery : string)
  (db : list (string * TopicStructure)) (d : Detection) :
  (forall kt, In kt db -> In kt topicDatabase) ->
  direct_match lowerQuery db = Some d -> sound d.
Proof.
  induction db as [| [key topic] rest IH]; simpl; intros Hsub;
    [discriminate |].
  destruct (Js.includes lowerQuery key).
  - intros [= <-] t [= <-]. exists key. split; [reflexivity |].
    apply Hsub. now left.
  - apply IH. intros kt Hin. apply Hsub. now right.
Qed.

Lemma keyword_hit_sound (lowerQuery key : string) (kws : list string)
  (d : Detection) :
  keyword_hit lowerQuery key kws = Some d -> sound d.
Proof.
  induction kws as [| keyword rest IH]; cbn [keyword_hit]; [discriminate |].
  destruct (Js.includes lowerQuery keyword); [| exact IH].
  destruct (get_topic key topicDatabase) as [topic |] eqn:E; [| exact IH].
  intros [= <-] t [= <-]. exists key. split; [reflexivity |].
  apply get_topic_in, E.
Qed.

Lemma keyword_match_sound (lowerQuery : string)
  (km : list (string * list string)) (d : Detection) :
  keyword_match lowerQuery km = Some d -> sound d.
Proof.
  induction km as [| [key kws] rest IH]; simpl; [discriminate |].
  destruct (keyword_hit lowerQuery key kws) as [d' |] eqn:E.
  - intros [= <-]. exact (keyword_hit_sound _ _ _ _ E).
  - exact IH.
Qed.

Lemma detectTopic_sound (query : string) : sound (detectTopic query).
Proof.
  unfold detectTopic.
  destruct (direct_match _ topicDatabase) as [d |] eqn:E1.
  - apply (direct_match_sound _ _ _ (fun _ H => H) E1).
  - destruct (keyword_match _ keywordMap) as [d |] eqn:E2.
    + exact (keyword_match_sound _ _ _ E2).
    + intros t H. discriminate H.
Qed.

Lemma generatePath_well_indexed (request : GeneratePathRequest) :
  well_indexed (gen_nodes (generatePath request)).
Proof.
  unfold generatePath, generatePath_try.
  pose proof (detectTopic_sound (query request)) as Hsound.
  destruct (detectedTopic (detectTopic (query request))) as [topic |] eqn:E;
    [| apply custom_well_indexed].
  destruct (Hsound topic E) as (key & Hkey & Hin).
  destruct (Qlt_le_dec _ _); [| apply custom_well_indexed].
  rewrite Hkey. exact (database_topic_well_indexed key key topic request Hin).
Qed.

(** C1.  For every generation request, the path returned by
    [generatePath] has at least one node and its nodes carry the order
    indices 1, 2, ..., n in list order; the same holds for each of its
    three sources: the structured path of every template of the topic
    database, the custom four-node path, and the three-node fallback
    path. *)
Theorem generated_paths_are_well_indexed (request : GeneratePathRequest) :
  well_indexed (gen_nodes (generatePath request))
  /\ Forall
       (fun kt =>
          well_indexed
            (gen_nodes (generateStructuredPath kt.2 kt.1 request)))
       topicDatabase
  /\ (forall category,
        well_indexed (gen_nodes (generateCustomPath request category))
        /\ List.length (gen_nodes (generateCustomPath request category))
           = 4%nat)
  /\ well_indexed (gen_nodes (generateFallbackPath request))
  /\ List.length (gen_nodes (generateFallbackPath request)) = 3%nat.
Proof.
  split; [apply generatePath_well_indexed |].
  split.
  { apply List.Forall_forall. intros [key topic] Hin.
    exact (database_topic_well_indexed key key topic request Hin). }
  split.
  { intros category. split; [apply custom_well_indexed | reflexivity]. }
  split; [apply fallback_well_indexed | reflexivity].
Qed.

End PathFacts.

(* ===================================================================== *)
(** ** Further properties of ranking and suggestions *)
(* ===================================================================== *)

Module RankOrderFacts.
Import AiSearch.
Local Open Scope Q_scope.










End RankOrderFacts.

Module SuggestionFacts.
Import AiSearch.

Lemma array_includes_In (l : list string) (x : string) :
  Js.array_includes l x = true <-> In x l.
Proof.
  unfold Js.array_includes. rewrite existsb_exists. split.
  - intros (y & Hin & Heq). apply String.eqb_eq in Heq. now subst.
  - intros Hin. exists x. split; [assumption | apply String.eqb_refl].
Qed.

Lemma set_add_NoDup (x : string) (s : list string) :
  List.NoDup s -> List.NoDup (Js.set_add x s).
Proof.
  intros Hs. unfold Js.set_add.
  destruct (Js.array_includes s x) eqn:E; [assumption |].
  apply (Permutation_NoDup (l := x :: s));
    [apply Permutation_cons_append |].
  constructor; [| assumption].
  intros Hin. apply array_includes_In in Hin. congruence.
Qed.

Lemma set_add_extends (x : string) (s : list string) :
  exists more, Js.set_add x s = s ++ more.
Proof.
  unfold Js.set_add. destruct (Js.array_includes s x).
  - exists []. now rewrite List.app_nil_r.
  - now exists [x].
Qed.

(** A loop that only adds to the set keeps what it held, in place. *)
Lemma fold_extends {A : Type} (f : list string -> A -> list string)
  (items : list A) (s : list string) :
  (forall acc a, exists more, f acc a = acc ++ more) ->
  exists more, fold_left f items s = s ++ more.
Proof.
  intros Hext. revert s.
  induction items as [| a rest IH]; intros s; simpl.
  - exists []. now rewrite List.app_nil_r.
  - destruct (IH (f s a)) as (more & H2).
    destruct (Hext s a) as (more' & Hf).
    exists (more' ++ more). rewrite H2, Hf, List.app_assoc. reflexivity.
Qed.

(** A loop that only adds to the set keeps it duplicate-free and keeps
    what it held, in place. *)
Lemma fold_set_add {A : Type} (f : list string -> A -> list string)
  (items : list A) (s : list string) :
  (forall acc a, List.NoDup acc -> List.NoDup (f acc a)) ->
  (forall acc a, exists more, f acc a = acc ++ more) ->
  List.NoDup s ->
  List.NoDup (fold_left f items s)
  /\ exists more, fold_left f items s = s ++ more.
Proof.
  intros Hnd Hext. revert s.
  induction items as [| a rest IH]; intros s Hs; simpl.
  - split; [assumption |]. exists []. now rewrite List.app_nil_r.
  - destruct (IH (f s a) (Hnd s a Hs)) as (H1 & more & H2).
    split; [assumption |].
    destruct (Hext s a) as (more' & Hf).
    exists (more' ++ more). rewrite H2, Hf, List.app_assoc. reflexivity.
Qed.

Lemma mapping_step_ok (keyword : string) :
  (forall acc kv, List.NoDup acc ->
     List.NoDup
       ((fun acc' '(key, value) =>
           if Js.includes key keyword
              || Js.includes keyword (first_word key)
           then Js.set_add value acc' else acc') acc kv))
  /\ (forall acc kv, exists more,
        (fun acc' '(key, value) =>
           if Js.includes key keyword
              || Js.includes keyword (first_word key)
           then Js.set_add value acc' else acc') acc kv = acc ++ more).
Proof.
  split; intros acc [key value].
  - intros Hacc.
    destruct (Js.includes key keyword || Js.includes keyword (first_word key));
      [apply set_add_NoDup |]; assumption.
  - destruct (Js.includes key keyword || Js.includes keyword (first_word key)).
    + apply set_add_extends.
    + exists []. now rewrite List.app_nil_r.
Qed.

Lemma NoDup_firstn (n : nat) (l : list string) :
  List.NoDup l -> List.NoDup (firstn n l).
Proof.
  intros H. rewrite <- (firstn_skipn n l) in H.
  exact (List.NoDup_app_remove_r _ _ H).
Qed.

(** X3.  [generateTopicSuggestions] returns at most six topics, without
    repetition, and when the intent has a topic that topic comes first,
    whatever the popular-topics read brings. *)
Theorem suggestions_are_few_distinct_and_led_by_topic
  (popular : Outcome (list string)) (query : string) (intent : QueryIntent) :
  let suggestions := generateTopicSuggestions popular query intent in
  (List.length suggestions <= 6)%nat
  /\ List.NoDup suggestions
  /\ (intent_topic intent <> "" ->
      hd_error suggestions = Some (intent_topic intent)).
Proof.
  cbv zeta. unfold generateTopicSuggestions.
  set (s0 := if Js.truthy (intent_topic intent)
             then Js.set_add (intent_topic intent) [] else []).
  assert (H0 : List.NoDup s0).
  { unfold s0. destruct (Js.truthy _); [apply set_add_NoDup |]; constructor. }
  set (step := fun acc keyword =>
                 fold_left
                   (fun acc' '(key, value) =>
                      if Js.includes key keyword
                         || Js.includes keyword (first_word key)
                      then Js.set_add value acc' else acc')
                   topicMappings acc).
  assert (Hstep_nd : forall acc kw, List.NoDup acc -> List.NoDup (step acc kw)).
  { intros acc kw Hacc. unfold step.
    destruct (mapping_step_ok kw) as [Hnd Hext].
    exact (proj1 (fold_set_add _ topicMappings acc Hnd Hext Hacc)). }
  assert (Hstep_ext : forall acc kw, exists more, step acc kw = acc ++ more).
  { intros acc kw. unfold step.
    destruct (mapping_step_ok kw) as [Hnd Hext].
    exact (fold_extends _ topicMappings acc Hext). }
  destruct (fold_set_add step (keywords intent) s0 Hstep_nd Hstep_ext H0)
    as (H1 & more1 & E1).
  set (s1 := fold_left step (keywords intent) s0) in *.
  set (s2 := match popular with
             | resolved r =>
                 match data r with
                 | Some popularTopics =>
                     fold_left (fun acc t => Js.set_add t acc) popularTopics s1
                 | None => s1
                 end
             | rejected _ => s1
             end).
  assert (H2 : List.NoDup s2 /\ exists more, s2 = s1 ++ more).
  { unfold s2. destruct popular as [r | e]; [destruct (data r) as [l |] |].
    - apply fold_set_add; [| | assumption].
      + intros acc a. apply set_add_NoDup.
      + intros acc a. apply set_add_extends.
    - split; [assumption |]. exists []. now rewrite List.app_nil_r.
    - split; [assumption |]. exists []. now rewrite List.app_nil_r. }
  destruct H2 as (H2 & more2 & E2).
  split; [apply firstn_le_length |].
  split; [apply NoDup_firstn, H2 |].
  intros Htopic. rewrite E2, E1. unfold s0.
  rewrite (SearchFacts.truthy_nonempty _ Htopic). reflexivity.
Qed.


Lemma suggestions_are_few_distinct_and_led_by_topic_witness :
  hd_error
    (generateTopicSuggestions (rejected (ErrorInstance "Failed to fetch"))
       "react hooks" (parseQueryIntent "react hooks"))
  = Some "web-development".
Proof.
  destruct (suggestions_are_few_distinct_and_led_by_topic
              (rejected (ErrorInstance "Failed to fetch"))
              "react hooks" (parseQueryIntent "react hooks"))
    as (_ & _ & Hfirst).
  apply Hfirst. vm_compute. intros H. discriminate H.
Defined.

End SuggestionFacts.

Module SearchCacheFacts.
Import AiSearch.

Lemma parse_confidence_le_1 (q : string) :
  (confidence (parseQueryIntent q) <= 1)%Q.
Proof.
  unfold parseQueryIntent.
  destruct (detect_topic (Js.toLowerCase q) topicMappings) as [t c].
  ParserFacts.difficulty_cases; simpl; apply Q.le_min_r.
Qed.

Lemma search_intent_confidence_le_1 (env : SearchEnv) (query : string) :
  (confidence (search_intent env query) <= 1)%Q.
Proof.
  destruct (SearchFacts.search_intent_cases env query)
    as [-> | [enhanced ->]].
  - apply parse_confidence_le_1.
  - simpl. apply Q.max_lub; [apply parse_confidence_le_1 | discriminate].
Qed.

Lemma search_body_confident
  (env : SearchEnv) (query : string) (filters : option SearchFilters)
  (result : AISearchResult) :
  (search_body env query filters).1 = inr result -> confident result.
Proof.
  unfold search_body.
  destruct (main_read env _) as [r | e]; [destruct (error r) |]; simpl;
    try (intros H; discriminate H).
  destruct (rank_rows _ _ _); simpl; intros H; try discriminate H.
  injection H as <-. split; simpl.
  - apply Qlt_le_weak, SearchFacts.search_intent_confidence_pos.
  - apply search_intent_confidence_le_1.
Qed.

Section WithStringify.
Variable JSON_stringify : option SearchFilters -> string.


(** X5.  A cache that holds only results with a confidence between 0 and
    1 stays such a cache through every search, and every search returns
    such a result. *)
Theorem search_keeps_confidence_in_unit_interval
  (env : SearchEnv) (cache : gmap string AISearchResult)
  (query : string) (filters : option SearchFilters) :
  map_Forall (fun _ r => confident r) cache ->
  let r := intelligentSearch JSON_stringify env cache query filters in
  confident r.1.1 /\ map_Forall (fun _ r => confident r) r.1.2.
Proof.
  intros Hcache. cbv zeta. unfold intelligentSearch.
  destruct (cache !! cacheKey JSON_stringify query filters) as [hit |] eqn:E.
  - simpl. split; [exact (Hcache _ _ E) | exact Hcache].
  - pose proof (search_body_confident env query filters) as Hbody.
    destruct (search_body env query filters) as [[e | result] log]; simpl.
    + split; [| exact Hcache]. split; simpl; discriminate.
    + specialize (Hbody result eq_refl).
      split; [exact Hbody |].
      apply map_Forall_insert_2; assumption.
Qed.

End WithStringify.


Lemma search_keeps_confidence_in_unit_interval_witness :
  confident
    (intelligentSearch Samples.stringify_undefined Samples.env_plain
       ∅ "chess" None).1.1.
Proof.
  exact (proj1 (search_keeps_confidence_in_unit_interval
                  Samples.stringify_undefined Samples.env_plain ∅ "chess" None
                  (map_Forall_empty _))).
Defined.

(** X6.  When the completion service is configured but its answer cannot
    be used (the call or the parsing raises, or there is no content), the
    search does not keep the parsed difficulty and duration: it works with
    difficulty "beginner" and 10 hours, keeps the parsed topic, keywords
    and learning type, and raises the confidence to at least 0.8. *)
Theorem unusable_completion_resets_difficulty
  (env : SearchEnv) (query : string) :
  openai_configured env = true ->
  completion env = OpenAI.completion_throws
  \/ completion env = OpenAI.completion_no_content ->
  let parsed := parseQueryIntent query in
  let used := search_intent env query in
  intent_difficulty used = "beginner"
  /\ estimatedDuration used = 10%Q
  /\ intent_topic used = intent_topic parsed
  /\ keywords used = keywords parsed
  /\ learningType used = learningType parsed
  /\ confidence used = Qmax (confidence parsed) (4 # 5)
  /\ forall filters,
       In (eq_difficulty_level "beginner") (build_query used filters).
Proof.
  intros Hon Hbad. cbv zeta.
  assert (Hused : search_intent env query
                  = enhance_intent (parseQueryIntent query)
                      (OpenAI.fallback query)).
  { unfold search_intent, OpenAI.enhanceSearchQuery. rewrite Hon.
    destruct Hbad as [-> | ->]; reflexivity. }
  rewrite Hused.
  split; [reflexivity |]. split; [reflexivity |]. split; [reflexivity |].
  split; [reflexivity |]. split; [reflexivity |]. split; [reflexivity |].
  intros filters.
  apply (SearchFacts.build_query_difficulty
           (enhance_intent (parseQueryIntent query) (OpenAI.fallback query))
           filters).
  discriminate.
Qed.

Lemma unusable_completion_resets_difficulty_witness :
  intent_difficulty (parseQueryIntent "advanced react") = "advanced"
  /\ intent_difficulty
       (search_intent (Samples.env_with_completion OpenAI.completion_throws)
          "advanced react") = "beginner".
Proof.
  split; [reflexivity |].
  exact (proj1 (unusable_completion_resets_difficulty
                  (Samples.env_with_completion OpenAI.completion_throws)
                  "advanced react" eq_refl (or_introl eq_refl))).
Defined.

End SearchCacheFacts.

(* ===================================================================== *)
(** ** Further properties of the intent parser *)
(* ===================================================================== *)

Module ParserMoreFacts.
Import AiSearch.

Lemma lower_ascii_idempotent (c : ascii) :
  Js.lower_ascii (Js.lower_ascii c) = Js.lower_ascii c.
Proof. destruct c as [[] [] [] [] [] [] [] []]; reflexivity. Qed.

Lemma lower_upper_ascii (c : ascii) :
  Js.lower_ascii (Js.upper_ascii c) = Js.lower_ascii c.
Proof. destruct c as [[] [] [] [] [] [] [] []]; reflexivity. Qed.

Lemma toLowerCase_idempotent (s : string) :
  Js.toLowerCase (Js.toLowerCase s) = Js.toLowerCase s.
Proof.
  induction s as [| c s IH]; simpl; [reflexivity |].
  now rewrite lower_ascii_idempotent, IH.
Qed.

Lemma toLowerCase_toUpperCase (s : string) :
  Js.toLowerCase (Js.toUpperCase s) = Js.toLowerCase s.
Proof.
  induction s as [| c s IH]; simpl; [reflexivity |].
  now rewrite lower_upper_ascii, IH.
Qed.

Lemma toLowerCase_app (a b : string) :
  Js.toLowerCase (a +:+ b) = Js.toLowerCase a +:+ Js.toLowerCase b.
Proof. induction a as [| c a IH]; simpl; [reflexivity | now rewrite IH]. Qed.

Lemma no_space_app (a b : string) :
  Js.no_space (a +:+ b) = Js.no_space a && Js.no_space b.
Proof.
  induction a as [| c a IH]; simpl; [reflexivity |].
  now rewrite IH, andb_assoc.
Qed.

Lemma split_ws_go_words (skipping : bool) (cur s : string) :
  Js.is_word cur -> Js.toLowerCase s = s ->
  Forall Js.is_word (Js.split_ws_go skipping cur s).
Proof.
  revert skipping cur.
  induction s as [| c s IH]; intros skipping cur Hcur Hs; simpl.
  - constructor; [assumption | constructor].
  - simpl in Hs. injection Hs as Hc Hs'.
    destruct (Js.is_space c) eqn:Ec.
    + destruct skipping.
      * apply IH; assumption.
      * constructor; [assumption |].
        apply IH; [split; reflexivity | assumption].
    + apply IH; [| assumption].
      destruct Hcur as [Hns Hlow]. split.
      * rewrite no_space_app, Hns. simpl. now rewrite Ec.
      * rewrite toLowerCase_app, Hlow. simpl. now rewrite Hc.
Qed.

(** X7.  Every keyword of a parsed intent is longer than two characters,
    is not a stop word, contains no white space and is in lower case. *)
Theorem keywords_are_lowercase_words (q : string) :
  Forall
    (fun kw => (2 < String.length kw)%nat
               /\ ~ In kw stopWords
               /\ Js.no_space kw = true
               /\ Js.toLowerCase kw = kw)
    (keywords (parseQueryIntent q)).
Proof.
  assert (Hkw : keywords (parseQueryIntent q)
                = List.filter
                    (fun word => negb (Js.array_includes stopWords word)
                                 && (2 <? String.length word)%nat)
                    (Js.split_ws (Js.toLowerCase q))).
  { unfold parseQueryIntent.
    destruct (detect_topic (Js.toLowerCase q) topicMappings) as [t c].
    ParserFacts.difficulty_cases; reflexivity. }
  rewrite Hkw. rewrite List.Forall_forall. intros kw Hin.
  apply List.filter_In in Hin. destruct Hin as [Hin Hkeep].
  apply andb_true_iff in Hkeep. destruct Hkeep as [Hstop Hlen].
  pose proof (split_ws_go_words false "" (Js.toLowerCase q)
                (conj eq_refl eq_refl) (toLowerCase_idempotent q)) as Hwords.
  rewrite List.Forall_forall in Hwords.
  destruct (Hwords kw Hin) as [Hns Hlow].
  split; [apply Nat.ltb_lt, Hlen |].
  split; [| split; assumption].
  intros Hmember. apply SuggestionFacts.array_includes_In in Hmember.
  rewrite Hmember in Hstop. discriminate Hstop.
Qed.

(** X8.  Parsing ignores letter case: a query and its lower-case form
    are parsed to the same intent, and so is the upper-case form of a
    query made of ASCII characters. *)
Theorem parsing_ignores_letter_case (q : string) :
  parseQueryIntent (Js.toLowerCase q) = parseQueryIntent q
  /\ (Js.is_ascii q = true ->
      parseQueryIntent (Js.toUpperCase q) = parseQueryIntent q).
Proof.
  unfold parseQueryIntent.
  rewrite toLowerCase_toUpperCase, toLowerCase_idempotent.
  split; [reflexivity | intros _; reflexivity].
Qed.

Lemma parsing_ignores_letter_case_witness :
  Js.is_ascii "Advanced React Course" = true
  /\ parseQueryIntent (Js.toUpperCase "Advanced React Course")
     = parseQueryIntent "Advanced React Course".
Proof.
  split; [reflexivity |].
  apply (parsing_ignores_letter_case "Advanced React Course"); reflexivity.
Defined.

Lemma detect_topic_none (lowerQuery : string) (m : list (string * string)) :
  Forall (fun kv => Js.includes lowerQuery kv.1 = false) m ->
  detect_topic lowerQuery m = ("", (1 # 2)%Q).
Proof.
  induction 1 as [| [key value] rest Hkey _ IH]; simpl; [reflexivity |].
  simpl in Hkey. rewrite Hkey. exact IH.
Qed.

Lemma detect_topic_first (lowerQuery key value : string)
  (before after : list (string * string)) :
  Forall (fun kv => Js.includes lowerQuery kv.1 = false) before ->
  Js.includes lowerQuery key = true ->
  detect_topic lowerQuery (before ++ (key, value) :: after)
  = (value, (4 # 5)%Q).
Proof.
  induction 1 as [| [k v] rest Hk _ IH]; intros Hkey; simpl.
  - now rewrite Hkey.
  - simpl in Hk. rewrite Hk. exact (IH Hkey).
Qed.

(** X9.  The topic of a parsed intent is the category of the first entry
    of the synonym table whose key occurs in the lower-cased query, and
    then the confidence is at least 0.8; when no key occurs, the topic is
    empty and the confidence is at most 0.6. *)
Theorem topic_is_first_synonym_match (q : string) :
  (Forall (fun kv => Js.includes (Js.toLowerCase q) kv.1 = false)
     topicMappings ->
   intent_topic (parseQueryIntent q) = ""
   /\ (confidence (parseQueryIntent q) <= 6 # 10)%Q)
  /\ (forall key value before after,
        topicMappings = before ++ (key, value) :: after ->
        Forall (fun kv => Js.includes (Js.toLowerCase q) kv.1 = false)
          before ->
        Js.includes (Js.toLowerCase q) key = true ->
        intent_topic (parseQueryIntent q) = value
        /\ (4 # 5 <= confidence (parseQueryIntent q))%Q).
Proof.
  split.
  - intros Hnone. unfold parseQueryIntent.
    rewrite (detect_topic_none _ _ Hnone).
    ParserFacts.difficulty_cases; simpl;
      (split; [reflexivity |]);
      (eapply Qle_trans; [apply Q.le_min_l | discriminate]).
  - intros key value before after Htable Hbefore Hkey.
    unfold parseQueryIntent. rewrite Htable.
    rewrite (detect_topic_first _ key value before after Hbefore Hkey).
    ParserFacts.difficulty_cases; simpl;
      (split; [reflexivity |]);
      apply Q.min_glb; discriminate.
Qed.

Lemma topic_is_first_synonym_match_witness :
  intent_topic (parseQueryIntent "Python or React") = "web-development"
  /\ (4 # 5 <= confidence (parseQueryIntent "Python or React"))%Q.
Proof.
  apply (proj2 (topic_is_first_synonym_match "Python or React")
           "react" "web-development"
           [ ("web development", "web-development");
             ("frontend", "web-development");
             ("backend", "web-development") ]
           [ ("javascript", "web-development");
             ("python", "data-science");
             ("machine learning", "ai-ml");
             ("ai", "ai-ml");
             ("blockchain", "web3");
             ("crypto", "web3");
             ("ui/ux", "design");
             ("design", "design");
             ("marketing", "business");
             ("entrepreneurship", "business") ]).
  - reflexivity.
  - repeat constructor.
  - reflexivity.
Defined.

End ParserMoreFacts.

(* ===================================================================== *)
(** ** Further properties of the query cache *)
(* ===================================================================== *)

Module EvictionFacts.
Import Database.

Lemma prefix_app (a b : string) : String.prefix a (a +:+ b) = true.
Proof.
  induction a as [| c a IH]; simpl.
  - destruct b; reflexivity.
  - destruct (ascii_dec c c); [exact IH | contradiction].
Qed.

Lemma includes_prefix (s sub : string) :
  String.prefix sub s = true -> Js.includes s sub = true.
Proof. intros H. destruct s; cbn [Js.includes]; rewrite H; reflexivity. Qed.

Lemma prefix_refl (s : string) : String.prefix s s = true.
Proof.
  induction s as [| c s IH]; simpl; [reflexivity |].
  destruct (ascii_dec c c); [exact IH | contradiction].
Qed.

Lemma includes_self (s : string) : Js.includes s s = true.
Proof. apply includes_prefix, prefix_refl. Qed.

Lemma includes_app_l (a b : string) : Js.includes (a +:+ b) a = true.
Proof. apply includes_prefix, prefix_app. Qed.

Lemma includes_empty (s : string) : Js.includes s "" = true.
Proof. destruct s; reflexivity. Qed.

(** What [clearCacheByPattern] leaves under each key. *)
Lemma eviction_lookup (pattern key : string) (cache : gmap string CacheEntry) :
  clearCacheByPattern pattern cache !! key
  = if Js.includes key pattern then None else cache !! key.
Proof.
  unfold clearCacheByPattern.
  destruct (Js.includes key pattern) eqn:E.
  - apply map_lookup_filter_None. right. intros x _. simpl. congruence.
  - destruct (cache !! key) as [x |] eqn:Ek.
    + apply map_lookup_filter_Some. split; assumption.
    + apply map_lookup_filter_None. left. assumption.
Qed.

Lemma missing_is_not_fresh (cache : gmap string CacheEntry) (key : string)
  (now : Z) :
  cache !! key = None -> fresh (cache !! key) now = None.
Proof. intros ->. reflexivity. Qed.

Section Paths.
Variable stringify_filters : DatabaseFilters -> string.

(** X10.  [fetchPaths] never answers from the cache: it always sends the
    read built from the filters, and what it returns does not depend on
    the cache.  When the read goes through, the rows are returned and
    written to the cache under the key of the filters with the time of
    writing; when it fails, the result is the empty list and the cache is
    left as it was. *)
Theorem fetchPaths_bypasses_cache
  (env : ReadEnv (list LearningPath)) (cache other : gmap string CacheEntry)
  (filters : DatabaseFilters) :
  let r := fetchPaths stringify_filters env cache filters in
  r.2 = [select_paths (paths_query filters)]
  /\ r.1.1 = (fetchPaths stringify_filters env other filters).1.1
  /\ (failure (remote env) = None ->
      r.1.1 = rows_of (remote env)
      /\ r.1.2 !! ("paths-" +:+ stringify_filters filters)
         = Some {| entry_data := paths_data (rows_of (remote env));
                   timestamp := now_at_write env |})
  /\ (failure (remote env) <> None -> r.1.1 = [] /\ r.1.2 = cache).
Proof.
  cbv zeta. unfold fetchPaths, failure, rows_of.
  destruct (remote env) as [reply | e]; [destruct (error reply) |]; simpl.
  - split; [reflexivity |]. split; [reflexivity |].
    split; [intros H; discriminate H |]. intros _. split; reflexivity.
  - split; [reflexivity |]. split; [reflexivity |].
    split; [| intros H; contradiction].
    intros _. split; [reflexivity | apply lookup_insert_eq].
  - split; [reflexivity |]. split; [reflexivity |].
    split; [intros H; discriminate H |]. intros _. split; reflexivity.
Qed.

End Paths.

(** X11.  When [batchCreateNodes] goes through, the rows it sent are the
    given nodes, in order, each tagged with the path id; the cached view
    of that path is gone, so the next [fetchPathWithNodes] for it asks
    the store; entries whose key does not contain the key of that view are
    kept.  When the insert fails, the caller gets the store's error as it
    is and the cache is left as it was. *)
Theorem batch_insert_refreshes_path_view
  (reply : Outcome (list NodeRow)) (cache : gmap string CacheEntry)
  (pathId : string) (nodes : list LearningNode) :
  let r := batchCreateNodes reply cache pathId nodes in
  (exists rows,
      r.2 = [insert_nodes rows]
      /\ List.map insert_fields rows = nodes
      /\ Forall (fun row => insert_path_id row = pathId) rows)
  /\ (failure reply = None ->
      r.1.1 = inr (rows_of reply)
      /\ (forall env, (fetchPathWithNodes env r.1.2 pathId).2
                      = [select_path_with_nodes pathId])
      /\ (forall key, Js.includes key ("path-nodes-" +:+ pathId) = false ->
                      r.1.2 !! key = cache !! key))
  /\ (forall e, failure reply = Some e -> r.1.1 = inl e /\ r.1.2 = cache).
Proof.
  cbv zeta. split; [| split].
  - eexists. split; [| split].
    + unfold batchCreateNodes.
      destruct reply as [rp | e]; [destruct (error rp) |]; reflexivity.
    + rewrite List.map_map. simpl. apply List.map_id.
    + rewrite List.Forall_forall. intros row Hin.
      apply List.in_map_iff in Hin. destruct Hin as (n & <- & _). reflexivity.
  - unfold batchCreateNodes, failure, rows_of.
    destruct reply as [rp | e]; [| discriminate].
    destruct (error rp); [discriminate |]. intros _. simpl.
    split; [reflexivity |]. split.
    + intros env. apply CacheFacts.fetchPathWithNodes_refetches.
      rewrite eviction_lookup, includes_self. reflexivity.
    + intros key Hkey. rewrite eviction_lookup, Hkey. reflexivity.
  - intros e. unfold batchCreateNodes, failure.
    destruct reply as [rp | e']; [destruct (error rp) |]; simpl;
      intros H; try discriminate H; injection H as ->; split; reflexivity.
Qed.


Lemma fetchPaths_bypasses_cache_witness :
  (fetchPaths Samples.stringify_empty Samples.paths_read_ok
     Samples.cache_at_1000 Samples.no_filters).1.1
  = [Samples.chess_openings]
  /\ (fetchPaths Samples.stringify_empty Samples.paths_read_ok
        Samples.cache_at_1000 Samples.no_filters).1.2 !! "paths-{}"
     = Some {| entry_data := paths_data [Samples.chess_openings];
               timestamp := 2005 |}.
Proof.
  destruct (fetchPaths_bypasses_cache Samples.stringify_empty
              Samples.paths_read_ok Samples.cache_at_1000 ∅
              Samples.no_filters)
    as (_ & _ & Hok & _).
  exact (Hok eq_refl).
Defined.

Lemma batch_insert_refreshes_path_view_witness :
  (fetchPathWithNodes (Samples.path_read_at 2000)
     (batchCreateNodes Samples.nodes_inserted Samples.cache_at_1000 "p1"
        []).1.2 "p1").2
  = [select_path_with_nodes "p1"]
  /\ (batchCreateNodes Samples.nodes_inserted Samples.cache_at_1000 "p1"
        []).1.2 !! "progress-user-v-p1"
     = Some Samples.cached_progress.
Proof.
  destruct (batch_insert_refreshes_path_view Samples.nodes_inserted
              Samples.cache_at_1000 "p1" [])
    as (_ & Hok & _).
  destruct (Hok eq_refl) as (_ & Hmiss & Hkept).
  split; [apply Hmiss |].
  rewrite Hkept by reflexivity. vm_compute. reflexivity.
Defined.

End EvictionFacts.

Module ProgressFacts.
Import Database.

Lemma append_assoc (a b c : string) : (a +:+ b) +:+ c = a +:+ (b +:+ c).
Proof.
  induction a as [| x a IH]; [reflexivity |].
  change (String x ((a +:+ b) +:+ c) = String x (a +:+ (b +:+ c))).
  now rewrite IH.
Qed.

(** The key of a user's progress view contains the pattern evicted for
    that user. *)
Lemma progress_key_matches (userId pathId : string) :
  Js.includes ("progress-" +:+ userId +:+ "-" +:+ pathId)
    ("progress-" +:+ userId) = true.
Proof.
  rewrite <- (append_assoc "progress-" userId ("-" +:+ pathId)).
  apply EvictionFacts.includes_app_l.
Qed.

Lemma updateUserStats_lookup
  (env : ProgressEnv) (cache : gmap string CacheEntry) (userId : string)
  (done : bool) (key : string) :
  Js.includes key ("profile-" +:+ userId) = false ->
  (updateUserStats env cache userId done).1 !! key = cache !! key.
Proof.
  intros Hkey. unfold updateUserStats.
  destruct done; simpl; [| reflexivity].
  destruct (stats_reply env) as [r | e]; [| reflexivity].
  destruct (error r), (data r); try reflexivity.
  destruct (stats_update_reply env) as [u | e]; [| reflexivity].
  destruct (error u); [reflexivity |].
  simpl. rewrite EvictionFacts.eviction_lookup, Hkey. reflexivity.
Qed.

(** X12.  When [updateUserProgress] has written the record, it returns
    what the store returned for the write, whatever became of the
    statistics; every cached progress view of that user is gone, so the
    next [getUserProgress] of that user asks the store, for any path; and
    entries whose key contains neither the progress pattern nor the profile
    pattern of that user are kept.  When the record was not written, the
    result is [null], the cache is left as it was and the statistics are
    not touched. *)
Theorem progress_update_refreshes_progress_views
  (env : ProgressEnv) (cache : gmap string CacheEntry)
  (userId pathId : string) (update : ProgressUpdate) :
  let r := updateUserProgress env cache userId pathId update in
  (progress_saved env = true ->
   (forall reply, write_reply env = resolved reply -> r.1.1 = data reply)
   /\ (forall readEnv anyPath,
         (getUserProgress readEnv r.1.2 userId anyPath).2
         = [select_user_progress userId anyPath])
   /\ (forall key,
         Js.includes key ("progress-" +:+ userId) = false ->
         Js.includes key ("profile-" +:+ userId) = false ->
         r.1.2 !! key = cache !! key))
  /\ (progress_saved env = false ->
      r.1.1 = None /\ r.1.2 = cache
      /\ List.filter is_stats_request r.2 = []).
Proof.
  cbv zeta. unfold updateUserProgress, progress_saved, failure.
  destruct (existing_record env) as [e | existing].
  { split; [intros H; discriminate H |]. intros _. repeat split. }
  destruct (write_reply env) as [w | e].
  2:{ split; [intros H; discriminate H |]. intros _.
      split; [reflexivity |]. split; [reflexivity |].
      simpl. destruct existing; reflexivity. }
  destruct (error w).
  { split; [intros H; discriminate H |]. intros _.
    split; [reflexivity |]. split; [reflexivity |].
    simpl. destruct existing; reflexivity. }
  split; [| intros H; discriminate H]. intros _.
  destruct (updateUserStats env cache userId
              (is_completed (update_status update))) as [cache1 statsLog] eqn:E.
  simpl. split; [| split].
  - intros reply [= <-]. reflexivity.
  - intros readEnv anyPath. apply CacheFacts.getUserProgress_refetches.
    rewrite EvictionFacts.eviction_lookup, progress_key_matches. reflexivity.
  - intros key Hprogress Hprofile.
    rewrite EvictionFacts.eviction_lookup, Hprogress.
    pose proof (updateUserStats_lookup env cache userId
                  (is_completed (update_status update)) key Hprofile) as H.
    rewrite E in H. exact H.
Qed.

Lemma progress_update_refreshes_progress_views_witness :
  let r := updateUserProgress Samples.progress_env Samples.cache_at_1000
             "user-v" "p1" Samples.completed_update in
  (getUserProgress (Samples.progress_read_at 2000) r.1.2 "user-v" "p1").2
  = [select_user_progress "user-v" "p1"]
  /\ r.1.2 !! "path-nodes-p1" = Some Samples.cached_chess.
Proof.
  destruct (proj1 (progress_update_refreshes_progress_views
                     Samples.progress_env Samples.cache_at_1000
                     "user-v" "p1" Samples.completed_update) eq_refl)
    as (_ & Hmiss & Hkept).
  split.
  - apply Hmiss.
  - rewrite Hkept by reflexivity. vm_compute. reflexivity.
Defined.

(** X13.  A completed node whose record was written, for a user whose
    statistics can be read, sends one statistics update: ten points more,
    the current streak one longer, and a longest streak that is neither
    below the old longest streak nor below the new current streak.  For
    any other status no statistics request is sent at all. *)
Theorem completed_node_updates_statistics
  (env : ProgressEnv) (cache : gmap string CacheEntry)
  (userId pathId : string) (update : ProgressUpdate) :
  let r := updateUserProgress env cache userId pathId update in
  (forall profile,
     progress_saved env = true ->
     update_status update = completed ->
     stats_reply env = resolved {| data := Some profile; error := None |} ->
     exists stats,
       List.filter is_stats_request r.2
       = [select_profile_stats userId;
          update_profile_stats userId stats (now_iso env)]
       /\ total_points stats = (total_points profile + 10)%Q
       /\ current_streak stats = (current_streak profile + 1)%Q
       /\ (longest_streak profile <= longest_streak stats)%Q
       /\ (current_streak stats <= longest_streak stats)%Q)
  /\ (update_status update <> completed ->
      List.filter is_stats_request r.2 = []).
Proof.
  cbv zeta. unfold updateUserProgress, progress_saved, failure.
  split.
  - intros profile Hsaved Hdone Hstats.
    destruct (existing_record env) as [e | existing]; [discriminate Hsaved |].
    destruct (write_reply env) as [w | e]; [| discriminate Hsaved].
    destruct (error w); [discriminate Hsaved |].
    unfold updateUserStats. rewrite Hdone, Hstats. simpl.
    eexists. split.
    + destruct (stats_update_reply env) as [u | e];
        [destruct (error u) |]; simpl; destruct existing; reflexivity.
    + simpl. split; [reflexivity |]. split; [reflexivity |].
      split; [apply Q.le_max_l | apply Q.le_max_r].
  - intros Hnot.
    assert (Hdone : is_completed (update_status update) = false)
      by (destruct (update_status update); try reflexivity; contradiction).
    destruct (existing_record env) as [e | existing]; [reflexivity |].
    destruct (write_reply env) as [w | e];
      [destruct (error w) |]; simpl;
      try (destruct existing; reflexivity).
    unfold updateUserStats. rewrite Hdone. simpl.
    destruct existing; reflexivity.
Qed.

Lemma completed_node_updates_statistics_witness :
  exists stats,
    List.filter is_stats_request
      (updateUserProgress Samples.progress_env Samples.cache_at_1000
         "user-v" "p1" Samples.completed_update).2
    = [select_profile_stats "user-v";
       update_profile_stats "user-v" stats "2025-07-04T20:23:39.000Z"]
    /\ total_points stats = (40 + 10)%Q.
Proof.
  destruct (proj1 (completed_node_updates_statistics
                     Samples.progress_env Samples.cache_at_1000
                     "user-v" "p1" Samples.completed_update)
              Samples.profile_stats eq_refl eq_refl eq_refl)
    as (stats & Hlog & Hpoints & _).
  exists stats. split; [exact Hlog | exact Hpoints].
Defined.

(** X14.  [updateUserProgress] sends at most one write.  When the
    existence check rejects, nothing is written: the lookup is the only
    request, the result is [null] and the cache is left as it was.
    Otherwise exactly one write is sent: an update of the record the
    check found, or, when it found nothing (also when its reply carries an
    error), an insert of a new record for the given user, path and
    node. *)
Theorem progress_update_writes_once
  (env : ProgressEnv) (cache : gmap string CacheEntry)
  (userId pathId : string) (update : ProgressUpdate) :
  let r := updateUserProgress env cache userId pathId update in
  match existing_reply env with
  | rejected _ =>
      r = (None, cache, [select_progress_id userId (update_nodeId update)])
  | resolved reply =>
      match data reply with
      | Some recordId =>
          exists change,
            List.filter is_progress_write r.2
            = [update_progress recordId change]
            /\ change_status change = update_status update
      | None =>
          exists row,
            List.filter is_progress_write r.2 = [insert_progress row]
            /\ inserted_user_id row = userId
            /\ inserted_path_id row = pathId
            /\ inserted_node_id row = update_nodeId update
            /\ inserted_status row = update_status update
      end
  end.
Proof.
  cbv zeta.
  unfold updateUserProgress, existing_record.
  destruct (existing_reply env) as [reply | e]; [| reflexivity].
  assert (Hstats : forall done,
             List.filter is_progress_write
               (updateUserStats env cache userId done).2 = []).
  { intros done. unfold updateUserStats.
    destruct done; simpl; [| reflexivity].
    destruct (stats_reply env) as [s | e]; [| reflexivity].
    destruct (error s), (data s); try reflexivity.
    destruct (stats_update_reply env) as [u | e]; [| reflexivity].
    destruct (error u); reflexivity. }
  destruct (data reply) as [recordId |]; eexists;
    (split; [| repeat split]);
    (destruct (write_reply env) as [w | e]; [destruct (error w) |];
     try reflexivity;
     destruct (updateUserStats env cache userId
                 (is_completed (update_status update)))
       as [cache1 statsLog] eqn:E;
     specialize (Hstats (is_completed (update_status update)));
     rewrite E in Hstats; simpl in *; rewrite Hstats; reflexivity).
Qed.

Lemma progress_update_writes_once_witness :
  (exists row,
      List.filter is_progress_write
        (updateUserProgress Samples.progress_env Samples.cache_at_1000
           "user-v" "p1" Samples.completed_update).2
      = [insert_progress row]
      /\ inserted_user_id row = "user-v")
  /\ updateUserProgress Samples.progress_env_unreachable
       Samples.cache_at_1000 "user-v" "p1" Samples.completed_update
     = (None, Samples.cache_at_1000, [select_progress_id "user-v" "n1"]).
Proof.
  split.
  - destruct (progress_update_writes_once
                Samples.progress_env Samples.cache_at_1000
                "user-v" "p1" Samples.completed_update)
      as (row & Hlog & Huser & _).
    exists row. split; [exact Hlog | exact Huser].
  - exact (progress_update_writes_once
             Samples.progress_env_unreachable Samples.cache_at_1000
             "user-v" "p1" Samples.completed_update).
Defined.

End ProgressFacts.

(* ===================================================================== *)
(** ** Further properties of the delete protocol and of cached reads *)
(* ===================================================================== *)

Module DeleteMoreFacts.
Import Database.

(** X15.  [deletePath] sends a delete to the store only for the path it
    was asked to delete, and only when the lookup went through and found
    that path, visible to the session, with the requester as its owner.
    In the requester's own session the owner always sees the row, so
    there the delete is sent exactly when the table holds the path with
    the requester as its owner. *)
Theorem delete_is_issued_only_for_the_owner
  (faults : StoreFaults) (session : option string)
  (table : gmap string LearningPath)
  (cache : gmap string CacheEntry) (pathId userId anyId : string) :
  (In (delete_path anyId)
      (issued (deletePath faults session table cache pathId userId))
   <-> anyId = pathId
       /\ select_fault faults = None
       /\ exists P, table !! pathId = Some P
                    /\ select_policy session P = true
                    /\ created_by P = userId)
  /\ (In (delete_path anyId)
         (issued (deletePath faults (Some userId) table cache pathId userId))
      <-> anyId = pathId
          /\ select_fault faults = None
          /\ exists P, table !! pathId = Some P /\ created_by P = userId).
Proof.
  assert (Hgeneral : forall session',
    In (delete_path anyId)
       (issued (deletePath faults session' table cache pathId userId))
    <-> anyId = pathId
        /\ select_fault faults = None
        /\ exists P, table !! pathId = Some P
                     /\ select_policy session' P = true
                     /\ created_by P = userId).
  { intros session'.
    unfold deletePath, deletePath_try, store_select, store_delete.
    destruct (select_fault faults) as [fetchError |]; simpl.
    { split.
      - intros [H | []]. discriminate H.
      - intros (_ & H & _). discriminate H. }
    destruct (table !! pathId) as [P |] eqn:EP; simpl.
    2:{ split.
        - intros [H | []]. discriminate H.
        - intros (_ & _ & P & H & _). discriminate H. }
    destruct (select_policy session' P) eqn:Esee; simpl.
    2:{ split.
        - intros [H | []]. discriminate H.
        - intros (_ & _ & Q & [= <-] & Hq & _). congruence. }
    destruct (String.eqb_spec (created_by P) userId) as [Hown | Hother];
      simpl.
    - split.
      + intros Hin.
        assert (Hid : anyId = pathId).
        { destruct (delete_fault faults); simpl in Hin;
            destruct Hin as [H | [H | []]]; try discriminate H;
            now injection H. }
        split; [exact Hid |]. split; [reflexivity |]. now exists P.
      + intros (-> & _ & _).
        destruct (delete_fault faults); simpl; right; left; reflexivity.
    - split.
      + intros [H | []]. discriminate H.
      + intros (_ & _ & Q & [= <-] & _ & Hq). contradiction. }
  split; [apply Hgeneral |].
  rewrite Hgeneral. split.
  - intros (Hid & Hf & P & HP & _ & Hown). repeat split; try assumption.
    now exists P.
  - intros (Hid & Hf & P & HP & Hown). repeat split; try assumption.
    exists P. split; [exact HP |]. split; [| exact Hown].
    unfold select_policy. rewrite Hown, String.eqb_refl. apply orb_true_r.
Qed.

(** X16.  [deletePath] returns without an error exactly when the lookup
    goes through, finds the path, visible to the session and owned by the
    requester, and the delete goes through; then both requests were sent
    and the whole cache is emptied.  Otherwise the caller gets an [Error]
    whose message starts with "Failed to delete learning path: " and the
    cache is as before.  In every case the table is as before: the schema
    defines no delete policy on [learning_paths], so the store answers the
    owner's delete without an error and removes nothing. *)
Theorem delete_is_reported_but_row_stays
  (faults : StoreFaults) (session : option string)
  (table : gmap string LearningPath)
  (cache : gmap string CacheEntry) (pathId userId : string) :
  let r := deletePath faults session table cache pathId userId in
  (outcome r = inr tt
   <-> select_fault faults = None /\ delete_fault faults = None
       /\ exists P, table !! pathId = Some P
                    /\ select_policy session P = true
                    /\ created_by P = userId)
  /\ (outcome r = inr tt ->
      cache_after r = ∅
      /\ issued r = [select_path_head pathId; delete_path pathId])
  /\ (outcome r <> inr tt ->
      (exists m, outcome r = inl (ErrorInstance (delete_context +:+ m)))
      /\ cache_after r = cache)
  /\ table_after r = table.
Proof.
  cbv zeta.
  split; [| split; [| split; [| apply DeleteFacts.deletePath_keeps_table]]];
    unfold deletePath, deletePath_try, store_select, store_delete;
    destruct (select_fault faults) as [fetchError |]; simpl;
    try destruct (table !! pathId) as [P |] eqn:EP; simpl;
    try destruct (select_policy session P) eqn:Esee; simpl;
    try destruct (String.eqb_spec (created_by P) userId) as [Hown | Hother];
    simpl;
    try destruct (delete_fault faults) as [deleteError |]; simpl.
  all: try (intros H; discriminate H).
  all: try (intros _; split; [eexists; reflexivity | reflexivity]).
  all: try (intros H; contradiction).
  all: try (intros _; split; reflexivity).
  all: split; try (intros H; discriminate H).
  all: try (intros (H & _); discriminate H).
  all: try (intros (_ & H & _); discriminate H).
  all: try (intros (_ & _ & Q & H & _); discriminate H).
  all: try (intros (_ & _ & Q & [= <-] & Hq & _); congruence).
  all: try (intros (_ & _ & Q & [= <-] & _ & Hq); contradiction).
  all: try reflexivity.
  intros _. split; [reflexivity |]. split; [reflexivity |].
  exists P. repeat split; assumption.
Qed.

Lemma delete_empties_cache
  (faults : StoreFaults) (session : option string)
  (table : gmap string LearningPath)
  (cache : gmap string CacheEntry) (pathId userId : string) :
  outcome (deletePath faults session table cache pathId userId) = inr tt ->
  cache_after (deletePath faults session table cache pathId userId) = ∅.
Proof.
  unfold deletePath, deletePath_try, store_select, store_delete.
  destruct (select_fault faults); simpl; [intros H; discriminate H |].
  destruct (table !! pathId) as [P |]; simpl; [| intros H; discriminate H].
  destruct (select_policy session P); simpl; [| intros H; discriminate H].
  destruct (String.eqb (created_by P) userId); simpl;
    [| intros H; discriminate H].
  destruct (delete_fault faults); simpl; [intros H; discriminate H |].
  reflexivity.
Qed.

(** X17.  After a delete or a create that went through, the cache holds
    nothing: the next read of any path view and of any progress view asks
    the store, at whatever time it comes. *)
Theorem mutation_forces_fresh_reads
  (faults : StoreFaults) (session : option string)
  (table : gmap string LearningPath)
  (cache : gmap string CacheEntry) (pathId userId : string)
  (reply : Outcome LearningPath) (pathData : PathData)
  (pathEnv : ReadEnv PathAndNodes) (progressEnv : ReadEnv (list UserProgress))
  (anyPath anyUser : string) :
  (outcome (deletePath faults session table cache pathId userId) = inr tt ->
   (fetchPathWithNodes pathEnv
      (cache_after (deletePath faults session table cache pathId userId))
      anyPath).2
   = [select_path_with_nodes anyPath]
   /\ (getUserProgress progressEnv
         (cache_after (deletePath faults session table cache pathId userId))
         anyUser anyPath).2
      = [select_user_progress anyUser anyPath])
  /\ (failure reply = None ->
      (fetchPathWithNodes pathEnv (createPath reply cache pathData).1.2
         anyPath).2
      = [select_path_with_nodes anyPath]
      /\ (getUserProgress progressEnv (createPath reply cache pathData).1.2
            anyUser anyPath).2
         = [select_user_progress anyUser anyPath]).
Proof.
  split.
  - intros Hok.
    rewrite (delete_empties_cache
               faults session table cache pathId userId Hok).
    split.
    + apply CacheFacts.fetchPathWithNodes_refetches.
      rewrite lookup_empty. reflexivity.
    + apply CacheFacts.getUserProgress_refetches.
      rewrite lookup_empty. reflexivity.
  - intros Hok. unfold createPath, failure in *.
    destruct reply as [r | e]; [| discriminate Hok].
    rewrite Hok. simpl. unfold clearAllCache. split.
    + apply CacheFacts.fetchPathWithNodes_refetches.
      rewrite lookup_empty. reflexivity.
    + apply CacheFacts.getUserProgress_refetches.
      rewrite lookup_empty. reflexivity.
Qed.

Lemma delete_is_issued_only_for_the_owner_witness :
  In (delete_path "p1")
     (issued (deletePath Samples.no_faults (Some "user-u")
                Samples.paths_table Samples.cache_at_1000 "p1" "user-u")).
Proof.
  apply (proj2 (delete_is_issued_only_for_the_owner Samples.no_faults
                  (Some "user-u") Samples.paths_table Samples.cache_at_1000
                  "p1" "user-u" "p1")).
  split; [reflexivity |]. split; [reflexivity |].
  exists Samples.chess_openings.
  split; [vm_compute; reflexivity | reflexivity].
Defined.

(** The owner, signed in, deletes "p1": the call returns without an
    error and the cache is emptied, and the table still holds "p1". *)
Lemma delete_is_reported_but_row_stays_witness :
  let r := deletePath Samples.no_faults (Some "user-u") Samples.paths_table
             Samples.cache_at_1000 "p1" "user-u" in
  outcome r = inr tt
  /\ cache_after r = ∅
  /\ table_after r !! "p1" = Some Samples.chess_openings.
Proof.
  destruct (delete_is_reported_but_row_stays Samples.no_faults
              (Some "user-u") Samples.paths_table Samples.cache_at_1000
              "p1" "user-u")
    as (Hiff & Hok & _ & Htable).
  assert (Hout : outcome (deletePath Samples.no_faults (Some "user-u")
                            Samples.paths_table Samples.cache_at_1000
                            "p1" "user-u") = inr tt).
  { apply Hiff. split; [reflexivity |]. split; [reflexivity |].
    exists Samples.chess_openings.
    split; [vm_compute; reflexivity |]. split; reflexivity. }
  destruct (Hok Hout) as (Hcache & _).
  split; [exact Hout |]. split; [exact Hcache |].
  rewrite Htable. vm_compute. reflexivity.
Defined.

Lemma mutation_forces_fresh_reads_witness :
  (fetchPathWithNodes (Samples.path_read_at 1001)
     (cache_after
        (deletePath Samples.no_faults (Some "user-u") Samples.paths_table
           Samples.cache_at_1000 "p1" "user-u")) "p1").2
  = [select_path_with_nodes "p1"].
Proof.
  destruct (mutation_forces_fresh_reads Samples.no_faults (Some "user-u")
              Samples.paths_table Samples.cache_at_1000 "p1" "user-u"
              (rejected (ErrorInstance "Failed to fetch"))
              {| new_title := "t"; new_description := "d";
                 new_topic := "design"; new_difficulty_level := "beginner";
                 new_estimated_duration := 1; new_created_by := "user-u";
                 new_is_public := true; new_total_nodes := 0;
                 new_completion_rate := 0; new_tags := None |}
              (Samples.path_read_at 1001) (Samples.progress_read_at 1001)
              "p1" "user-v")
    as (Hdelete & _).
  apply Hdelete. vm_compute. reflexivity.
Defined.

End DeleteMoreFacts.

Module CachedReadFacts.
Import Database.
Local Open Scope Z_scope.

Lemma insert_node_perm (x : NodeRow) (l : list NodeRow) :
  Permutation (insert_node x l) (x :: l).
Proof.
  induction l as [| y rest IH]; simpl; [reflexivity |].
  destruct (order_index (node_fields x) <=? order_index (node_fields y)).
  - reflexivity.
  - rewrite IH. apply perm_swap.
Qed.

Lemma sort_nodes_perm (l : list NodeRow) : Permutation (sort_nodes l) l.
Proof.
  induction l as [| x rest IH]; [reflexivity |].
  unfold sort_nodes in *. simpl.
  rewrite insert_node_perm. now apply perm_skip.
Qed.

Lemma insert_node_sorted (x : NodeRow) (l : list NodeRow) :
  StronglySorted in_order l -> StronglySorted in_order (insert_node x l).
Proof.
  induction 1 as [| y rest Hrest IH Hy]; simpl.
  - repeat constructor.
  - destruct (Z.leb_spec (order_index (node_fields x))
                (order_index (node_fields y))) as [Hle | Hgt].
    + constructor; [constructor; assumption |].
      constructor; [exact Hle |].
      rewrite List.Forall_forall in *. intros z Hz.
      specialize (Hy z Hz). unfold in_order in *. lia.
    + constructor; [exact IH |].
      rewrite List.Forall_forall in *. intros z Hz.
      apply (Permutation_in _ (insert_node_perm x rest)) in Hz.
      destruct Hz as [<- | Hz].
      * unfold in_order. lia.
      * apply Hy, Hz.
Qed.

Lemma sort_nodes_sorted (l : list NodeRow) :
  StronglySorted in_order (sort_nodes l).
Proof.
  induction l as [| x rest IH]; unfold sort_nodes in *; simpl.
  - constructor.
  - apply insert_node_sorted, IH.
Qed.

(** X18.  When [fetchPathWithNodes] has to ask the store and the store
    answers with a path and its nodes, the nodes it returns are the nodes
    of the store, every one of them and no other, in ascending order of
    their order index; the path row is returned as the store gave it. *)
Theorem fetched_nodes_are_sorted
  (env : ReadEnv PathAndNodes) (cache : gmap string CacheEntry)
  (pathId : string) (path : LearningPath) (stored : list NodeRow) :
  fresh (cache !! ("path-nodes-" +:+ pathId)) (now env) = None ->
  remote env
  = resolved {| data := Some {| path_row := path;
                                learning_nodes := Some stored |};
                error := None |} ->
  exists sorted,
    (fetchPathWithNodes env cache pathId).1.1
    = Some (path_nodes_data
              {| fetched := {| path_row := path;
                               learning_nodes := Some sorted |};
                 nodes := sorted |})
    /\ Permutation sorted stored
    /\ StronglySorted in_order sorted.
Proof.
  intros Hmiss Hreply. unfold fetchPathWithNodes.
  rewrite Hmiss, Hreply. simpl.
  exists (sort_nodes stored).
  split; [reflexivity |].
  split; [apply sort_nodes_perm | apply sort_nodes_sorted].
Qed.

(** X19.  What a cached read has fetched it serves again: after
    [fetchPathWithNodes] or [getUserProgress] has asked the store and the
    store has answered, a second read of the same view less than five
    minutes after the entry was written returns the same payload without
    asking the store, and leaves the cache as it is. *)
Theorem fetched_views_are_served_again
  (pathEnv pathEnv' : ReadEnv PathAndNodes)
  (progressEnv progressEnv' : ReadEnv (list UserProgress))
  (cache : gmap string CacheEntry) (pathId userId : string) :
  let first := fetchPathWithNodes pathEnv cache pathId in
  let firstProgress := getUserProgress progressEnv cache userId pathId in
  (forall payload,
     first.2 <> [] -> first.1.1 = Some payload ->
     now pathEnv' - now_at_write pathEnv < CACHE_DURATION ->
     fetchPathWithNodes pathEnv' first.1.2 pathId
     = (Some payload, first.1.2, []))
  /\ (firstProgress.2 <> [] -> failure (remote progressEnv) = None ->
      now progressEnv' - now_at_write progressEnv < CACHE_DURATION ->
      getUserProgress progressEnv' firstProgress.1.2 userId pathId
      = (firstProgress.1.1, firstProgress.1.2, [])).
Proof.
  cbv zeta. split.
  - intros payload Hlog Hres Hage.
    assert (Hfirst :
      (fetchPathWithNodes pathEnv cache pathId).1.2
      = <["path-nodes-" +:+ pathId :=
            {| entry_data := payload;
               timestamp := now_at_write pathEnv |}]> cache).
    { revert Hlog Hres. unfold fetchPathWithNodes.
      destruct (fresh (cache !! ("path-nodes-" +:+ pathId)) (now pathEnv));
        simpl; [intros H; contradiction |].
      destruct (remote pathEnv) as [r | e]; simpl;
        [| intros _ H; discriminate H].
      destruct (error r), (data r); simpl; try (intros _ H; discriminate H).
      intros _ [= <-]. reflexivity. }
    rewrite Hfirst. unfold fetchPathWithNodes.
    rewrite lookup_insert_eq, CacheFacts.fresh_within by exact Hage.
    reflexivity.
  - intros Hlog Hok Hage.
    assert (Hfirst :
      (getUserProgress progressEnv cache userId pathId).1.2
      = <["progress-" +:+ userId +:+ "-" +:+ pathId :=
            {| entry_data :=
                 (getUserProgress progressEnv cache userId pathId).1.1;
               timestamp := now_at_write progressEnv |}]> cache).
    { revert Hlog Hok. unfold getUserProgress, failure.
      destruct (fresh (cache !! ("progress-" +:+ userId +:+ "-" +:+ pathId))
                  (now progressEnv));
        simpl; [intros H; contradiction |].
      destruct (remote progressEnv) as [r | e]; simpl;
        [| intros _ H; discriminate H].
      destruct (error r); simpl; [intros _ H; discriminate H |].
      reflexivity. }
    rewrite Hfirst. unfold getUserProgress at 1.
    rewrite lookup_insert_eq, CacheFacts.fresh_within by exact Hage.
    reflexivity.
Qed.

(** The store hands out the nodes of "p1" in the order 3, 1, 2; the
    view carries them in the order 1, 2, 3. *)
Lemma fetched_nodes_are_sorted_witness :
  exists sorted,
    (fetchPathWithNodes Samples.shuffled_nodes_read ∅ "p1").1.1
    = Some (path_nodes_data
              {| fetched := {| path_row := Samples.chess_openings;
                               learning_nodes := Some sorted |};
                 nodes := sorted |})
    /\ Permutation sorted Samples.shuffled_nodes
    /\ StronglySorted in_order sorted
    /\ List.map node_id Samples.shuffled_nodes = ["n3"; "n1"; "n2"]
    /\ List.map node_id sorted = ["n1"; "n2"; "n3"].
Proof.
  destruct (fetched_nodes_are_sorted Samples.shuffled_nodes_read ∅ "p1"
              Samples.chess_openings Samples.shuffled_nodes
              (EvictionFacts.missing_is_not_fresh _ _ _ (lookup_empty _))
              eq_refl)
    as (sorted & Hres & Hperm & Hsorted).
  exists sorted.
  split; [exact Hres |]. split; [exact Hperm |]. split; [exact Hsorted |].
  split; [reflexivity |].
  pose (ids := fun v : option CacheData =>
                 match v with
                 | Some (path_nodes_data p) => List.map node_id (nodes p)
                 | _ => []
                 end).
  change (ids (Some (path_nodes_data
                       {| fetched := {| path_row := Samples.chess_openings;
                                        learning_nodes := Some sorted |};
                          nodes := sorted |}))
          = ["n1"; "n2"; "n3"]).
  rewrite <- Hres. vm_compute. reflexivity.
Defined.

Lemma fetched_views_are_served_again_witness :
  let first := fetchPathWithNodes (Samples.path_read_at 301000)
                 Samples.cache_at_1000 "p1" in
  fetchPathWithNodes (Samples.path_read_at 600999) first.1.2 "p1"
  = (first.1.1, first.1.2, []).
Proof.
  cbv zeta.
  destruct (fetchPathWithNodes (Samples.path_read_at 301000)
              Samples.cache_at_1000 "p1").1.1 as [payload |] eqn:E;
    [| vm_compute in E; discriminate E].
  apply (proj1 (fetched_views_are_served_again
                  (Samples.path_read_at 301000) (Samples.path_read_at 600999)
                  (Samples.progress_read_at 301000)
                  (Samples.progress_read_at 600999)
                  Samples.cache_at_1000 "p1" "user-v") payload).
  - vm_compute. intros H. discriminate H.
  - exact E.
  - vm_compute. reflexivity.
Defined.

End CachedReadFacts.

(* ===================================================================== *)
(** ** Properties of saving a generated path *)
(* ===================================================================== *)

Module SaveFacts.
Import PathGenerator.

Lemma imap_ext_lookup {A B : Type} (f g : nat -> A -> B) (l : list A) :
  (forall i x, l !! i = Some x -> f i x = g i x) -> imap f l = imap g l.
Proof.
  revert f g. induction l as [| x l IH]; intros f g H; simpl; [reflexivity |].
  f_equal.
  - apply (H 0%nat x). reflexivity.
  - apply IH. intros i y Hy. apply (H (S i) y). exact Hy.
Qed.

Lemma imap_const_map {A B : Type} (f : A -> B) (l : list A) :
  imap (fun _ x => f x) l = List.map f l.
Proof.
  induction l as [| x l IH]; simpl; [reflexivity |].
  f_equal. exact IH.
Qed.

Lemma with_own_order_index (node : LearningNode) :
  with_order_index node (order_index node) = node.
Proof. destruct node; reflexivity. Qed.

Lemma one_to_lookup (n i : nat) (z : Z) :
  one_to n !! i = Some z -> z = (Z.of_nat i + 1)%Z.
Proof.
  unfold one_to. rewrite list_lookup_fmap.
  destruct (seq 1 n !! i) as [k |] eqn:E; simpl; [| discriminate].
  intros [= <-]. apply lookup_seq in E. lia.
Qed.

(** Nodes whose order indices are 1, 2, ..., n are sent as they are. *)
Lemma well_indexed_rows (pathId : string) (nodes : list LearningNode) :
  List.map order_index nodes = one_to (List.length nodes) ->
  List.map Database.insert_fields (nodesWithPathId pathId nodes) = nodes.
Proof.
  intros Hidx. unfold nodesWithPathId.
  rewrite (imap_ext_lookup _
             (fun _ node => {| Database.insert_path_id := pathId;
                               Database.insert_fields := node |})).
  - rewrite imap_const_map, List.map_map. simpl. apply List.map_id.
  - intros i node Hnode. f_equal.
    assert (Hz : order_index node = (Z.of_nat i + 1)%Z).
    { apply (one_to_lookup (List.length nodes) i).
      rewrite <- Hidx.
      change (List.map order_index nodes) with (order_index <$> nodes).
      rewrite list_lookup_fmap, Hnode. reflexivity. }
    unfold order_index_or.
    destruct (Z.eqb_spec (order_index node) 0) as [H0 | _]; [lia |].
    apply with_own_order_index.
Qed.

Lemma rows_tagged (pathId : string) (nodes : list LearningNode) :
  Forall (fun row => Database.insert_path_id row = pathId)
    (nodesWithPathId pathId nodes).
Proof.
  unfold nodesWithPathId. apply Forall_lookup. intros i row Hrow.
  rewrite list_lookup_imap in Hrow.
  destruct (nodes !! i); simpl in Hrow; [| discriminate Hrow].
  injection Hrow as <-. reflexivity.
Qed.

(** X20.  Saving what [generatePath] produced never stops at the
    validation: the header insert is always sent, with the owner, public
    visibility, a completion rate of 0 and a node count that is the
    positive number of generated nodes.  When all three store requests go
    through, the nodes are sent with their order indices 1, 2, ..., n
    untouched, each tagged with the id of the new path row, the node count
    is stated again, the cache of the database manager is emptied and the
    new row is returned. *)
Theorem generated_path_is_saved_whole
  (env : SaveEnv) (cache : gmap string Database.CacheEntry)
  (request : GeneratePathRequest) (userId : string) :
  let generated := generatePath request in
  let r := saveGeneratedPath env cache generated userId in
  (exists more,
      r.2 = insert_header (header_of_structure generated userId) :: more
      /\ (0 < header_total_nodes (header_of_structure generated userId))%nat
      /\ header_created_by (header_of_structure generated userId) = userId)
  /\ (forall row,
        header_reply env = resolved {| data := Some row; error := None |} ->
        failure (nodes_reply env) = None ->
        (forall e, total_reply env <> rejected e) ->
        exists rows,
          r = (inr row, ∅,
               [insert_header (header_of_structure generated userId);
                insert_path_nodes rows;
                restate_total_nodes (id row)
                  (List.length (gen_nodes generated))])
          /\ List.map Database.insert_fields rows = gen_nodes generated
          /\ Forall (fun x => Database.insert_path_id x = id row) rows).
Proof.
  cbv zeta.
  destruct (PathFacts.generatePath_well_indexed request) as [Hne Hidx].
  set (generated := generatePath request) in *.
  assert (Hlen : (List.length (gen_nodes generated) =? 0)%nat = false).
  { apply Nat.eqb_neq. destruct (gen_nodes generated); [contradiction |].
    simpl. lia. }
  split.
  - unfold saveGeneratedPath, saveGeneratedPath_try. rewrite Hlen.
    split_and?.
    destruct (header_reply env) as [h | e];
      [destruct (error h), (data h) |]; simpl.
    all: try (eexists; split; [reflexivity |];
              split; [simpl; apply Nat.eqb_neq in Hlen; lia | reflexivity]).
    destruct (nodes_reply env) as [n | e]; [destruct (error n) |]; simpl.
    all: try (eexists; split; [reflexivity |];
              split; [simpl; apply Nat.eqb_neq in Hlen; lia | reflexivity]).
    destruct (total_reply env); simpl;
      (eexists; split; [reflexivity |];
       split; [simpl; apply Nat.eqb_neq in Hlen; lia | reflexivity]).
  - intros row Hheader Hnodes Htotal.
    exists (nodesWithPathId (id row) (gen_nodes generated)).
    split; [| split; [apply well_indexed_rows, Hidx | apply rows_tagged]].
    unfold saveGeneratedPath, saveGeneratedPath_try.
    rewrite Hlen, Hheader. simpl.
    unfold failure in Hnodes.
    destruct (nodes_reply env) as [n | e]; [| discriminate Hnodes].
    rewrite Hnodes.
    destruct (total_reply env) as [t | e]; [reflexivity |].
    exfalso. exact (Htotal e eq_refl).
Qed.

Lemma generated_path_is_saved_whole_witness :
  exists rows,
    saveGeneratedPath Samples.save_env_ok Samples.cache_at_1000
      (generatePath Samples.weaving_request) "user-u"
    = (inr Samples.saved_row, ∅,
       [insert_header
          (header_of_structure (generatePath Samples.weaving_request)
             "user-u");
        insert_path_nodes rows;
        restate_total_nodes "p9" 4])
    /\ List.map Database.insert_fields rows
       = gen_nodes (generatePath Samples.weaving_request).
Proof.
  destruct (proj2 (generated_path_is_saved_whole
                     Samples.save_env_ok Samples.cache_at_1000
                     Samples.weaving_request "user-u")
              Samples.saved_row eq_refl eq_refl
              ltac:(intros e H; discriminate H))
    as (rows & Hres & Hfields & _).
  exists rows. split; [exact Hres | exact Hfields].
Defined.

(** X21.  Saving is not transactional.  A path without nodes is refused
    before anything is sent.  When the header insert fails nothing else is
    sent.  When the header insert goes through and the node insert fails,
    the header has been inserted and stays: no further request is sent.
    In each of these cases the caller gets an [Error] whose message is
    "Failed to save learning path: " followed by the message of what went
    wrong, and the cache is left as it was. *)
Theorem failed_save_leaves_header_behind
  (env : SaveEnv) (cache : gmap string Database.CacheEntry)
  (pathStructure : GeneratedPathStructure) (userId : string) :
  let r := saveGeneratedPath env cache pathStructure userId in
  let header := header_of_structure pathStructure userId in
  (gen_nodes pathStructure = [] ->
   r = (inl (ErrorInstance
               (save_context +:+ "Cannot create path without learning modules")),
        cache, []))
  /\ (forall e,
        gen_nodes pathStructure <> [] ->
        failure (header_reply env) = Some e ->
        r = (inl (ErrorInstance (save_context +:+ message_of e)), cache,
             [insert_header header]))
  /\ (forall row e,
        gen_nodes pathStructure <> [] ->
        header_reply env = resolved {| data := Some row; error := None |} ->
        failure (nodes_reply env) = Some e ->
        r = (inl (ErrorInstance (save_context +:+ message_of e)), cache,
             [insert_header header;
              insert_path_nodes
                (nodesWithPathId (id row) (gen_nodes pathStructure))])).
Proof.
  cbv zeta. unfold saveGeneratedPath, saveGeneratedPath_try, failure.
  split; [| split].
  - intros ->. reflexivity.
  - intros e Hne Hfail.
    destruct (gen_nodes pathStructure) as [| n rest] eqn:E; [contradiction |].
    simpl.
    destruct (header_reply env) as [h | e']; simpl.
    + rewrite Hfail. reflexivity.
    + injection Hfail as ->. reflexivity.
  - intros row e Hne Hheader Hfail.
    destruct (gen_nodes pathStructure) as [| n rest] eqn:E; [contradiction |].
    simpl. rewrite Hheader. simpl.
    destruct (nodes_reply env) as [nr | e']; simpl.
    + rewrite Hfail. reflexivity.
    + injection Hfail as ->. reflexivity.
Qed.

Lemma failed_save_leaves_header_behind_witness :
  saveGeneratedPath Samples.save_env_nodes_fail Samples.cache_at_1000
    (generatePath Samples.weaving_request) "user-u"
  = (inl (ErrorInstance
            "Failed to save learning path: violates check constraint"),
     Samples.cache_at_1000,
     [insert_header
        (header_of_structure (generatePath Samples.weaving_request) "user-u");
      insert_path_nodes
        (nodesWithPathId "p9"
           (gen_nodes (generatePath Samples.weaving_request)))]).
Proof.
  apply (proj2 (proj2 (failed_save_leaves_header_behind
                         Samples.save_env_nodes_fail Samples.cache_at_1000
                         (generatePath Samples.weaving_request) "user-u"))
           Samples.saved_row (PlainObject "violates check constraint")).
  - vm_compute. intros H. discriminate H.
  - reflexivity.
  - reflexivity.
Defined.

Lemma one_to_at (n i : nat) :
  (i < n)%nat -> one_to n !! i = Some (Z.of_nat i + 1)%Z.
Proof.
  intros Hi. unfold one_to. rewrite list_lookup_fmap.
  rewrite (lookup_seq_lt 1 n i Hi). simpl. f_equal. lia.
Qed.

Lemma order_index_or_nonzero (node : LearningNode) (index : nat) :
  order_index_or node index <> 0%Z.
Proof.
  unfold order_index_or.
  destruct (Z.eqb_spec (order_index node) 0); [lia | assumption].
Qed.

(** Nodes without order index are numbered 1, 2, ..., n. *)
Lemma unindexed_rows (pathId : string) (nodes : list LearningNode) :
  Forall (fun n => order_index n = 0%Z) nodes ->
  List.map (fun x => order_index (Database.insert_fields x))
    (nodesWithPathId pathId nodes)
  = one_to (List.length (nodesWithPathId pathId nodes)).
Proof.
  intros Hzero. unfold nodesWithPathId. rewrite length_imap.
  apply list_eq. intros i.
  change (List.map (fun x => order_index (Database.insert_fields x)))
    with (fmap (M := list)
            (fun x => order_index (Database.insert_fields x))).
  rewrite list_lookup_fmap, list_lookup_imap.
  destruct (nodes !! i) as [node |] eqn:E; simpl.
  - rewrite (one_to_at _ i (lookup_lt_Some _ _ _ E)).
    rewrite Forall_lookup in Hzero.
    unfold order_index_or. rewrite (Hzero i node E). reflexivity.
  - symmetry. unfold one_to. rewrite list_lookup_fmap.
    apply lookup_ge_None in E.
    rewrite (proj2 (lookup_ge_None (seq 1 (List.length nodes)) i));
      [reflexivity |].
    rewrite length_seq. exact E.
Qed.

(** Nodes that all carry an order index are sent as they are. *)
Lemma indexed_rows (pathId : string) (nodes : list LearningNode) :
  Forall (fun n => order_index n <> 0%Z) nodes ->
  List.map Database.insert_fields (nodesWithPathId pathId nodes) = nodes.
Proof.
  intros Hset. unfold nodesWithPathId.
  rewrite (imap_ext_lookup _
             (fun _ node => {| Database.insert_path_id := pathId;
                               Database.insert_fields := node |})).
  - rewrite imap_const_map, List.map_map. simpl. apply List.map_id.
  - intros i node Hnode. f_equal.
    rewrite Forall_lookup in Hset. specialize (Hset i node Hnode).
    unfold order_index_or.
    destruct (Z.eqb_spec (order_index node) 0) as [H0 | _];
      [contradiction |].
    apply with_own_order_index.
Qed.

Lemma rows_never_unindexed (pathId : string) (nodes : list LearningNode) :
  Forall (fun x => order_index (Database.insert_fields x) <> 0%Z)
    (nodesWithPathId pathId nodes).
Proof.
  unfold nodesWithPathId. apply Forall_lookup. intros i row Hrow.
  rewrite list_lookup_imap in Hrow.
  destruct (nodes !! i); simpl in Hrow; [| discriminate Hrow].
  injection Hrow as <-. simpl. apply order_index_or_nonzero.
Qed.

(** X22.  Whatever path structure [saveGeneratedPath] is given, once the
    header insert has returned a row its second request inserts one row
    per node, each tagged with the id of that row, and no row goes out
    with order index 0.  A structure whose nodes all lack an order index
    (it is 0) is saved with the indices 1, 2, ..., n; a structure whose
    nodes all carry one is saved with its nodes as they are. *)
Theorem saved_rows_repair_missing_order_index
  (env : SaveEnv) (cache : gmap string Database.CacheEntry)
  (pathStructure : GeneratedPathStructure) (userId : string)
  (row : LearningPath) :
  gen_nodes pathStructure <> [] ->
  header_reply env = resolved {| data := Some row; error := None |} ->
  exists rows more,
    (saveGeneratedPath env cache pathStructure userId).2
    = insert_header (header_of_structure pathStructure userId)
      :: insert_path_nodes rows :: more
    /\ List.length rows = List.length (gen_nodes pathStructure)
    /\ Forall (fun x => Database.insert_path_id x = id row) rows
    /\ Forall (fun x => order_index (Database.insert_fields x) <> 0%Z) rows
    /\ (Forall (fun n => order_index n = 0%Z) (gen_nodes pathStructure) ->
        List.map (fun x => order_index (Database.insert_fields x)) rows
        = one_to (List.length rows))
    /\ (Forall (fun n => order_index n <> 0%Z) (gen_nodes pathStructure) ->
        List.map Database.insert_fields rows = gen_nodes pathStructure).
Proof.
  intros Hne Hheader.
  exists (nodesWithPathId (id row) (gen_nodes pathStructure)).
  assert (Hlog : exists more,
             (saveGeneratedPath env cache pathStructure userId).2
             = insert_header (header_of_structure pathStructure userId)
               :: insert_path_nodes
                    (nodesWithPathId (id row) (gen_nodes pathStructure))
               :: more).
  { unfold saveGeneratedPath, saveGeneratedPath_try.
    destruct (gen_nodes pathStructure) as [| n rest] eqn:E; [contradiction |].
    simpl. rewrite Hheader. simpl.
    destruct (nodes_reply env) as [nr | e]; [destruct (error nr) |]; simpl;
      try (eexists; reflexivity).
    destruct (total_reply env); simpl; eexists; reflexivity. }
  destruct Hlog as [more Hlog]. exists more.
  split; [exact Hlog |].
  split; [unfold nodesWithPathId; apply length_imap |].
  split; [apply rows_tagged |].
  split; [apply rows_never_unindexed |].
  split; [apply unindexed_rows | apply indexed_rows].
Qed.

(** The custom path for "underwater basket weaving" with the order index
    of every node reset to 0 is saved with the indices 1, 2, 3, 4. *)
Lemma saved_rows_repair_missing_order_index_witness :
  exists rows more,
    (saveGeneratedPath Samples.save_env_ok Samples.cache_at_1000
       Samples.weaving_unindexed "user-u").2
    = insert_header (header_of_structure Samples.weaving_unindexed "user-u")
      :: insert_path_nodes rows :: more
    /\ List.map order_index (gen_nodes Samples.weaving_unindexed)
       = [0; 0; 0; 0]%Z
    /\ List.map (fun x => order_index (Database.insert_fields x)) rows
       = [1; 2; 3; 4]%Z.
Proof.
  destruct (saved_rows_repair_missing_order_index
              Samples.save_env_ok Samples.cache_at_1000
              Samples.weaving_unindexed "user-u" Samples.saved_row
              ltac:(vm_compute; intros H; discriminate H) eq_refl)
    as (rows & more & Hlog & Hlen & _ & _ & Hzero & _).
  exists rows, more.
  split; [exact Hlog |]. split; [reflexivity |].
  rewrite Hzero, Hlen.
  - reflexivity.
  - vm_compute. repeat constructor.
Defined.

End SaveFacts.

(* ===================================================================== *)
(** ** Further properties of the generated paths *)
(* ===================================================================== *)

Module PathMoreFacts.
Import PathGenerator.

Lemma direct_match_found (lowerQuery : string)
  (db : list (string * TopicStructure)) (d : Detection) :
  direct_match lowerQuery db = Some d ->
  detectedTopic d <> None /\ detection_confidence d = (9 # 10)%Q.
Proof.
  induction db as [| [key topic] rest IH]; simpl; [discriminate |].
  destruct (Js.includes lowerQuery key); [| exact IH].
  intros [= <-]. split; [discriminate | reflexivity].
Qed.

Lemma keyword_hit_found (lowerQuery key : string) (kws : list string)
  (d : Detection) :
  keyword_hit lowerQuery key kws = Some d ->
  detectedTopic d <> None /\ detection_confidence d = (8 # 10)%Q.
Proof.
  induction kws as [| keyword rest IH]; cbn [keyword_hit]; [discriminate |].
  destruct (Js.includes lowerQuery keyword); [| exact IH].
  destruct (get_topic key topicDatabase); [| exact IH].
  intros [= <-]. split; [discriminate | reflexivity].
Qed.

Lemma keyword_match_found (lowerQuery : string)
  (km : list (string * list string)) (d : Detection) :
  keyword_match lowerQuery km = Some d ->
  detectedTopic d <> None /\ detection_confidence d = (8 # 10)%Q.
Proof.
  induction km as [| [key kws] rest IH]; simpl; [discriminate |].
  destruct (keyword_hit lowerQuery key kws) as [d' |] eqn:E; [| exact IH].
  intros [= <-]. exact (keyword_hit_found _ _ _ _ E).
Qed.

(** A detection either names a template, with a confidence of 0.8 or 0.9,
    or names none, under the category "general". *)
Lemma detectTopic_cases (query : string) :
  (detectedTopic (detectTopic query) <> None
   /\ (7 # 10 < detection_confidence (detectTopic query))%Q)
  \/ (detectedTopic (detectTopic query) = None
      /\ topicKey (detectTopic query) = None
      /\ detection_category (detectTopic query) = "general").
Proof.
  unfold detectTopic.
  destruct (direct_match _ topicDatabase) as [d |] eqn:E1.
  - left. destruct (direct_match_found _ _ _ E1) as [H1 ->].
    split; [exact H1 | reflexivity].
  - destruct (keyword_match _ keywordMap) as [d |] eqn:E2.
    + left. destruct (keyword_match_found _ _ _ E2) as [H1 ->].
      split; [exact H1 | reflexivity].
    + right. repeat split.
Qed.

(** The shape of what [generatePath] returns. *)
Lemma generatePath_shape (request : GeneratePathRequest) :
  let detection := detectTopic (query request) in
  generatePath_try request = inr (generatePath request)
  /\ gen_difficulty_level (generatePath request)
     = difficulty_name (request_difficulty_or_beginner request)
  /\ match detectedTopic detection, topicKey detection with
     | Some topic, Some key =>
         In (key, topic) topicDatabase
         /\ generatePath request = generateStructuredPath topic key request
     | None, None =>
         generatePath request = generateCustomPath request "general"
     | _, _ => False
     end.
Proof.
  cbv zeta. unfold generatePath, generatePath_try.
  pose proof (PathFacts.detectTopic_sound (query request)) as Hsound.
  destruct (detectTopic_cases (query request))
    as [[Hsome Hconf] | (Hnone & Hkey & Hcat)].
  - destruct (detectedTopic (detectTopic (query request))) as [topic |] eqn:E;
      [| contradiction].
    destruct (Hsound topic E) as (key & Hk & Hin).
    rewrite Hk.
    destruct (Qlt_le_dec _ _) as [_ | Hle];
      [| exfalso; exact (Qlt_not_le _ _ Hconf Hle)].
    split; [reflexivity |]. split; [| split; [exact Hin | reflexivity]].
    unfold generateStructuredPath.
    destruct (fold_left _ _ _). reflexivity.
  - rewrite Hnone, Hkey, Hcat.
    split; [reflexivity |]. split; reflexivity.
Qed.

(** X23.  [generatePath] never reaches its fallback.  When a template is
    detected, the path is the structured path of that template, which is
    an entry of the topic database under the detected key; the confidence
    threshold never turns a detected template down.  When none is
    detected, the path is the custom path under the category "general".
    In both cases the path has the requested difficulty, "beginner" when
    none was requested. *)
Theorem generatePath_is_structured_or_custom (request : GeneratePathRequest) :
  let detection := detectTopic (query request) in
  generatePath_try request = inr (generatePath request)
  /\ gen_difficulty_level (generatePath request)
     = difficulty_name (request_difficulty_or_beginner request)
  /\ match detectedTopic detection, topicKey detection with
     | Some topic, Some key =>
         In (key, topic) topicDatabase
         /\ generatePath request = generateStructuredPath topic key request
     | None, None =>
         generatePath request = generateCustomPath request "general"
     | _, _ => False
     end.
Proof. apply generatePath_shape. Qed.

Lemma module_step_count (d : Q) (st : list LearningNode * Z) (m : TopicModule) :
  List.length (module_step d st m).1
  = (List.length st.1 + module_node_count m)%nat.
Proof.
  unfold module_step, module_node_count.
  pose proof (PathFacts.resources_length (resources m) st) as H1.
  destruct (0 <? List.length (exercises m))%nat;
    destruct (0 <? List.length (assessments m))%nat;
    rewrite ?PathFacts.push_next_length; lia.
Qed.

Lemma modules_count (d : Q) (ms : list TopicModule)
  (st : list LearningNode * Z) :
  List.length (fold_left (module_step d) ms st).1
  = (List.length st.1 + list_sum (List.map module_node_count ms))%nat.
Proof.
  revert st. induction ms as [| m ms IH]; intros st; simpl.
  - lia.
  - rewrite IH, module_step_count. lia.
Qed.

(** X24.  A structured path has, for every selected module, one node per
    curated resource, one practice node when the module has exercises and
    one assessment node when it has assessments, and nothing else. *)
Theorem structured_path_node_count
  (topic : TopicStructure) (key : string) (request : GeneratePathRequest) :
  List.length (gen_nodes (generateStructuredPath topic key request))
  = list_sum
      (List.map module_node_count
         (selectModulesByDifficulty (modules topic)
            (request_difficulty_or_beginner request))).
Proof.
  destruct (PathFacts.structured_nodes topic key request) as [d ->].
  rewrite modules_count. reflexivity.
Qed.

(** X25.  The custom path gives each of its four nodes the same duration,
    the requested duration divided by four and rounded up (20 stands in
    for a missing or zero request); the durations add up to at least the
    requested duration and to less than four more. *)
Theorem custom_path_spreads_duration
  (request : GeneratePathRequest) (category : string) :
  let path := generateCustomPath request category in
  let d := gen_estimated_duration path in
  d = Js.number_or (request_duration request) 20
  /\ Forall (fun n => node_estimated_duration n = Js.ceil (d / 4))
       (gen_nodes path)
  /\ (total_duration (gen_nodes path) == 4 * Js.ceil (d / 4))%Q
  /\ (d <= total_duration (gen_nodes path))%Q
  /\ (total_duration (gen_nodes path) < d + 4)%Q.
Proof.
  cbv zeta. unfold generateCustomPath. simpl.
  set (d := Js.number_or (request_duration request) 20).
  assert (Hsum : (total_duration
                    (imap
                       (fun index module =>
                          {| node_title := custom_title module;
                             content_type := custom_type module;
                             resource_url := custom_url module;
                             node_estimated_duration :=
                               Js.ceil (d / inject_Z (Z.of_nat 4));
                             order_index := (Z.of_nat index + 1)%Z;
                             prerequisites := [];
                             is_required := true |})
                       (generateCustomModulesWithResources
                          (extractMainTopic (query request))
                          (request_difficulty_or_beginner request)))
                  == 4 * Js.ceil (d / 4))%Q).
  { unfold total_duration, generateCustomModulesWithResources.
    set (c := Js.ceil (d / inject_Z (Z.of_nat 4))).
    cbn [imap List.map fold_right node_estimated_duration compose].
    change (inject_Z (Z.of_nat 4)) with 4%Q in c. subst c. ring. }
  split; [reflexivity |].
  split; [repeat constructor |].
  split; [exact Hsum |].
  rewrite Hsum. unfold Js.ceil.
  pose proof (Qle_ceiling (d / 4)) as Hup.
  pose proof (Qceiling_lt (d / 4)) as Hdown.
  unfold Z.sub in Hdown. rewrite inject_Z_plus in Hdown.
  change (inject_Z (- (1))) with (- (1))%Q in Hdown.
  split.
  - apply Qle_trans with (4 * (d / 4))%Q.
    + apply Qle_lteq. right. field.
    + apply Qmult_le_l; [reflexivity | exact Hup].
  - apply Qlt_le_trans with (4 * (d / 4 + 1))%Q.
    + apply Qmult_lt_l; [reflexivity |].
      apply (proj1 (Qplus_lt_l _ _ (- (1))%Q)).
      apply Qlt_le_trans with (d / 4)%Q; [exact Hdown |].
      apply Qle_lteq. right. ring.
    + apply Qle_lteq. right. field.
Qed.

Lemma add_query_words_ok (query : string) (tags : list string) :
  List.NoDup tags -> List.NoDup (add_query_words query tags).
Proof.
  intros Htags. unfold add_query_words.
  apply SuggestionFacts.fold_set_add; [| | exact Htags].
  - intros acc word Hacc.
    destruct ((3 <? String.length word)%nat && _);
      [apply SuggestionFacts.set_add_NoDup |]; assumption.
  - intros acc word.
    destruct ((3 <? String.length word)%nat && _).
    + apply SuggestionFacts.set_add_extends.
    + exists []. now rewrite List.app_nil_r.
Qed.

Lemma set_of_NoDup (items : list string) :
  List.NoDup (fold_left (fun acc t => Js.set_add t acc) items []).
Proof.
  apply SuggestionFacts.fold_set_add.
  - intros acc a. apply SuggestionFacts.set_add_NoDup.
  - intros acc a. apply SuggestionFacts.set_add_extends.
  - constructor.
Qed.

(** X26.  The tags of every generated path are at most eight and
    pairwise different. *)
Theorem generated_tags_are_few_and_distinct (request : GeneratePathRequest) :
  (List.length (gen_tags (generatePath request)) <= 8)%nat
  /\ List.NoDup (gen_tags (generatePath request)).
Proof.
  destruct (generatePath_shape request) as (_ & _ & Hshape).
  destruct (detectedTopic (detectTopic (query request))) as [topic |],
    (topicKey (detectTopic (query request))) as [key |];
    try contradiction.
  - destruct Hshape as [_ ->].
    assert (Htags : gen_tags (generateStructuredPath topic key request)
                    = generateTags key topic (query request)).
    { unfold generateStructuredPath. destruct (fold_left _ _ _). reflexivity. }
    rewrite Htags. unfold generateTags.
    split; [apply firstn_le_length |].
    apply SuggestionFacts.NoDup_firstn, add_query_words_ok, set_of_NoDup.
  - rewrite Hshape. unfold generateCustomPath. cbn [gen_tags].
    unfold generateCustomTags.
    split; [apply firstn_le_length |].
    apply SuggestionFacts.NoDup_firstn, add_query_words_ok, set_of_NoDup.
Qed.

Lemma mapCategoryToTopic_range (category : string) :
  In (mapCategoryToTopic category)
     ["design"; "business"; "web-development"; "data-science"].
Proof.
  unfold mapCategoryToTopic. cbn [List.find fst].
  repeat match goal with
         | |- context [String.eqb ?a category] =>
             destruct (String.eqb a category)
         end; simpl; auto 10.
Qed.

(** X27.  The topic of every generated path is one of "design",
    "business", "web-development" and "data-science", whatever the
    category of the detected template; so is the topic of the fallback
    path. *)
Theorem generated_topic_is_in_taxonomy (request : GeneratePathRequest) :
  In (gen_topic (generatePath request))
     ["design"; "business"; "web-development"; "data-science"]
  /\ In (gen_topic (generateFallbackPath request))
        ["design"; "business"; "web-development"; "data-science"].
Proof.
  split; [| simpl; auto].
  destruct (generatePath_shape request) as (_ & _ & Hshape).
  destruct (detectedTopic (detectTopic (query request))) as [topic |],
    (topicKey (detectTopic (query request))) as [key |];
    try contradiction.
  - destruct Hshape as [_ ->].
    assert (Htopic : gen_topic (generateStructuredPath topic key request)
                     = mapCategoryToTopic (category topic)).
    { unfold generateStructuredPath. destruct (fold_left _ _ _). reflexivity. }
    rewrite Htopic. apply mapCategoryToTopic_range.
  - rewrite Hshape. apply mapCategoryToTopic_range.
Qed.

(** X28.  The modules selected for a difficulty are the first modules of
    the template: at most three for a beginner, at most five for an
    intermediate learner, all of them for an advanced one; a harder
    selection starts with the easier one. *)
Theorem harder_selection_extends_easier (modules : list TopicModule) :
  let easy := selectModulesByDifficulty modules beginner in
  let medium := selectModulesByDifficulty modules intermediate in
  List.length easy = Nat.min 3 (List.length modules)
  /\ List.length medium = Nat.min 5 (List.length modules)
  /\ selectModulesByDifficulty modules advanced = modules
  /\ (exists more, medium = easy ++ more)
  /\ (exists more, modules = medium ++ more).
Proof.
  cbv zeta. unfold selectModulesByDifficulty.
  assert (H3 : firstn (Nat.min 3 (List.length modules)) modules
               = firstn 3 modules).
  { destruct (Nat.le_ge_cases 3 (List.length modules)) as [H | H].
    - now rewrite Nat.min_l.
    - rewrite Nat.min_r, !firstn_all2 by lia. reflexivity. }
  assert (H5 : firstn (Nat.min 5 (List.length modules)) modules
               = firstn 5 modules).
  { destruct (Nat.le_ge_cases 5 (List.length modules)) as [H | H].
    - now rewrite Nat.min_l.
    - rewrite Nat.min_r, !firstn_all2 by lia. reflexivity. }
  rewrite H3, H5.
  split; [apply length_firstn |]. split; [apply length_firstn |].
  split; [reflexivity |]. split.
  - exists (skipn 3 (firstn 5 modules)).
    rewrite <- (firstn_skipn 3 (firstn 5 modules)) at 1.
    rewrite firstn_firstn. reflexivity.
  - exists (skipn 5 modules). symmetry. apply firstn_skipn.
Qed.

Lemma replace_ws_no_space (skipping : bool) (s : string) :
  Js.no_space (Js.replace_ws_go "+" skipping s) = true.
Proof.
  revert skipping. induction s as [| c s IH]; intros skipping;
    [reflexivity |].
  cbn [Js.replace_ws_go].
  destruct (Js.is_space c) eqn:E.
  - destruct skipping; [apply IH |].
    rewrite ParserMoreFacts.no_space_app, IH. reflexivity.
  - cbn [Js.no_space]. rewrite E, IH. reflexivity.
Qed.

Lemma difficulty_name_no_space (d : Difficulty) :
  Js.no_space (difficulty_name d) = true.
Proof. destruct d; reflexivity. Qed.

Lemma url_ok_push (st : list LearningNode * Z) (mk : Z -> LearningNode) :
  (forall i, url_without_space (resource_url (mk i))) ->
  Forall (fun n => url_without_space (resource_url n)) st.1 ->
  Forall (fun n => url_without_space (resource_url n)) (push_next st mk).1.
Proof.
  intros Hmk Hst. destruct st as [nodes next]. simpl in *.
  apply Forall_app. split; [exact Hst |].
  constructor; [apply Hmk | constructor].
Qed.

Lemma url_ok_resources (rs : list LearningResource)
  (st : list LearningNode * Z) :
  forallb (fun r => url_without_space_b (url r)) rs = true ->
  Forall (fun n => url_without_space (resource_url n)) st.1 ->
  Forall (fun n => url_without_space (resource_url n))
    (fold_left (fun st r => push_next st (resource_node r)) rs st).1.
Proof.
  revert st. induction rs as [| r rs IH]; intros st Hres Hst; simpl;
    [exact Hst |].
  simpl in Hres. apply andb_true_iff in Hres. destruct Hres as [Hr Hrs].
  apply (IH _ Hrs). apply url_ok_push; [| exact Hst].
  intros i. simpl. destruct (url r); simpl in *; [exact Hr | exact I].
Qed.

Lemma url_ok_module (d : Q) (st : list LearningNode * Z) (m : TopicModule) :
  forallb (fun r => url_without_space_b (url r)) (resources m) = true ->
  Forall (fun n => url_without_space (resource_url n)) st.1 ->
  Forall (fun n => url_without_space (resource_url n)) (module_step d st m).1.
Proof.
  intros Hres Hst. unfold module_step.
  pose proof (url_ok_resources (resources m) st Hres Hst) as H1.
  destruct (0 <? List.length (exercises m))%nat;
    destruct (0 <? List.length (assessments m))%nat;
    repeat (apply url_ok_push; [intros i; exact I |]); exact H1.
Qed.

Lemma url_ok_modules (d : Q) (ms : list TopicModule)
  (st : list LearningNode * Z) :
  forallb (fun m => forallb (fun r => url_without_space_b (url r))
                      (resources m)) ms = true ->
  Forall (fun n => url_without_space (resource_url n)) st.1 ->
  Forall (fun n => url_without_space (resource_url n))
    (fold_left (module_step d) ms st).1.
Proof.
  revert st. induction ms as [| m ms IH]; intros st Hms Hst; simpl;
    [exact Hst |].
  simpl in Hms. apply andb_true_iff in Hms. destruct Hms as [Hm Hrest].
  apply (IH _ Hrest). apply url_ok_module; assumption.
Qed.

Lemma forallb_firstn {A : Type} (f : A -> bool) (n : nat) (l : list A) :
  forallb f l = true -> forallb f (firstn n l) = true.
Proof.
  revert n. induction l as [| x l IH]; intros n H; destruct n; simpl;
    try reflexivity.
  simpl in H. apply andb_true_iff in H. destruct H as [Hx Hl].
  rewrite Hx. simpl. apply IH, Hl.
Qed.

Lemma database_urls_ok :
  forallb (fun kt => curated_urls_ok kt.2) topicDatabase = true.
Proof. vm_compute. reflexivity. Qed.

(** A search URL: the topic, with its white space replaced, between two
    pieces of text without white space. *)
Lemma search_url_no_space (topic before after : string) :
  Js.no_space before = true -> Js.no_space after = true ->
  Js.no_space (before +:+ Js.replace_ws "+" topic +:+ after) = true.
Proof.
  intros Hb Ha. rewrite !ParserMoreFacts.no_space_app, Hb, Ha.
  unfold Js.replace_ws. rewrite replace_ws_no_space. reflexivity.
Qed.

Lemma video_url_no_space (topic : string) (d : Difficulty) :
  Js.no_space ("https://www.youtube.com/results?search_query="
               +:+ Js.replace_ws "+" topic +:+ "+tutorial+"
               +:+ difficulty_name d) = true.
Proof.
  rewrite !ParserMoreFacts.no_space_app, difficulty_name_no_space.
  unfold Js.replace_ws. rewrite replace_ws_no_space. reflexivity.
Qed.

(** X29.  No resource URL of a generated path contains white space: the
    curated URLs of the templates contain none, and the search URLs of the
    custom path are built from the topic with every run of white space
    replaced by one plus sign. *)
Theorem generated_urls_have_no_space (request : GeneratePathRequest) :
  Forall (fun n => url_without_space (resource_url n))
    (gen_nodes (generatePath request))
  /\ Forall (fun n => url_without_space (resource_url n))
       (gen_nodes (generateFallbackPath request)).
Proof.
  split.
  - destruct (generatePath_shape request) as (_ & _ & Hshape).
    destruct (detectedTopic (detectTopic (query request))) as [topic |],
      (topicKey (detectTopic (query request))) as [key |];
      try contradiction.
    + destruct Hshape as [Hin ->].
      destruct (PathFacts.structured_nodes topic key request) as [d ->].
      apply url_ok_modules; [| constructor].
      pose proof database_urls_ok as Hall.
      rewrite forallb_forall in Hall. specialize (Hall (key, topic) Hin).
      unfold curated_urls_ok in Hall. simpl in Hall.
      unfold selectModulesByDifficulty.
      destruct (request_difficulty_or_beginner request);
        [apply forallb_firstn | apply forallb_firstn |]; exact Hall.
    + rewrite Hshape. unfold generateCustomPath.
      cbn [gen_nodes generateCustomModulesWithResources imap compose
           custom_url].
      repeat constructor; cbn [resource_url url_without_space].
      * apply search_url_no_space; reflexivity.
      * apply video_url_no_space.
      * apply search_url_no_space; reflexivity.
  - unfold generateFallbackPath. cbn [gen_nodes].
    repeat constructor; cbn [resource_url url_without_space].
    + apply search_url_no_space; reflexivity.
    + apply video_url_no_space.
Qed.

End PathMoreFacts.
